(** * translator.py: a shallow embedding of the translation-drift detector

    The development follows the classes of [translator.py]:
    Python text operations, insertion-ordered dictionaries, the fragment of
    [re] the program uses, the two bundle parsers, [Bundle],
    [TranslationGenerator] and [Reconciliator].

    Conventions.
    - A Python [str] is a [string]; its characters are read as code points
      below 256.
    - A Python [dict] is an association list in insertion order whose keys
      are pairwise distinct ([dict_wf]); assignment to an existing key keeps
      its position.
    - A Python [set] of file identifiers is a [gset string]; iterating it
      visits [elements] of it, an order the program has no control over.
    - Values of entry mappings are strings, as in the properties format;
      a JSON document is a flat mapping of strings or is malformed.
    - The disk holds text files: a path is bound to the text that reading
      it gives, or it is not on disk. Directories in the place of files,
      permissions and bytes that do not decode are outside the model, and so
      are the errors they raise.
    - Class-level attributes that the program mutates ([dict_representation]
      of the parsers, [additions], [missing], [data]) are threaded as
      explicit state.
    - [sys.exit] and uncaught exceptions are the [Raise] outcome. *)

From Stdlib Require Import String Ascii List Sorted Permutation.
From stdpp Require Import gmap strings list sorting.

Local Open Scope string_scope.

(** ** Python text operations *)

Module PyStr.

(** [str.isspace] on a single character (code points below 256). *)
Definition is_space (c : ascii) : bool :=
  let n := N_of_ascii c in
  (((9 <=? n) && (n <=? 13)) || ((28 <=? n) && (n <=? 32))
   || (n =? 133) || (n =? 160))%N.

Definition newline : ascii := "010"%char.
Definition quote : ascii := "034"%char.

Fixpoint lstrip_by (p : ascii -> bool) (s : string) : string :=
  match s with
  | "" => ""
  | String c s' => if p c then lstrip_by p s' else s
  end.

Fixpoint rstrip_by (p : ascii -> bool) (s : string) : string :=
  match s with
  | "" => ""
  | String c s' =>
      match rstrip_by p s' with
      | "" => if p c then "" else String c ""
      | r => String c r
      end
  end.

(** [s.strip()] and [s.strip(ch)] for a one-character argument. *)
Definition strip_by (p : ascii -> bool) (s : string) : string :=
  lstrip_by p (rstrip_by p s).

Definition strip (s : string) : string := strip_by is_space s.
Definition strip_char (ch : ascii) (s : string) : string :=
  strip_by (Ascii.eqb ch) s.

(** [s.startswith(ch)] for a one-character argument. *)
Definition startswith (s : string) (ch : ascii) : bool :=
  match s with
  | "" => false
  | String c _ => Ascii.eqb c ch
  end.

(** [s.split(sep)] for a one-character separator: never the empty list. *)
Fixpoint split (sep : ascii) (s : string) : list string :=
  match s with
  | "" => [""]
  | String c s' =>
      if Ascii.eqb c sep then "" :: split sep s'
      else match split sep s' with
           | [] => [String c ""]
           | h :: t => String c h :: t
           end
  end.

(** [sep.join(parts)]. *)
Fixpoint join (sep : ascii) (parts : list string) : string :=
  match parts with
  | [] => ""
  | [x] => x
  | x :: rest => x +:+ String sep (join sep rest)
  end.

(** The lines a text file yields when iterated: each keeps its newline. *)
Fixpoint readlines (s : string) : list string :=
  match s with
  | "" => []
  | String c s' =>
      if Ascii.eqb c newline then String c "" :: readlines s'
      else match readlines s' with
           | [] => [String c ""]
           | h :: t => String c h :: t
           end
  end.

(** [needle in s]. *)
Fixpoint contains (needle s : string) : bool :=
  String.prefix needle s ||
  match s with
  | "" => false
  | String _ s' => contains needle s'
  end.

(** Cutting a string at the first occurrence of a character. *)
Fixpoint cut_first (sep : ascii) (s : string) : option (string * string) :=
  match s with
  | "" => None
  | String c s' =>
      if Ascii.eqb c sep then Some ("", s')
      else match cut_first sep s' with
           | Some (l, r) => Some (String c l, r)
           | None => None
           end
  end.

Fixpoint has_char (ch : ascii) (s : string) : bool :=
  match s with
  | "" => false
  | String c s' => Ascii.eqb c ch || has_char ch s'
  end.

End PyStr.

(** ** Insertion-ordered dictionaries *)

Module PyDict.

Section Dict.
Context {V : Type}.

Definition dict_keys (d : list (string * V)) : list string := map fst d.
Definition dict_values (d : list (string * V)) : list V := map snd d.

Fixpoint dict_get (d : list (string * V)) (k : string) : option V :=
  match d with
  | [] => None
  | (k', v) :: d' => if String.eqb k' k then Some v else dict_get d' k
  end.

(** [d[k] = v]: in place when [k] is bound, appended otherwise. *)
Fixpoint dict_set (d : list (string * V)) (k : string) (v : V)
  : list (string * V) :=
  match d with
  | [] => [(k, v)]
  | (k', v') :: d' =>
      if String.eqb k' k then (k', v) :: d' else (k', v') :: dict_set d' k v
  end.

Definition dict_has (d : list (string * V)) (k : string) : bool :=
  match dict_get d k with Some _ => true | None => false end.

Definition dict_wf (d : list (string * V)) : Prop := NoDup (dict_keys d).

End Dict.

(** [a == b] on dictionaries with string values: same size, same bindings,
    whatever the insertion order. *)
Definition dict_eqb (a b : list (string * string)) : bool :=
  (length a =? length b)%nat &&
  forallb (fun kv => match dict_get b (fst kv) with
                     | Some v' => String.eqb (snd kv) v'
                     | None => false
                     end) a.

End PyDict.

(** ** The fragment of [re] used by [Bundle] *)

Module Re.

Inductive regex :=
| Lit (s : string)          (* literal text *)
| DotStar                   (* [.*]: a run of characters other than newline *)
| NotAhead (r : regex)      (* [(?!r)] *)
| Seq (r1 r2 : regex).

Fixpoint drop_prefix (p s : string) : option string :=
  match p, s with
  | "", _ => Some s
  | String a p', String b s' =>
      if Ascii.eqb a b then drop_prefix p' s' else None
  | String _ _, "" => None
  end.

(** [.*] followed by the continuation [k]: longest run first. *)
Fixpoint dotstar (k : string -> bool) (s : string) : bool :=
  match s with
  | "" => k ""
  | String c s' =>
      if Ascii.eqb c PyStr.newline then k s else dotstar k s' || k s
  end.

(** Backtracking matcher: does [r] match a prefix of [s] whose remainder
    satisfies [k]? *)
Fixpoint accepts (r : regex) (s : string) (k : string -> bool) : bool :=
  match r with
  | Lit l => match drop_prefix l s with Some s' => k s' | None => false end
  | DotStar => dotstar k s
  | NotAhead r' => if accepts r' s (fun _ => true) then false else k s
  | Seq r1 r2 => accepts r1 s (fun s' => accepts r2 s' k)
  end.

(** [re.match(r, s)] as a truth value: anchored at the start only. *)
Definition re_match (r : regex) (s : string) : bool :=
  accepts r s (fun _ => true).

(** Characters with a meaning of their own in a pattern. *)
Definition metachar (c : ascii) : bool :=
  PyStr.has_char c ".^$*+?{}[]\|()".

Fixpoint plain (s : string) : bool :=
  match s with
  | "" => true
  | String c s' => negb (metachar c) && plain s'
  end.

End Re.

(** ** Outcomes *)

Inductive exit_message :=
| MultipleMatches (whoami locale path : string) (found : list string)
| NoMatch (whoami locale path : string).

Inductive exception :=
| SystemExit (m : exit_message)
| NameError (name : string)
| KeyError (key : string)
| FileNotFoundError (file : string)
| JSONDecodeError (file : string).

Inductive result (A : Type) :=
| Ok (a : A)
| Raise (e : exception).
Arguments Ok {A} a.
Arguments Raise {A} e.

#[export] Instance result_bind : MBind result := fun A B f m =>
  match m with
  | Ok a => f a
  | Raise e => Raise e
  end.

(** A [for] loop whose body may raise. *)
Fixpoint for_each {A S : Type} (body : S -> A -> result S) (xs : list A)
  (s : S) : result S :=
  match xs with
  | [] => Ok s
  | x :: xs' => s' ← body s x; for_each body xs' s'
  end.

(** An entry mapping, the parsed form of one file; the mapping from file
    identifier to entry mapping; the two diff results; the manifest. *)
Abbreviation entries := (list (string * string)).
Abbreviation representation := (list (string * list (string * string))).
Abbreviation diff := (list (string * list string)).
Abbreviation manifest := (list (string * list (list (string * list string)))).

Inductive output :=
| Line (s : string)               (* [print(s)] *)
| JsonDump (d : manifest)         (* [print(json.dumps(d, indent=4))] *)
| YamlDump (d : manifest).        (* [print(yaml.dump(d))] *)

(** The disk maps a file identifier to its content, the text that reading
    the file in text mode gives. *)
Record World := mkWorld {
  fs : gmap string string;
  stdout : list output
}.

Import PyStr PyDict.

(** [open(file)] followed by reading it: a missing file raises. A file
    that is there and cannot be read as text has no place on this disk. *)
Definition read_file (w : World) (file : string) : result string :=
  match fs w !! file with
  | Some content => Ok content
  | None => Raise (FileNotFoundError file)
  end.

(** ** class PropertiesParser *)

Module PropertiesParser.

Definition separator : ascii := "="%char.
Definition comment_char : ascii := "#"%char.

(** The body of the loop over the lines of one file. *)
Definition parse_line (current_file_key_val : entries) (line : string)
  : entries :=
  let l := strip line in
  if negb (String.eqb l "") && negb (startswith l comment_char) then
    match split separator l with
    | [] => current_file_key_val
    | first :: rest =>
        let key := strip first in
        let value := strip_char quote (strip (join separator rest)) in
        if negb (String.eqb value "")
        then dict_set current_file_key_val key value
        else current_file_key_val
    end
  else current_file_key_val.

Definition parse_file (content : string) : entries :=
  fold_left parse_line (readlines content) [].

(** [parse_to_dict]: every file is stored into the class-level
    [dict_representation], which is passed in and returned. *)
Definition parse_to_dict (w : World) (files : list string)
  (dict_representation : representation) : result representation :=
  for_each (fun repr file =>
              content ← read_file w file;
              Ok (dict_set repr file (parse_file content)))
           files dict_representation.

(** [PropertiesParser(files).get_as_dictionary()]. *)
Definition get_as_dictionary (w : World) (files : gset string)
  (dict_representation : representation) : result representation :=
  parse_to_dict w (elements files) dict_representation.

End PropertiesParser.

(** ** class JsonParser

    [json.loads] is the library's: it is a parameter [loads], which gives
    the entry mapping of a document, or nothing for a malformed one. A
    document that is well formed and no flat mapping of strings (a list, a
    number, nested objects) is outside the model. *)

Module JsonParser.

Definition parse_to_dict (loads : string -> option entries) (w : World)
  (files : list string) (dict_representation : representation)
  : result representation :=
  for_each (fun repr file =>
              content ← read_file w file;
              match loads content with
              | Some dictdump => Ok (dict_set repr file dictdump)
              | None => Raise (JSONDecodeError file)
              end)
           files dict_representation.

Definition get_as_dictionary (loads : string -> option entries) (w : World)
  (files : gset string) (dict_representation : representation)
  : result representation :=
  parse_to_dict loads w (elements files) dict_representation.

End JsonParser.

(** ** class Bundle *)

Record Bundle := mkBundle {
  path : string;
  extension : string;
  files : gset string;
  default_locale : string
}.

Module Bundle.

Definition whoami : string := "Bundle".

(** [Bundle(path, extension, files, default_locale)]; an absent or empty
    locale is [en_US]. *)
Definition init (path extension : string) (files : list string)
  (default_locale : option string) : Bundle :=
  mkBundle path extension (list_to_set files)
    match default_locale with
    | Some "" | None => "en_US"
    | Some l => l
    end.

(** The pattern [.*_{default_locale}(?!(.*snapshot)).*]. The locale is
    spliced into the pattern text; it is read here as literal text, which is
    what the pattern means for a locale free of pattern metacharacters
    ([Re.plain]). *)
Definition locale_pattern (locale : string) : Re.regex :=
  Re.Seq Re.DotStar
    (Re.Seq (Re.Lit ("_" +:+ locale))
       (Re.Seq (Re.NotAhead (Re.Seq Re.DotStar (Re.Lit "snapshot")))
          Re.DotStar)).

Definition locale_regex_match (b : Bundle) : list string :=
  filter (fun file => Re.re_match (locale_pattern (default_locale b)) file
                      = true)
         (elements (files b)).

Definition get_default_locale_file (b : Bundle) : result string :=
  let found := locale_regex_match b in
  if (1 <? length found)%nat then
    Raise (SystemExit (MultipleMatches whoami (default_locale b) (path b)
                         found))
  else if (length found =? 0)%nat then
    Raise (SystemExit (NoMatch whoami (default_locale b) (path b)))
  else
    match found with
    | file :: _ => Ok file
    | [] => Raise (SystemExit (NoMatch whoami (default_locale b) (path b)))
    end.

(** [snap.write(line)] on a file opened for appending. *)
Definition write (file : string) (fs : gmap string string) (line : string)
  : gmap string string :=
  match fs !! file with
  | Some content => <[file := content +:+ line]> fs
  | None => <[file := line]> fs
  end.

(** Opening the snapshot for appending creates it empty, in a directory
    taken to be there and writable. A call that raises returns no world:
    what it leaves on disk is not recorded. *)
Definition generate_snapshot_file (b : Bundle) (w : World)
  : result (string * Bundle * World) :=
  default_locale_path ← get_default_locale_file b;
  let snapshot_file_path := default_locale_path +:+ ".snapshot" in
  w' ← match fs w !! snapshot_file_path with
       | Some _ => Ok w
       | None =>
           let out := (stdout w ++
             [Line ("generating snapshot file " +:+ snapshot_file_path
                    +:+ " based on " +:+ default_locale_path)])%list in
           let opened := mkWorld (<[snapshot_file_path := ""]> (fs w)) out in
           content ← read_file opened default_locale_path;
           Ok (mkWorld (fold_left (write snapshot_file_path)
                          (readlines content) (fs opened)) out)
       end;
  let b' := if decide (snapshot_file_path ∈ files b) then b
            else mkBundle (path b) (extension b)
                   ({[snapshot_file_path]} ∪ files b) (default_locale b) in
  Ok (snapshot_file_path, b', w').

End Bundle.

(** ** Program state: the world and the class-level attributes *)

Record state := mkState {
  world : World;
  json_representation : representation;       (* JsonParser *)
  properties_representation : representation; (* PropertiesParser *)
  additions : diff;                           (* TranslationGenerator *)
  missing : diff;                             (* TranslationGenerator *)
  data : manifest                             (* Reconciliator *)
}.

Definition initial_state (w : World) : state := mkState w [] [] [] [] [].

(** ** class TranslationGenerator *)

Module TranslationGenerator.

(** [bundle[file]]. *)
Definition item (bundle : representation) (file : string) : result entries :=
  match dict_get bundle file with
  | Some d => Ok d
  | None => Raise (KeyError file)
  end.

(** The comprehension of [check_missing_keys_in_other_locales]. *)
Definition missing_keys (source_dict candidate_dict : entries)
  : list string :=
  map (fun kv => fst kv +:+ ": " +:+ snd kv)
      (filter (fun kv => dict_has candidate_dict (fst kv) = false)
              source_dict).

Definition check_missing_keys_in_other_locales (source : string)
  (bundle : representation) (missing : diff) : result diff :=
  source_dict ← item bundle source;
  for_each (fun missing file =>
              candidate_dict ← item bundle file;
              match missing_keys source_dict candidate_dict with
              | [] => Ok missing
              | found => Ok (dict_set missing file found)
              end)
           (dict_keys bundle) missing.

(** The comprehension of [new_entries]: [candidate_dict[x]] for each key
    [x] whose value is not among the source's values. *)
Definition new_values (source_dict candidate_dict : entries) : list string :=
  flat_map (fun x => match dict_get candidate_dict x with
                     | Some v => if decide (v ∈ dict_values source_dict)
                                 then [] else [v]
                     | None => []
                     end)
           (dict_keys candidate_dict).

Definition new_entries (source candidate : string) (bundle : representation)
  (additions : diff) : result diff :=
  source_dict ← item bundle source;
  candidate_dict ← item bundle candidate;
  if negb (dict_eqb source_dict candidate_dict) then
    match new_values source_dict candidate_dict with
    | [] => Ok additions
    | found => Ok (dict_set additions candidate found)
    end
  else Ok additions.

Definition process_bundle (loads : string -> option entries) (b : Bundle)
  (st : state) : result (Bundle * state) :=
  '(parsed_bundle, st1) ←
     (if String.eqb (extension b) "json" then
        r ← JsonParser.get_as_dictionary loads (world st) (files b)
              (json_representation st);
        Ok (r, mkState (world st) r (properties_representation st)
                  (additions st) (missing st) (data st))
      else if String.eqb (extension b) "properties" then
        r ← PropertiesParser.get_as_dictionary (world st) (files b)
              (properties_representation st);
        Ok (r, mkState (world st) (json_representation st) r
                  (additions st) (missing st) (data st))
      else Raise (NameError "whoami"));
  '(snapshot_file, b', w') ← Bundle.generate_snapshot_file b (world st1);
  default_locale ← Bundle.get_default_locale_file b';
  additions' ← new_entries snapshot_file default_locale parsed_bundle
                 (additions st1);
  missing' ← check_missing_keys_in_other_locales snapshot_file parsed_bundle
               (missing st1);
  Ok (b', mkState w' (json_representation st1)
            (properties_representation st1) additions' missing' (data st1)).

(** The loop of [generate_all]; the bundles are objects, returned as the
    loop leaves them. *)
Fixpoint process_all (loads : string -> option entries)
  (all_bundles : list Bundle) (st : state) : result (list Bundle * state) :=
  match all_bundles with
  | [] => Ok ([], st)
  | b :: rest =>
      '(b', st1) ← process_bundle loads b st;
      '(rest', st2) ← process_all loads rest st1;
      Ok (b' :: rest', st2)
  end.

End TranslationGenerator.

(** ** class Reconciliator *)

Module Reconciliator.

(** [sorted(strings)] on strings: the ordering is by code point. *)
Fixpoint insert_sorted (x : string) (l : list string) : list string :=
  match l with
  | [] => [x]
  | y :: l' => if String.leb x y then x :: l else y :: insert_sorted x l'
  end.

Definition sorted (l : list string) : list string :=
  fold_right insert_sorted [] l.

(** [self.data.get(key) or []]. *)
Definition get_or_empty (data : manifest) (key : string)
  : list (list (string * list string)) :=
  match dict_get data key with
  | Some l => l
  | None => []
  end.

(** One of the two loops of [print_manifest]. *)
Definition collect (key : string) (d : diff) (data : manifest) : manifest :=
  fold_left (fun data ls =>
               dict_set data key
                 (get_or_empty data key ++ [[(fst ls, sorted (snd ls))]])%list)
            d data.

Definition print_manifest (output_option : string) (missing added : diff)
  (data : manifest) (w : World) : manifest * World :=
  let data' := collect "missing" missing (collect "added" added data) in
  let nonempty := match data' with [] => false | _ => true end in
  if String.eqb output_option "json" && nonempty then
    (data', mkWorld (fs w) (stdout w ++ [JsonDump data'])%list)
  else if String.eqb output_option "yaml" && nonempty then
    (data', mkWorld (fs w) (stdout w ++ [YamlDump data'])%list)
  else (data', w).

End Reconciliator.

(** ** [generate_all], [Bundler.gather] and [Driver.main] *)

Definition generate_all (loads : string -> option entries)
  (output_option : string) (all_bundles : list Bundle) (st : state)
  : result (list Bundle * state) :=
  '(bundles', st1) ← TranslationGenerator.process_all loads all_bundles st;
  let '(data', w') :=
    Reconciliator.print_manifest output_option (missing st1) (additions st1)
      (data st1) (world st1) in
  Ok (bundles', mkState w' (json_representation st1)
                  (properties_representation st1) (additions st1)
                  (missing st1) data').

(** The second loop of [Bundler.gather]: every bundle gets its snapshot. *)
Fixpoint gather (all_bundles : list Bundle) (w : World)
  : result (list Bundle * World) :=
  match all_bundles with
  | [] => Ok ([], w)
  | b :: rest =>
      '(_, b', w1) ← Bundle.generate_snapshot_file b w;
      '(rest', w2) ← gather rest w1;
      Ok (b' :: rest', w2)
  end.

(** [Driver.main] from the bundles that [Bundler.parse_bundle] built out of
    the configuration and the directory listings. *)
Definition main (loads : string -> option entries) (output_option : string)
  (configured : list Bundle) (w : World) : result (list Bundle * state) :=
  '(all_bundles, w1) ← gather configured w;
  generate_all loads output_option all_bundles (initial_state w1).

(** ** The configuration side: [Validator], [Bundler], [Driver]

    What the program asks the operating system is a parameter: the three
    calls of [os] it makes on directories. A bundle declaration of the
    configuration is a dictionary with string values; the configuration is
    a dictionary whose [bundles] key holds the sequence of declarations. *)

Record Env := mkEnv {
  realpath : string -> string;               (* [os.path.realpath] *)
  path_exists : string -> bool;              (* [os.path.exists] *)
  listdir : string -> option (list string)   (* [os.listdir], if it returns *)
}.

Abbreviation declaration := (list (string * string)).
Abbreviation configuration := (list (string * list (list (string * string)))).

Module PyPath.

(** [s.endswith(suffix)]. *)
Fixpoint endswith (s suffix : string) : bool :=
  String.eqb s suffix ||
  match s with
  | "" => false
  | String _ s' => endswith s' suffix
  end.

(** [os.path.join(a, b)] of [posixpath]. *)
Definition join (a b : string) : string :=
  if startswith b "/" then b
  else if String.eqb a "" || endswith a "/" then a +:+ b
  else a +:+ "/" +:+ b.

End PyPath.

Definition config_file : string := "translation-config.yml".

(** The messages [Validator] exits with. *)
Inductive validator_exit :=
| PathDoesNotExist (whoami path : string)
| UnsupportedType (whoami extension : string) (accepted : list string)
| NoFileFound (whoami extension path : string)
| NoBundles (whoami config : string)
| MissingKeys (whoami : string) (required : list string).

(** How a run ends when it does not complete. *)
Inductive failure :=
| Exit (m : validator_exit)          (* [sys.exit] of [Validator] *)
| TypeError                          (* [None] where a string is needed *)
| OSError (dir : string)             (* [os.listdir] raising *)
| UnboundLocalError (name : string)
| NoneExtension                      (* a bundle object would hold [None] as
                                        extension: [Bundle] has no such value *)
| Raised (e : exception).            (* raised by the classes above *)

Inductive outcome (A : Type) :=
| Done (a : A)
| Failed (f : failure).
Arguments Done {A} a.
Arguments Failed {A} f.

#[export] Instance outcome_bind : MBind outcome := fun A B f m =>
  match m with
  | Done a => f a
  | Failed e => Failed e
  end.

Definition lift {A : Type} (r : result A) : outcome A :=
  match r with
  | Ok a => Done a
  | Raise e => Failed (Raised e)
  end.

(** A [for] loop of the configuration side. *)
Fixpoint for_all {A S : Type} (body : S -> A -> outcome S) (xs : list A)
  (s : S) : outcome S :=
  match xs with
  | [] => Done s
  | x :: xs' => s' ← body s x; for_all body xs' s'
  end.

(** [os.listdir(dir)]. *)
Definition list_directory (env : Env) (dir : string) : outcome (list string) :=
  match listdir env dir with
  | Some names => Done names
  | None => Failed (OSError dir)
  end.

(** A value that must be a string: [bundle.get(key)] handed to a string
    operation. *)
Definition get_string (d : declaration) (key : string) : outcome string :=
  match dict_get d key with
  | Some v => Done v
  | None => Failed TypeError
  end.

(** ** class Validator *)

Module Validator.

Definition whoami : string := "Validator".
Definition ACCEPTED_FILE_TYPES : list string := ["properties"; "json"].
Definition REQUIRED_KEYS : list string := ["path"; "extension"].

Definition validate_keys_in_bundle (bundle : declaration) : outcome unit :=
  match filter (fun k => dict_has bundle k = false) REQUIRED_KEYS with
  | [] => Done tt
  | _ => Failed (Exit (MissingKeys whoami (Reconciliator.sorted REQUIRED_KEYS)))
  end.

(** The body of the loop of [validate]. *)
Definition validate_bundle (env : Env) (bundle : declaration) : outcome unit :=
  _ ← validate_keys_in_bundle bundle;
  declared ← get_string bundle "path";
  let path := realpath env declared in
  if negb (path_exists env path) then
    Failed (Exit (PathDoesNotExist whoami path))
  else
    match dict_get bundle "extension" with
    | None => Failed (Exit (UnsupportedType whoami "None"
                              (Reconciliator.sorted ACCEPTED_FILE_TYPES)))
    | Some extension =>
        if negb (bool_decide (extension ∈ ACCEPTED_FILE_TYPES)) then
          Failed (Exit (UnsupportedType whoami extension
                          (Reconciliator.sorted ACCEPTED_FILE_TYPES)))
        else
          names ← list_directory env path;
          if existsb (fun fname => PyPath.endswith fname extension) names
          then Done tt
          else Failed (Exit (NoFileFound whoami extension path))
    end.

Definition validate (env : Env) (data : configuration) : outcome unit :=
  match dict_get data "bundles" with
  | Some (first :: rest) =>
      for_all (fun _ bundle => validate_bundle env bundle) (first :: rest) tt
  | _ => Failed (Exit (NoBundles whoami config_file))
  end.

End Validator.

(** ** class Bundler *)

Module Bundler.

(** [parse_bundle]: the bundle object is appended to the class-level
    [all_bundles], which is passed in and returned. *)
Definition parse_bundle (env : Env) (bundle : declaration)
  (all_bundles : list Bundle) : outcome (list Bundle) :=
  path ← get_string bundle "path";
  let resolved_path := realpath env path in
  names ← list_directory env resolved_path;
  all_files_in_bundle_path ←
    for_all (fun found file =>
               extension ← get_string bundle "extension";
               if PyPath.endswith file extension
               then Done (found ++ [PyPath.join resolved_path file])%list
               else Done found)
            names [];
  match dict_get bundle "extension" with
  | None => Failed NoneExtension
  | Some extension =>
      Done (all_bundles ++
            [Bundle.init resolved_path extension all_files_in_bundle_path
               (dict_get bundle "default_locale")])%list
  end.

(** The first loop of [gather]. *)
Definition parse_all (env : Env) (bundles : list declaration)
  (all_bundles : list Bundle) : outcome (list Bundle) :=
  for_all (fun all bundle => parse_bundle env bundle all) bundles all_bundles.

(** [gather]: its first loop, then the loop over [all_bundles]. *)
Definition gather_all (env : Env) (data : configuration)
  (all_bundles : list Bundle) (w : World) : outcome (list Bundle * World) :=
  match dict_get data "bundles" with
  | None => Failed TypeError
  | Some bundles =>
      parsed ← parse_all env bundles all_bundles;
      lift (gather parsed w)
  end.

End Bundler.

(** ** class Driver *)

Module Driver.

(** [load_config]: the configuration file is given by its parsed content,
    or is absent; when absent, [data] is returned without being bound. *)
Definition load_config (file : option configuration) : outcome configuration :=
  match file with
  | Some data => Done data
  | None => Failed (UnboundLocalError "data")
  end.

(** [main] once the arguments are parsed: [output_option] is
    [options.output]. *)
Definition main (loads : string -> option entries) (env : Env)
  (file : option configuration) (output_option : string) (w : World)
  : outcome (list Bundle * state) :=
  data ← load_config file;
  _ ← Validator.validate env data;
  '(all_bundles, w1) ← Bundler.gather_all env data [] w;
  lift (generate_all loads output_option all_bundles (initial_state w1)).

End Driver.

(** ** Reference definitions

    Definitions that follow the words of the specification, to compare the
    code with. *)

(** What the parser's contract says a line contributes: nothing for a
    comment (first non-whitespace character [#]) and for a line without
    separator; otherwise the line is cut at the first separator, the key is
    the left side trimmed, the value is the remainder trimmed of whitespace
    and then of surrounding quote characters, and an empty value is dropped. *)
Definition spec_line_entry (line : string) : option (string * string) :=
  if startswith (lstrip_by is_space line) PropertiesParser.comment_char
  then None
  else match cut_first PropertiesParser.separator line with
       | None => None
       | Some (lhs, remainder) =>
           let value := strip_char quote (strip remainder) in
           if String.eqb value "" then None else Some (strip lhs, value)
       end.

Definition store (d : entries) (e : option (string * string)) : entries :=
  match e with
  | Some (k, v) => dict_set d k v
  | None => d
  end.

(** The contract of the properties parser for one line, written on the raw
    line without the text operations of the code. *)

(** Whitespace: the characters below 256 that count as space. *)
Definition blank (c : ascii) : bool :=
  existsb (Ascii.eqb c)
    [" "; "009"; "010"; "011"; "012"; "013"; "028"; "029"; "030"; "031";
     "133"; "160"]%char.

Definition double_quote (c : ascii) : bool := Ascii.eqb c "034".

Definition other_than (ch : ascii) (c : ascii) : bool := negb (Ascii.eqb c ch).

(** Every character of [s] satisfies [p]. *)
Fixpoint only (p : ascii -> bool) (s : string) : bool :=
  match s with
  | "" => true
  | String c s' => p c && only p s'
  end.

Definition first_char (s : string) : option ascii :=
  match s with
  | "" => None
  | String c _ => Some c
  end.

Fixpoint last_char (s : string) : option ascii :=
  match s with
  | "" => None
  | String c "" => Some c
  | String _ s' => last_char s'
  end.

(** [r] is [s] trimmed of the characters [p]: what is left of [s] once the
    longest run of [p] is taken off each end. *)
Definition trimmed (p : ascii -> bool) (s r : string) : Prop :=
  exists pre post,
    s = pre +:+ r +:+ post
    /\ only p pre = true /\ only p post = true
    /\ (forall c, first_char r = Some c -> p c = false)
    /\ (forall c, last_char r = Some c -> p c = false).

(** A comment: the first character that is not whitespace is [#]. *)
Definition comment_line (line : string) : Prop :=
  exists pre rest, line = pre +:+ String "#" rest /\ only blank pre = true.

(** The line holds the entry [k], [v]: it is no comment, it is cut at its
    first [=], [k] is the left side trimmed of whitespace, [v] is the
    remainder trimmed of whitespace and then of quote characters, and [v] is
    not empty. *)
Definition line_entry (line k v : string) : Prop :=
  ~ comment_line line
  /\ exists lhs remainder u,
       line = lhs +:+ String "=" remainder
       /\ only (other_than "=") lhs = true
       /\ trimmed blank lhs k
       /\ trimmed blank remainder u
       /\ trimmed double_quote u v
       /\ v <> "".

(** The line holds no entry: it is empty or blank, it is a comment, it has
    no [=], or its value comes out empty. *)
Definition line_skipped (line : string) : Prop :=
  only blank line = true
  \/ comment_line line
  \/ only (other_than "=") line = true
  \/ exists lhs remainder u,
       line = lhs +:+ String "=" remainder
       /\ only (other_than "=") lhs = true
       /\ trimmed blank remainder u
       /\ only double_quote u = true.

(** The order [sorted] sorts by. *)
Definition string_le (a b : string) : Prop := String.leb a b = true.

(** One item of the sequences of the manifest: a single-key mapping from
    the file identifier to its sorted strings. *)
Definition single_key (ls : string * list string)
  : list (string * list string) :=
  [(fst ls, Reconciliator.sorted (snd ls))].

(** The manifest that the reporter's contract describes: under [added] and
    under [missing] the sequence of single-key mappings, a key left out when
    its mapping is empty. *)
Definition spec_manifest (missing added : diff) : manifest :=
  (match added with
   | [] => []
   | _ => [("added", map single_key added)]
   end ++
   match missing with
   | [] => []
   | _ => [("missing", map single_key missing)]
   end)%list.

(** The lookahead of the locale pattern: [snapshot] follows on the line. *)
Definition ahead (s : string) : bool :=
  Re.accepts (Re.Seq Re.DotStar (Re.Lit "snapshot")) s (fun _ => true).

(** What the locale pattern still has to match once its leading [.*] has
    stopped: the locale, with no [snapshot] after it. *)
Definition at_locale (locale s : string) : bool :=
  match Re.drop_prefix ("_" +:+ locale) s with
  | Some rest => negb (ahead rest)
  | None => false
  end.

(** What the documentation of [get_default_locale_file] says a match is:
    the name holds [_<default_locale>] and does not hold [snapshot]. *)
Definition documented_match (locale file : string) : bool :=
  contains ("_" +:+ locale) file && negb (contains "snapshot" file).

(** What a parser makes of the content of a file of a bundle with the
    given extension. *)
Definition parsed_form (loads : string -> option entries)
  (extension content : string) : option entries :=
  if String.eqb extension "json" then loads content
  else if String.eqb extension "properties"
       then Some (PropertiesParser.parse_file content)
       else None.

(** The dictionary of the parser that serves the given extension. *)
Definition parser_representation (extension : string) (st : state)
  : representation :=
  if String.eqb extension "json" then json_representation st
  else properties_representation st.

(** The results and the parsers' dictionaries only speak of files that
    are [known], and no result is an empty list. *)
Definition results_sound (known : string -> Prop) (st : state) : Prop :=
  (forall f l, dict_get (additions st) f = Some l -> l <> [] /\ known f)
  /\ (forall f l, dict_get (missing st) f = Some l -> l <> [] /\ known f)
  /\ (forall f, f ∈ dict_keys (json_representation st) -> known f)
  /\ (forall f, f ∈ dict_keys (properties_representation st) -> known f).

(** The snapshot of the bundle is among its files and on disk. *)
Definition snapshot_ready (b : Bundle) (w : World) : Prop :=
  forall d, Bundle.get_default_locale_file b = Ok d ->
            d +:+ ".snapshot" ∈ files b
            /\ is_Some (fs w !! (d +:+ ".snapshot")).

(** A bundle declaration that passes every check of [Validator.validate]:
    it has a path and an extension, the resolved path exists, the extension
    is an accepted one, and the directory lists a file that ends with the
    extension. *)
Definition valid_declaration (env : Env) (bundle : declaration) : Prop :=
  exists path extension names,
    dict_get bundle "path" = Some path
    /\ dict_get bundle "extension" = Some extension
    /\ path_exists env (realpath env path) = true
    /\ extension ∈ Validator.ACCEPTED_FILE_TYPES
    /\ listdir env (realpath env path) = Some names
    /\ exists fname, fname ∈ names /\ PyPath.endswith fname extension = true.

(** The bundle object that [Bundler.parse_bundle] builds for a declaration
    whose directory lists [names]. *)
Definition bundle_of (env : Env) (bundle : declaration) (b : Bundle) : Prop :=
  exists path extension names,
    dict_get bundle "path" = Some path
    /\ dict_get bundle "extension" = Some extension
    /\ listdir env (realpath env path) = Some names
    /\ b = Bundle.init (realpath env path) extension
             (map (PyPath.join (realpath env path))
                (filter (fun fname => PyPath.endswith fname extension = true)
                   names))
             (dict_get bundle "default_locale").

(** The exceptions other than [NameError] and [KeyError]: an exit, a file
    that is not on disk, a malformed document. *)
Definition expected_exception (e : exception) : Prop :=
  match e with
  | SystemExit _ | FileNotFoundError _ | JSONDecodeError _ => True
  | NameError _ | KeyError _ => False
  end.

(** ** Example bundles *)

Definition nl : string := String newline "".

(** Two fully translated properties bundles, in two directories. *)
Definition l10n_bundle : Bundle :=
  Bundle.init "/l10n" "properties"
    ["/l10n/m_en_US.properties"; "/l10n/m_fr.properties"] None.

Definition help_bundle : Bundle :=
  Bundle.init "/help" "properties"
    ["/help/h_en_US.properties"; "/help/h_fr.properties"] None.

Definition disk : World :=
  mkWorld (<["/l10n/m_en_US.properties" := "greeting=hello" +:+ nl]>
          (<["/l10n/m_fr.properties" := "greeting=bonjour" +:+ nl]>
          (<["/help/h_en_US.properties" := "title=Help" +:+ nl]>
          (<["/help/h_fr.properties" := "title=Aide" +:+ nl]> ∅)))) [].

(** A bundle whose only [en_US] file has [snapshot] in its name. *)
Definition prefixed_bundle : Bundle :=
  Bundle.init "/l10n" "json"
    ["/l10n/snapshot_en_US.json"; "/l10n/snapshot_fr.json"] None.

(** A bundle of a format without parser. *)
Definition xml_bundle : Bundle :=
  Bundle.init "/l10n" "xml" ["/l10n/m_en_US.xml"] None.

(** A directory with two locale files, a snapshot and another file, and a
    configuration that declares it. *)
Definition l10n_env : Env :=
  mkEnv (fun p => p) (fun p => String.eqb p "/l10n")
    (fun p => if String.eqb p "/l10n"
              then Some ["m_en_US.properties"; "m_fr.properties";
                         "m_en_US.properties.snapshot"; "README"]
              else None).

Definition l10n_config : configuration :=
  [("bundles", [[("path", "/l10n"); ("extension", "properties")]])].

(** [l10n_bundle] and the disk once the snapshot is in place. *)
Definition l10n_gathered : Bundle :=
  Bundle.init "/l10n" "properties"
    ["/l10n/m_en_US.properties"; "/l10n/m_fr.properties";
     "/l10n/m_en_US.properties.snapshot"] None.

Definition disk_with_snapshot : World :=
  mkWorld (<["/l10n/m_en_US.properties.snapshot" := "greeting=hello" +:+ nl]>
             (fs disk)) [].

(** A bundle whose default locale file has a line break in its name, and a
    disk that holds the file. *)
Definition line_break_file : string :=
  "/l10n/m_en_US" +:+ nl +:+ ".properties".

Definition line_break_bundle : Bundle :=
  Bundle.init "/l10n" "properties" [line_break_file] None.

Definition line_break_disk : World :=
  mkWorld (<[line_break_file := "greeting=hello" +:+ nl]> ∅) [].

(** * Properties *)

(** ** Text operations *)

Section StripFacts.
Variable p : ascii -> bool.

Lemma lstrip_by_idem s : lstrip_by p (lstrip_by p s) = lstrip_by p s.
Proof.
  induction s as [|c s IH]; simpl; [done|].
  destruct (p c) eqn:Hc; [done|]. simpl. by rewrite Hc.
Qed.

Lemma rstrip_by_cons c s :
  rstrip_by p (String c s) =
  if String.eqb (rstrip_by p s) "" then (if p c then "" else String c "")
  else String c (rstrip_by p s).
Proof. simpl. by destruct (rstrip_by p s). Qed.

Lemma rstrip_by_idem s : rstrip_by p (rstrip_by p s) = rstrip_by p s.
Proof.
  induction s as [|c s IH]; [done|].
  rewrite rstrip_by_cons.
  destruct (rstrip_by p s) as [|c' r] eqn:Hr; simpl.
  - destruct (p c) eqn:Hc; simpl; [done|]. by rewrite Hc.
  - simpl in IH. rewrite IH. done.
Qed.

Lemma strip_by_comm s :
  lstrip_by p (rstrip_by p s) = rstrip_by p (lstrip_by p s).
Proof.
  induction s as [|c s IH]; [done|].
  rewrite rstrip_by_cons. cbn [lstrip_by].
  destruct (p c) eqn:Hc.
  - rewrite <- IH. destruct (rstrip_by p s) as [|c' r]; simpl; [done|].
    by rewrite Hc.
  - rewrite rstrip_by_cons.
    destruct (rstrip_by p s) as [|c' r]; simpl; by rewrite Hc.
Qed.

Lemma strip_by_lstrip s : strip_by p (lstrip_by p s) = strip_by p s.
Proof.
  unfold strip_by. by rewrite <- strip_by_comm, lstrip_by_idem.
Qed.

Lemma strip_by_rstrip s : strip_by p (rstrip_by p s) = strip_by p s.
Proof. unfold strip_by. by rewrite rstrip_by_idem. Qed.

Lemma startswith_rstrip_by s ch :
  p ch = false -> startswith (rstrip_by p s) ch = startswith s ch.
Proof.
  intros Hch. destruct s as [|c s]; [done|].
  rewrite rstrip_by_cons.
  destruct (String.eqb (rstrip_by p s) ""); [|done].
  destruct (p c) eqn:Hc; [|done]. simpl.
  symmetry. apply Ascii.eqb_neq. congruence.
Qed.

Lemma cut_first_rstrip_by sep s :
  p sep = false ->
  cut_first sep (rstrip_by p s) =
  match cut_first sep s with
  | Some (a, r) => Some (a, rstrip_by p r)
  | None => None
  end.
Proof.
  intros Hsep. induction s as [|c s IH]; [done|].
  rewrite rstrip_by_cons. cbn [cut_first].
  destruct (Ascii.eqb c sep) eqn:Hc.
  - apply Ascii.eqb_eq in Hc as ->. rewrite Hsep.
    destruct (rstrip_by p s); simpl; by rewrite Ascii.eqb_refl.
  - destruct (rstrip_by p s) as [|c' r] eqn:Hr; simpl.
    + simpl in IH. destruct (cut_first sep s) as [[a r']|]; [done|].
      destruct (p c); simpl; [done|]. by rewrite Hc.
    + rewrite Hc. cbn [cut_first] in IH. rewrite IH.
      by destruct (cut_first sep s) as [[a r']|].
Qed.

Lemma cut_first_lstrip_by sep s :
  p sep = false ->
  cut_first sep (lstrip_by p s) =
  match cut_first sep s with
  | Some (a, r) => Some (lstrip_by p a, r)
  | None => None
  end.
Proof.
  intros Hsep. induction s as [|c s IH]; [done|].
  cbn [lstrip_by cut_first].
  destruct (p c) eqn:Hc.
  - assert (Ascii.eqb c sep = false) as ->
      by (apply Ascii.eqb_neq; congruence).
    rewrite IH. destruct (cut_first sep s) as [[a r]|]; [|done].
    simpl. by rewrite Hc.
  - cbn [cut_first]. destruct (Ascii.eqb c sep); [done|].
    destruct (cut_first sep s) as [[a r]|]; [|done].
    simpl. by rewrite Hc.
Qed.

End StripFacts.

Lemma append_cons c s t : String c s +:+ t = String c (s +:+ t).
Proof. done. Qed.

Lemma append_nil_r s : s +:+ "" = s.
Proof. induction s as [|c s IH]; [done|]. by rewrite append_cons, IH. Qed.

Lemma append_assoc s t u : (s +:+ t) +:+ u = s +:+ (t +:+ u).
Proof.
  induction s as [|c s IH]; [done|]. by rewrite !append_cons, IH.
Qed.

Lemma length_append s t :
  String.length (s +:+ t) = (String.length s + String.length t)%nat.
Proof.
  induction s as [|c s IH]; [done|]. rewrite append_cons. simpl. by rewrite IH.
Qed.

Lemma append_ne s t : t <> "" -> s +:+ t <> s.
Proof.
  intros Ht Heq. apply Ht.
  assert (Hlen : String.length (s +:+ t) = String.length s) by by rewrite Heq.
  rewrite length_append in Hlen. destruct t; [done|]. simpl in Hlen. lia.
Qed.

Lemma append_nil_l s : "" +:+ s = s.
Proof. done. Qed.

Lemma split_cut_first sep s :
  split sep s = match cut_first sep s with
                | Some (a, r) => a :: split sep r
                | None => [s]
                end.
Proof.
  induction s as [|c s IH]; [done|]. simpl.
  destruct (Ascii.eqb c sep); [done|].
  rewrite IH. by destruct (cut_first sep s) as [[a r]|].
Qed.

Lemma join_split sep s : join sep (split sep s) = s.
Proof.
  induction s as [|c s IH]; [done|]. simpl.
  destruct (Ascii.eqb c sep) eqn:Hc.
  - apply Ascii.eqb_eq in Hc as ->.
    cbn [join]. rewrite IH.
    destruct (split sep s) eqn:Hs; [|done].
    simpl in IH. by subst s.
  - destruct (split sep s) as [|h t]; [by simpl in IH; subst s|].
    destruct t as [|h' t]; simpl in *; by subst s.
Qed.


(** [cut_first] cuts at the first separator and nowhere else. *)
Lemma cut_first_Some sep s a r :
  cut_first sep s = Some (a, r) <->
  s = a +:+ String sep r /\ has_char sep a = false.
Proof.
  revert a. induction s as [|c s IH]; intros a; simpl.
  - split; [done|]. intros [H _]. by destruct a.
  - destruct (Ascii.eqb c sep) eqn:Hc.
    + apply Ascii.eqb_eq in Hc as ->. split.
      * intros [= <- <-]. by split.
      * intros [H Ha]. destruct a as [|c' a]; simpl in *.
        { by injection H as ->. }
        injection H as <- _. by rewrite Ascii.eqb_refl in Ha.
    + split.
      * destruct (cut_first sep s) as [[a' r']|]; [|done].
        intros [= <- <-]. simpl. rewrite Hc. simpl.
        destruct (proj1 (IH a') eq_refl) as [-> Ha']. done.
      * intros [H Ha]. destruct a as [|c' a]; simpl in *.
        { injection H as -> _. by rewrite Ascii.eqb_refl in Hc. }
        injection H as <- Hs. rewrite Hc in Ha. simpl in Ha.
        by rewrite (proj2 (IH a) (conj Hs Ha)).
Qed.

Lemma cut_first_None sep s :
  cut_first sep s = None <-> has_char sep s = false.
Proof.
  induction s as [|c s IH]; simpl; [done|].
  destruct (Ascii.eqb c sep); simpl; [done|].
  rewrite <- IH. by destruct (cut_first sep s) as [[a r]|].
Qed.

Lemma cut_first_strip sep s :
  is_space sep = false ->
  cut_first sep (strip s) =
  match cut_first sep s with
  | Some (a, r) => Some (lstrip_by is_space a, rstrip_by is_space r)
  | None => None
  end.
Proof.
  intros Hsep. unfold strip, strip_by.
  rewrite cut_first_lstrip_by, cut_first_rstrip_by by done.
  by destruct (cut_first sep s) as [[a r]|].
Qed.

Lemma startswith_strip s ch :
  is_space ch = false ->
  startswith (strip s) ch = startswith (lstrip_by is_space s) ch.
Proof.
  intros Hch. unfold strip, strip_by.
  by rewrite strip_by_comm, startswith_rstrip_by.
Qed.

Lemma parse_line_entry (d : entries) (line : string) :
  PropertiesParser.parse_line d line = store d (spec_line_entry line).
Proof.
  unfold PropertiesParser.parse_line, spec_line_entry.
  rewrite startswith_strip by done.
  destruct (startswith (lstrip_by is_space line) _) eqn:Hstart.
  { simpl. by rewrite andb_false_r. }
  rewrite andb_true_r, split_cut_first.
  pose proof (cut_first_strip PropertiesParser.separator line eq_refl) as Hcut.
  destruct (cut_first PropertiesParser.separator line) as [[a r]|].
  - rewrite Hcut.
    destruct (String.eqb (strip line) "") eqn:He.
    { apply String.eqb_eq in He. by rewrite He in Hcut. }
    cbn [negb]. rewrite join_split.
    unfold strip at 1 2 3. rewrite strip_by_lstrip, strip_by_rstrip.
    fold (strip a). fold (strip r).
    by destruct (String.eqb (strip_char quote (strip r)) "").
  - rewrite Hcut. by destruct (negb _).
Qed.

(** ** Dictionaries *)

Section DictFacts.
Context {V : Type}.
Implicit Types (d : list (string * V)) (k : string) (v : V).

Lemma dict_get_set_eq d k v : dict_get (dict_set d k v) k = Some v.
Proof.
  induction d as [|[k' v'] d IH]; simpl.
  - by rewrite String.eqb_refl.
  - destruct (String.eqb k' k) eqn:Hk; simpl; by rewrite Hk.
Qed.

Lemma dict_get_set_ne d k k' v :
  k <> k' -> dict_get (dict_set d k v) k' = dict_get d k'.
Proof.
  intros Hne. induction d as [|[k0 v0] d IH]; simpl.
  - by apply String.eqb_neq in Hne as ->.
  - destruct (String.eqb k0 k) eqn:Hk; simpl; [|by rewrite IH].
    apply String.eqb_eq in Hk as ->.
    by apply String.eqb_neq in Hne as ->.
Qed.

Lemma dict_get_None d k : dict_get d k = None <-> k ∉ dict_keys d.
Proof.
  induction d as [|[k' v'] d IH]; simpl.
  - split; [intros _; apply not_elem_of_nil | done].
  - rewrite not_elem_of_cons, <- IH.
    destruct (String.eqb k' k) eqn:Hk.
    + apply String.eqb_eq in Hk as ->. split; [done | by intros [? _]].
    + apply String.eqb_neq in Hk. split; [by intros ?; split | by intros [_ ?]].
Qed.

Lemma dict_get_Some_elem d k v : dict_get d k = Some v -> (k, v) ∈ d.
Proof.
  induction d as [|[k' v'] d IH]; simpl; [done|].
  destruct (String.eqb k' k) eqn:Hk.
  - apply String.eqb_eq in Hk as ->. intros [= ->]. apply list_elem_of_here.
  - intros H. apply list_elem_of_further. auto.
Qed.

Lemma dict_get_elem d k v : dict_wf d -> (k, v) ∈ d -> dict_get d k = Some v.
Proof.
  unfold dict_wf. induction d as [|[k' v'] d IH]; simpl.
  - intros _ H. by apply elem_of_nil in H.
  - rewrite NoDup_cons. intros [Hk' Hd] [[= -> ->]|Hin]%elem_of_cons.
    + by rewrite String.eqb_refl.
    + destruct (String.eqb k' k) eqn:Hk; [|auto].
      apply String.eqb_eq in Hk as ->. destruct Hk'.
      apply list_elem_of_fmap. by exists (k, v).
Qed.

Lemma dict_has_true d k : dict_has d k = true <-> k ∈ dict_keys d.
Proof.
  unfold dict_has. pose proof (dict_get_None d k) as H.
  destruct (dict_get d k).
  - split; [|done]. intros _. destruct (decide (k ∈ dict_keys d)); [done|].
    by apply H in n.
  - split; [done|]. intros Hin. by apply (proj1 H) in Hin.
Qed.

Lemma dict_keys_set d k v :
  dict_keys (dict_set d k v) =
  if dict_has d k then dict_keys d else (dict_keys d ++ [k])%list.
Proof.
  unfold dict_has. induction d as [|[k' v'] d IH]; simpl; [done|].
  destruct (String.eqb k' k); simpl; [done|].
  rewrite IH. by destruct (dict_get d k).
Qed.

Lemma dict_wf_set d k v : dict_wf d -> dict_wf (dict_set d k v).
Proof.
  unfold dict_wf. rewrite dict_keys_set.
  destruct (dict_has d k) eqn:Hk; [done|].
  intros Hd. apply NoDup_app. split_and!; [done| |apply NoDup_singleton].
  intros x Hx ->%list_elem_of_singleton.
  apply dict_has_true in Hx. congruence.
Qed.

Lemma dict_keys_set_elem d k v k' :
  k' ∈ dict_keys (dict_set d k v) <-> k' = k \/ k' ∈ dict_keys d.
Proof.
  rewrite dict_keys_set. destruct (dict_has d k) eqn:Hk.
  - apply dict_has_true in Hk. split; [auto|]. by intros [->|?].
  - rewrite elem_of_app, list_elem_of_singleton. tauto.
Qed.

End DictFacts.

(** ** PropertiesParser: a whole file *)

Lemma fold_parse_line (ls : list string) (d : entries) :
  fold_left PropertiesParser.parse_line ls d =
  fold_left store (map spec_line_entry ls) d.
Proof.
  revert d. induction ls as [|l ls IH]; intros d; simpl; [done|].
  by rewrite parse_line_entry, IH.
Qed.

Lemma fold_store_wf (es : list (option (string * string))) (d : entries) :
  dict_wf d -> dict_wf (fold_left store es d).
Proof.
  revert d.
  induction es as [|[[k v]|] es IH]; intros d Hd; simpl; [done| |auto].
  apply IH. by apply dict_wf_set.
Qed.

Lemma fold_store_untouched (es : list (option (string * string)))
  (d : entries) (k : string) :
  (forall v, Some (k, v) ∉ es) ->
  dict_get (fold_left store es d) k = dict_get d k.
Proof.
  revert d. induction es as [|e es IH]; intros d Hes; simpl; [done|].
  rewrite IH.
  - destruct e as [[k' v']|]; simpl; [|done].
    apply dict_get_set_ne. intros ->. apply (Hes v'), list_elem_of_here.
  - intros v Hin. apply (Hes v). by apply list_elem_of_further.
Qed.

Lemma fold_store_last (pre post : list (option (string * string)))
  (d : entries) (k v : string) :
  (forall v', Some (k, v') ∉ post) ->
  dict_get (fold_left store (pre ++ Some (k, v) :: post) d) k = Some v.
Proof.
  intros Hpost. rewrite fold_left_app. simpl.
  rewrite fold_store_untouched by done. apply dict_get_set_eq.
Qed.

Lemma parse_file_wf (content : string) :
  dict_wf (PropertiesParser.parse_file content).
Proof.
  unfold PropertiesParser.parse_file. rewrite fold_parse_line.
  apply fold_store_wf, NoDup_nil_2.
Qed.

Lemma dict_wf_count_occ {V} (d : list (string * V)) (k : string) :
  dict_wf d -> k ∈ dict_keys d ->
  count_occ string_dec (dict_keys d) k = 1%nat.
Proof.
  unfold dict_wf. intros Hd Hk.
  apply NoDup_ListNoDup in Hd. apply list_elem_of_In in Hk.
  pose proof (proj1 (NoDup_count_occ string_dec _) Hd k).
  apply (count_occ_In string_dec) in Hk. lia.
Qed.

Lemma blank_is_space c : blank c = is_space c.
Proof. by destruct c as [[] [] [] [] [] [] [] []]. Qed.

Lemma double_quote_eqb c : double_quote c = Ascii.eqb quote c.
Proof. unfold double_quote, quote. apply Ascii.eqb_sym. Qed.

Lemma other_than_has_char ch s : only (other_than ch) s = negb (has_char ch s).
Proof.
  induction s as [|c s IH]; [done|]. simpl. rewrite IH, negb_orb. done.
Qed.

Lemma only_app p s t : only p (s +:+ t) = only p s && only p t.
Proof.
  induction s as [|c s IH]; [done|]. rewrite append_cons. simpl.
  by rewrite IH, andb_assoc.
Qed.

Lemma last_char_app s t : t <> "" -> last_char (s +:+ t) = last_char t.
Proof.
  intros Ht. induction s as [|c s IH]; [done|]. rewrite append_cons.
  cbn [last_char]. rewrite IH. destruct (s +:+ t) eqn:Hst; [|done].
  destruct s; [|done]. by rewrite append_nil_l in Hst.
Qed.

Section Trimming.
Variables p q : ascii -> bool.
Hypothesis Hpq : forall c, p c = q c.

Lemma lstrip_by_ext s : lstrip_by p s = lstrip_by q s.
Proof. induction s as [|c s IH]; [done|]. simpl. by rewrite Hpq, IH. Qed.

Lemma rstrip_by_ext s : rstrip_by p s = rstrip_by q s.
Proof. induction s as [|c s IH]; [done|]. simpl. by rewrite Hpq, IH. Qed.

Lemma strip_by_ext s : strip_by p s = strip_by q s.
Proof. unfold strip_by. by rewrite rstrip_by_ext, lstrip_by_ext. Qed.

Lemma lstrip_by_only s t : only p s = true -> lstrip_by p (s +:+ t) = lstrip_by p t.
Proof.
  induction s as [|c s IH]; [done|]. rewrite append_cons. simpl.
  intros [Hc Hs]%andb_prop. rewrite Hc. by apply IH.
Qed.

Lemma lstrip_by_first s :
  (forall c, first_char s = Some c -> p c = false) -> lstrip_by p s = s.
Proof. destruct s as [|c s]; [done|]. intros H. simpl. by rewrite (H c). Qed.

Lemma rstrip_by_only s : only p s = true -> rstrip_by p s = "".
Proof.
  induction s as [|c s IH]; [done|]. simpl. intros [Hc Hs]%andb_prop.
  by rewrite (IH Hs), Hc.
Qed.

Lemma rstrip_by_app_only s t :
  only p t = true -> rstrip_by p (s +:+ t) = rstrip_by p s.
Proof.
  intros Ht. induction s as [|c s IH].
  - rewrite append_nil_l. by apply rstrip_by_only.
  - rewrite append_cons, !rstrip_by_cons. by rewrite IH.
Qed.

Lemma rstrip_by_last s :
  (forall c, last_char s = Some c -> p c = false) -> rstrip_by p s = s.
Proof.
  induction s as [|c s IH]; [done|]. intros H. rewrite rstrip_by_cons.
  destruct s as [|c' s].
  - simpl. by rewrite (H c).
  - rewrite IH by (intros c0 Hc0; by apply H). done.
Qed.

(** Trimming has one result, the one [strip_by] computes. *)
Lemma trimmed_strip_by s r : trimmed p s r -> strip_by p s = r.
Proof.
  intros (pre & post & -> & Hpre & Hpost & Hfirst & Hlast).
  unfold strip_by. rewrite strip_by_comm, lstrip_by_only by done.
  destruct r as [|c r].
  - rewrite append_nil_l.
    assert (lstrip_by p post = "") as ->; [|done].
    rewrite <- (append_nil_r post). by rewrite lstrip_by_only.
  - rewrite append_cons. cbn [lstrip_by]. rewrite (Hfirst c) by done.
    rewrite <- append_cons. rewrite rstrip_by_app_only by done.
    by apply rstrip_by_last.
Qed.

Lemma lstrip_by_decomp s :
  exists pre, s = pre +:+ lstrip_by p s /\ only p pre = true.
Proof.
  induction s as [|c s (pre & IH & Hpre)]; [by exists ""|]. simpl.
  destruct (p c) eqn:Hc; [|by exists ""].
  exists (String c pre). rewrite append_cons, <- IH. simpl. by rewrite Hc.
Qed.

Lemma rstrip_by_decomp s :
  exists post, s = rstrip_by p s +:+ post /\ only p post = true.
Proof.
  induction s as [|c s (post & IH & Hpost)]; [by exists ""|].
  rewrite rstrip_by_cons. destruct (rstrip_by p s) as [|c' r] eqn:Hr.
  - simpl. rewrite append_nil_l in IH. subst post.
    destruct (p c) eqn:Hc.
    + exists (String c s). simpl. by rewrite Hc.
    + by exists s.
  - simpl String.eqb. cbv iota. exists post. by rewrite append_cons, <- IH.
Qed.

Lemma lstrip_by_first_char s c :
  first_char (lstrip_by p s) = Some c -> p c = false.
Proof.
  induction s as [|c' s IH]; [done|]. simpl.
  destruct (p c') eqn:Hc; [done|]. by intros [= <-].
Qed.

Lemma rstrip_by_last_char s c :
  last_char (rstrip_by p s) = Some c -> p c = false.
Proof.
  induction s as [|c' s IH]; [done|]. rewrite rstrip_by_cons.
  destruct (rstrip_by p s) as [|c'' r] eqn:Hr.
  - simpl. destruct (p c') eqn:Hc; [done|]. by intros [= <-].
  - simpl String.eqb. cbv iota. cbn [last_char]. done.
Qed.

Lemma strip_by_trimmed s : trimmed p s (strip_by p s).
Proof.
  destruct (rstrip_by_decomp s) as (post & Hs & Hpost).
  destruct (lstrip_by_decomp (rstrip_by p s)) as (pre & Hr & Hpre).
  exists pre, post. split_and!; [|done|done| |].
  - unfold strip_by. by rewrite <- append_assoc, <- Hr.
  - apply lstrip_by_first_char.
  - unfold strip_by. rewrite strip_by_comm. apply rstrip_by_last_char.
Qed.

End Trimming.

Lemma trimmed_blank s r : trimmed blank s r <-> r = strip s.
Proof.
  unfold strip. rewrite <- (strip_by_ext blank is_space blank_is_space).
  split; [intros H; symmetry; by apply trimmed_strip_by|].
  intros ->. apply strip_by_trimmed.
Qed.

Lemma trimmed_double_quote s r :
  trimmed double_quote s r <-> r = strip_char quote s.
Proof.
  unfold strip_char.
  rewrite <- (strip_by_ext double_quote (Ascii.eqb quote) double_quote_eqb).
  split; [intros H; symmetry; by apply trimmed_strip_by|].
  intros ->. apply strip_by_trimmed.
Qed.

Lemma only_trimmed_nil p s : only p s = true <-> trimmed p s "".
Proof.
  split.
  - intros Hs. exists s, "". by rewrite append_nil_l, append_nil_r.
  - intros (pre & post & -> & Hpre & Hpost & _).
    by rewrite append_nil_l, only_app, Hpre, Hpost.
Qed.

Lemma comment_line_startswith line :
  comment_line line <->
  startswith (lstrip_by is_space line) PropertiesParser.comment_char = true.
Proof.
  rewrite <- (lstrip_by_ext blank is_space blank_is_space). split.
  - intros (pre & rest & -> & Hpre). by rewrite lstrip_by_only.
  - intros Hstart.
    destruct (lstrip_by_decomp blank line) as (pre & Hline & Hpre).
    destruct (lstrip_by blank line) as [|c rest]; [done|].
    simpl in Hstart. apply Ascii.eqb_eq in Hstart as ->.
    by exists pre, rest.
Qed.

Lemma line_entry_spec (line k v : string) :
  line_entry line k v <-> spec_line_entry line = Some (k, v).
Proof.
  unfold line_entry, spec_line_entry.
  rewrite comment_line_startswith. split.
  - intros (Hcom & lhs & remainder & u & -> & Hlhs & Hk%trimmed_blank
            & Hu%trimmed_blank & Hv%trimmed_double_quote & Hne).
    apply not_true_is_false in Hcom. rewrite Hcom.
    rewrite other_than_has_char in Hlhs. apply negb_true_iff in Hlhs.
    assert (Hcut : cut_first PropertiesParser.separator
                     (lhs +:+ String "=" remainder) = Some (lhs, remainder))
      by by apply cut_first_Some.
    rewrite Hcut.
    subst. by apply String.eqb_neq in Hne as ->.
  - destruct (startswith _ _); [done|].
    destruct (cut_first _ line) as [[lhs remainder]|] eqn:Hcut; [|done].
    destruct (String.eqb _ "") eqn:Hv; [done|]. intros [= <- <-].
    apply cut_first_Some in Hcut as [-> Hlhs]. split; [done|].
    exists lhs, remainder, (strip remainder). split_and!; [done| | | | |].
    + rewrite other_than_has_char. by apply negb_true_iff.
    + by apply trimmed_blank.
    + by apply trimmed_blank.
    + by apply trimmed_double_quote.
    + by apply String.eqb_neq.
Qed.

Lemma line_skipped_spec (line : string) :
  line_skipped line <-> spec_line_entry line = None.
Proof.
  unfold line_skipped, spec_line_entry.
  rewrite comment_line_startswith. split.
  - intros [Hblank|[->|[Hno|(lhs & remainder & u & -> & Hlhs
                             & Hu%trimmed_blank & Hq)]]]; [| done | |].
    + destruct (startswith _ _); [done|].
      assert (has_char PropertiesParser.separator line = false) as Hno.
      { clear -Hblank. induction line as [|c s IH]; [done|]. simpl in *.
        apply andb_prop in Hblank as [Hc Hs]. rewrite (IH Hs), orb_false_r.
        apply Ascii.eqb_neq. by intros ->. }
      by apply cut_first_None in Hno as ->.
    + rewrite other_than_has_char in Hno. apply negb_true_iff in Hno.
      apply (cut_first_None PropertiesParser.separator) in Hno as ->.
      by destruct (startswith _ _).
    + destruct (startswith _ _); [done|].
      rewrite other_than_has_char in Hlhs. apply negb_true_iff in Hlhs.
      assert (Hcut : cut_first PropertiesParser.separator
                       (lhs +:+ String "=" remainder) = Some (lhs, remainder))
        by by apply cut_first_Some.
      rewrite Hcut.
      apply only_trimmed_nil, trimmed_double_quote in Hq. by rewrite <- Hu, <- Hq.
  - destruct (startswith _ _); [by right; left|].
    destruct (cut_first _ line) as [[lhs remainder]|] eqn:Hcut.
    + destruct (String.eqb _ "") eqn:Hv; [|done]. intros _.
      apply cut_first_Some in Hcut as [-> Hlhs].
      apply String.eqb_eq in Hv.
      right. right. right. exists lhs, remainder, (strip remainder).
      split_and!; [done| | |].
      * rewrite other_than_has_char. by apply negb_true_iff.
      * by apply trimmed_blank.
      * by apply only_trimmed_nil, trimmed_double_quote.
    + intros _. apply cut_first_None in Hcut.
      right. right. left. rewrite other_than_has_char. by apply negb_true_iff.
Qed.

(** C6. Every line of a properties file contributes what the parser's
    contract says. A line that is no comment and holds [=] binds the left
    side of the first [=], trimmed of whitespace, to the remainder (further
    [=] kept), trimmed of whitespace and then of surrounding quote
    characters, when that value is not empty. A line that is empty or
    blank, a comment (first character that is not whitespace [#]), a line
    without [=] and a line whose value comes out empty leave the mapping as
    it is. Every line is of one of these kinds. *)
Theorem parse_line_contract (d : entries) (line : string) :
  (forall k v, line_entry line k v ->
               PropertiesParser.parse_line d line = dict_set d k v)
  /\ (line_skipped line -> PropertiesParser.parse_line d line = d)
  /\ ((exists k v, line_entry line k v) \/ line_skipped line).
Proof.
  rewrite parse_line_entry. split_and!.
  - intros k v Hentry%line_entry_spec. by rewrite Hentry.
  - intros Hskip%line_skipped_spec. by rewrite Hskip.
  - destruct (spec_line_entry line) as [[k v]|] eqn:Hline.
    + left. exists k, v. by apply line_entry_spec.
    + right. by apply line_skipped_spec.
Qed.

(** C9. When a key is stored by several lines of a properties file, the
    parsed mapping holds it once, bound to the value of the last of them. *)
Theorem parse_file_last_wins (content : string) (before after : list string)
  (line k v : string) :
  readlines content = (before ++ line :: after)%list ->
  spec_line_entry line = Some (k, v) ->
  (forall l v', l ∈ after -> spec_line_entry l <> Some (k, v')) ->
  dict_get (PropertiesParser.parse_file content) k = Some v
  /\ count_occ string_dec (dict_keys (PropertiesParser.parse_file content)) k
     = 1%nat.
Proof.
  intros Hlines Hline Hafter.
  assert (Hget : dict_get (PropertiesParser.parse_file content) k = Some v).
  { unfold PropertiesParser.parse_file.
    rewrite fold_parse_line, Hlines, map_app. simpl. rewrite Hline.
    apply fold_store_last. intros v' (l & Hl & Hin)%list_elem_of_fmap.
    by apply (Hafter l v'). }
  split; [done|]. apply dict_wf_count_occ; [apply parse_file_wf|].
  destruct (decide (k ∈ dict_keys (PropertiesParser.parse_file content)))
    as [|Hn]; [done|].
  apply dict_get_None in Hn. congruence.
Qed.

Lemma parse_line_contract_witness :
  PropertiesParser.parse_line [("a", "1")]
    ("  name = " +:+ String "034" ("Jo=hn" +:+ String "034" ("  " +:+ nl)))
  = [("a", "1"); ("name", "Jo=hn")]
  /\ PropertiesParser.parse_line [("a", "1")] ("  # name=x" +:+ nl)
     = [("a", "1")]
  /\ PropertiesParser.parse_line [("a", "1")] ("   " +:+ nl) = [("a", "1")]
  /\ PropertiesParser.parse_line [("a", "1")] "no separator" = [("a", "1")]
  /\ PropertiesParser.parse_line [("a", "1")]
       ("key = " +:+ String "034" (String "034" nl))
     = [("a", "1")].
Proof.
  split_and!.
  - apply (proj1 (parse_line_contract [("a", "1")]
                    ("  name = " +:+ String "034"
                       ("Jo=hn" +:+ String "034" ("  " +:+ nl))))
             "name" "Jo=hn").
    split.
    { intros Hcom%comment_line_startswith. vm_compute in Hcom. discriminate. }
    exists "  name ",
      (" " +:+ String "034" ("Jo=hn" +:+ String "034" ("  " +:+ nl))),
      (String "034" ("Jo=hn" +:+ String "034" "")).
    split_and!; [reflexivity|reflexivity| | | |discriminate].
    + exists "  ", " ".
      split_and!; [reflexivity..| |]; intros c [= <-]; reflexivity.
    + exists " ", ("  " +:+ nl).
      split_and!; [reflexivity..| |]; intros c [= <-]; reflexivity.
    + exists (String "034" ""), (String "034" "").
      split_and!; [reflexivity..| |]; intros c [= <-]; reflexivity.
  - apply (proj1 (proj2 (parse_line_contract [("a", "1")]
                           ("  # name=x" +:+ nl)))).
    right. left. exists "  ", (" name=x" +:+ nl). split; reflexivity.
  - apply (proj1 (proj2 (parse_line_contract [("a", "1")] ("   " +:+ nl)))).
    left. reflexivity.
  - apply (proj1 (proj2 (parse_line_contract [("a", "1")] "no separator"))).
    right. right. left. reflexivity.
  - apply (proj1 (proj2 (parse_line_contract [("a", "1")]
                           ("key = " +:+ String "034" (String "034" nl))))).
    right. right. right.
    exists "key ", (" " +:+ String "034" (String "034" nl)),
      (String "034" (String "034" "")).
    split_and!; [reflexivity|reflexivity| |reflexivity].
    exists " ", nl.
    split_and!; [reflexivity..| |]; intros c [= <-]; reflexivity.
Defined.

Lemma parse_file_last_wins_witness :
  dict_get (PropertiesParser.parse_file
              ("a=1" +:+ String newline ("b=" +:+ String newline "a=2")))
           "a" = Some "2"
  /\ count_occ string_dec
       (dict_keys (PropertiesParser.parse_file
                     ("a=1" +:+ String newline
                        ("b=" +:+ String newline "a=2")))) "a" = 1%nat.
Proof.
  apply (parse_file_last_wins _
           ["a=1" +:+ String newline ""; "b=" +:+ String newline ""]
           [] "a=2" "a" "2").
  - reflexivity.
  - reflexivity.
  - intros l v' Hl. by apply elem_of_nil in Hl.
Defined.

(** ** TranslationGenerator: the two diff computations *)

Import TranslationGenerator.

Lemma dict_get_is_Some {V} (d : list (string * V)) (k : string) :
  k ∈ dict_keys d -> exists v, dict_get d k = Some v.
Proof.
  intros Hk. destruct (dict_get d k) as [v|] eqn:Hget; [by exists v|].
  by apply dict_get_None in Hget.
Qed.

Lemma dict_elem_keys {V} (d : list (string * V)) (k : string) (v : V) :
  (k, v) ∈ d -> k ∈ dict_keys d.
Proof. intros H. apply list_elem_of_fmap. by exists (k, v). Qed.

Lemma dict_elem_values {V} (d : list (string * V)) (k : string) (v : V) :
  (k, v) ∈ d -> v ∈ dict_values d.
Proof. intros H. apply list_elem_of_fmap. by exists (k, v). Qed.

(** [dict_eqb] is equality of mappings. *)
Lemma dict_eqb_true (a b : entries) :
  dict_wf a -> dict_wf b ->
  dict_eqb a b = true <-> forall k, dict_get a k = dict_get b k.
Proof.
  intros Ha Hb. unfold dict_eqb.
  rewrite andb_true_iff, Nat.eqb_eq, forallb_forall. split.
  - intros [Hlen Hall].
    assert (Hsub : forall k v, dict_get a k = Some v -> dict_get b k = Some v).
    { intros k v Hget. apply dict_get_Some_elem, list_elem_of_In in Hget.
      specialize (Hall _ Hget). simpl in Hall.
      destruct (dict_get b k) as [v'|]; [|done].
      by apply String.eqb_eq in Hall as ->. }
    assert (Hperm : dict_keys a ≡ₚ dict_keys b).
    { apply submseteq_length_Permutation.
      - apply NoDup_submseteq; [done|].
        intros k [v Hv]%dict_get_is_Some.
        eapply dict_elem_keys, dict_get_Some_elem, Hsub, Hv.
      - unfold dict_keys. rewrite !length_map. lia. }
    intros k. destruct (dict_get a k) as [v|] eqn:Hget.
    + symmetry. by apply Hsub.
    + symmetry. apply dict_get_None. rewrite <- Hperm.
      by apply dict_get_None.
  - intros Heq. split.
    + assert (Hperm : dict_keys a ≡ₚ dict_keys b).
      { apply NoDup_Permutation; [done..|]. intros k.
        rewrite <- !dict_has_true. unfold dict_has. by rewrite Heq. }
      apply Permutation_length in Hperm. unfold dict_keys in Hperm.
      by rewrite !length_map in Hperm.
    + intros [k v] Hin. simpl.
      apply list_elem_of_In, (dict_get_elem _ _ _ Ha) in Hin.
      rewrite <- Heq, Hin. apply String.eqb_refl.
Qed.

Lemma dict_values_get (d : entries) (v : string) :
  dict_wf d ->
  v ∈ dict_values d <-> exists k, dict_get d k = Some v.
Proof.
  intros Hd. split.
  - intros ([k v'] & -> & Hin)%list_elem_of_fmap. exists k.
    by apply dict_get_elem.
  - intros [k Hk]. eapply dict_elem_values, dict_get_Some_elem, Hk.
Qed.

(** On a dictionary the comprehension of [new_entries] keeps the values of
    the candidate that are no value of the source, in the candidate's order. *)
Lemma new_values_filter (S C : entries) :
  dict_wf C ->
  new_values S C = filter (fun v => v ∉ dict_values S) (dict_values C).
Proof.
  unfold new_values, dict_wf.
  assert (Hgen : forall C0 : entries,
    (forall k v, (k, v) ∈ C0 -> dict_get C k = Some v) ->
    flat_map (fun x => match dict_get C x with
                       | Some v => if decide (v ∈ dict_values S) then []
                                   else [v]
                       | None => []
                       end) (dict_keys C0)
    = filter (fun v => v ∉ dict_values S) (dict_values C0)).
  { induction C0 as [|[k v] C0 IH]; intros Hget; simpl; [done|].
    rewrite (Hget k v) by apply list_elem_of_here.
    rewrite IH by (intros; apply Hget; by apply list_elem_of_further).
    rewrite filter_cons. by destruct (decide (v ∈ dict_values S)); simpl;
      destruct (decide _). }
  intros HC. apply Hgen. intros k v Hin. by apply dict_get_elem.
Qed.

Lemma filter_nil_iff {A} (P : A -> Prop) `{!forall x, Decision (P x)}
  (l : list A) :
  filter P l = [] <-> forall x, x ∈ l -> ~ P x.
Proof.
  induction l as [|x l IH]; simpl.
  - split; [|done]. intros _ x Hx. by apply elem_of_nil in Hx.
  - rewrite filter_cons. destruct (decide (P x)) as [Hx|Hx].
    + split; [done|]. intros Hl.
      destruct (Hl x); [apply list_elem_of_here|done].
    + rewrite IH. split.
      * intros Hl y [->|Hy]%elem_of_cons; auto.
      * intros Hl y Hy. apply Hl. by apply list_elem_of_further.
Qed.

Lemma dict_eqb_values (S C : entries) :
  dict_wf S -> dict_wf C -> dict_eqb S C = true ->
  forall v, v ∈ dict_values C -> v ∈ dict_values S.
Proof.
  intros HS HC Heq v. rewrite !dict_values_get by done.
  intros [k Hk]. exists k.
  by rewrite (proj1 (dict_eqb_true S C HS HC) Heq k).
Qed.

(** C1. [new_entries] records nothing for the candidate file exactly when
    every value of the candidate mapping is a value of the snapshot mapping;
    what it records otherwise are the candidate's values that are no value
    of the snapshot (values, whatever their keys), and nothing is recorded
    when the two mappings are equal. *)
Theorem new_entries_by_value (source candidate : string)
  (bundle : representation) (S C : entries) (A : diff) :
  dict_get bundle source = Some S ->
  dict_get bundle candidate = Some C ->
  dict_wf S -> dict_wf C ->
  let fresh := filter (fun v => v ∉ dict_values S) (dict_values C) in
  new_entries source candidate bundle A
  = Ok (match fresh with [] => A | _ => dict_set A candidate fresh end)
  /\ (fresh = [] <-> forall v, v ∈ dict_values C -> v ∈ dict_values S)
  /\ (forall v, v ∈ fresh <-> v ∈ dict_values C /\ v ∉ dict_values S)
  /\ (dict_get A candidate = None ->
      (dict_get (match fresh with
                 | [] => A
                 | _ => dict_set A candidate fresh
                 end) candidate = None
       <-> forall v, v ∈ dict_values C -> v ∈ dict_values S))
  /\ ((forall k, dict_get S k = dict_get C k) ->
      new_entries source candidate bundle A = Ok A).
Proof.
  intros Hs Hc HS HC fresh.
  assert (Hnil : fresh = [] <->
                 forall v, v ∈ dict_values C -> v ∈ dict_values S).
  { unfold fresh. rewrite filter_nil_iff. split; intros H v Hv.
    - destruct (decide (v ∈ dict_values S)); [done|]. by destruct (H v Hv).
    - intros Hn. by apply Hn, H. }
  assert (Hrun : new_entries source candidate bundle A
    = Ok (match fresh with [] => A | _ => dict_set A candidate fresh end)).
  { unfold new_entries, item. rewrite Hs, Hc. simpl.
    destruct (dict_eqb S C) eqn:Heq; simpl.
    - rewrite (proj2 Hnil); [done|]. by apply dict_eqb_values.
    - rewrite new_values_filter by done. fold fresh. by destruct fresh. }
  split_and!; [done|done| | |].
  - intros v. unfold fresh. rewrite list_elem_of_filter. tauto.
  - intros HA. rewrite <- Hnil. destruct fresh as [|v l] eqn:Hf.
    + done.
    + rewrite dict_get_set_eq. split; done.
  - intros Heq. rewrite Hrun, (proj2 Hnil); [done|].
    apply dict_eqb_values; [done..|]. by apply dict_eqb_true.
Qed.

Lemma new_entries_by_value_witness :
  new_entries "m_en_US.json.snapshot" "m_en_US.json"
    [("m_en_US.json", [("a", "1"); ("c", "2"); ("d", "3")]);
     ("m_en_US.json.snapshot", [("a", "1"); ("b", "2")])] []
  = Ok [("m_en_US.json", ["3"])].
Proof.
  apply (new_entries_by_value "m_en_US.json.snapshot" "m_en_US.json"
           _ [("a", "1"); ("b", "2")] [("a", "1"); ("c", "2"); ("d", "3")] []).
  - reflexivity.
  - reflexivity.
  - apply (bool_decide_unpack _). by vm_compute.
  - apply (bool_decide_unpack _). by vm_compute.
Defined.

Lemma bind_Ok {A B} (a : A) (f : A -> result B) : (Ok a ≫= f) = f a.
Proof. done. Qed.

Lemma bind_Ok_inv {A B} (m : result A) (f : A -> result B) (y : B) :
  (m ≫= f) = Ok y -> exists a, m = Ok a /\ f a = Ok y.
Proof. destruct m as [a|e]; [|done]. intros H. by exists a. Qed.

Lemma item_Some (bundle : representation) (file : string) (F : entries) :
  dict_get bundle file = Some F -> item bundle file = Ok F.
Proof. unfold item. by intros ->. Qed.

Lemma missing_keys_nil (S F : entries) :
  missing_keys S F = [] <-> forall k, k ∈ dict_keys S -> k ∈ dict_keys F.
Proof.
  unfold missing_keys.
  transitivity (filter (fun kv => dict_has F (fst kv) = false) S = []).
  { by destruct (filter _ S). }
  rewrite filter_nil_iff. split.
  - intros H k ([k' v] & -> & Hin)%list_elem_of_fmap. simpl.
    apply dict_has_true. specialize (H _ Hin). simpl in H.
    by destruct (dict_has F k').
  - intros H [k v] Hin. simpl. rewrite (proj2 (dict_has_true F k)); [done|].
    eapply H, dict_elem_keys, Hin.
Qed.

Lemma missing_keys_elem (S F : entries) (s : string) :
  s ∈ missing_keys S F <->
  exists k v, (k, v) ∈ S /\ (k ∉ dict_keys F) /\ s = k +:+ ": " +:+ v.
Proof.
  unfold missing_keys. rewrite list_elem_of_fmap. split.
  - intros ([k v] & -> & [Hk Hin]%list_elem_of_filter). exists k, v.
    split_and!; [done| |done]. rewrite <- dict_has_true. simpl in Hk.
    by rewrite Hk.
  - intros (k & v & Hin & Hk & ->). exists (k, v). split; [done|].
    apply list_elem_of_filter. split; [|done]. simpl.
    rewrite <- dict_has_true in Hk. by destruct (dict_has F k).
Qed.

(** The loop of [check_missing_keys_in_other_locales] over any list of
    files of the bundle. *)
Lemma check_missing_loop (S : entries) (bundle : representation)
  (todo : list string) (M : diff) :
  (forall f, f ∈ todo -> f ∈ dict_keys bundle) ->
  exists M',
    for_each (fun missing file =>
                candidate_dict ← item bundle file;
                match missing_keys S candidate_dict with
                | [] => Ok missing
                | found => Ok (dict_set missing file found)
                end) todo M = Ok M'
    /\ (forall f, f ∉ todo -> dict_get M' f = dict_get M f)
    /\ (forall f F, f ∈ todo -> dict_get bundle f = Some F ->
        dict_get M' f = match missing_keys S F with
                        | [] => dict_get M f
                        | found => Some found
                        end).
Proof.
  revert M. induction todo as [|f0 todo IH]; intros M Hin; simpl.
  - exists M. split_and!; [done|done|].
    intros f F Hf. by apply elem_of_nil in Hf.
  - destruct (dict_get_is_Some bundle f0) as [F0 HF0];
      [apply Hin, list_elem_of_here|].
    rewrite (item_Some _ _ _ HF0), bind_Ok.
    set (M1 := match missing_keys S F0 with
               | [] => M
               | _ => dict_set M f0 (missing_keys S F0)
               end).
    assert (HM1 : forall f, dict_get M1 f =
              if decide (f = f0) then
                match missing_keys S F0 with
                | [] => dict_get M f
                | found => Some found
                end
              else dict_get M f).
    { intros f. unfold M1. destruct (decide (f = f0)) as [->|Hne].
      - destruct (missing_keys S F0); [done|]. apply dict_get_set_eq.
      - destruct (missing_keys S F0); [done|]. by apply dict_get_set_ne. }
    destruct (IH M1) as (M' & Hrun & Hout & Hin').
    { intros f Hf. by apply Hin, list_elem_of_further. }
    exists M'. split_and!.
    + rewrite <- Hrun. unfold M1. by destruct (missing_keys S F0).
    + intros f [Hne Hf]%not_elem_of_cons. rewrite Hout, HM1 by done.
      by destruct (decide (f = f0)).
    + intros f F Hf HF. destruct (decide (f ∈ todo)) as [Hd|Hd].
      * rewrite (Hin' f F Hd HF), HM1.
        destruct (decide (f = f0)) as [->|]; [|done].
        replace F with F0 by congruence. by destruct (missing_keys S F0).
      * apply elem_of_cons in Hf as [->|]; [|done].
        rewrite Hout, HM1 by done. replace F with F0 by congruence.
        by destruct (decide (f0 = f0)).
Qed.

(** C2. For every file of the parsed bundle, the snapshot and the default
    locale file included, [check_missing_keys_in_other_locales] records
    nothing exactly when every key of the snapshot mapping is a key of the
    file's mapping, whatever the values; what it records otherwise are the
    strings [key: value] of the snapshot's entries whose key the file lacks. *)
Theorem check_missing_by_key (source : string) (bundle : representation)
  (S : entries) (M : diff) :
  dict_get bundle source = Some S ->
  exists M',
    check_missing_keys_in_other_locales source bundle M = Ok M'
    /\ (forall file F, dict_get bundle file = Some F ->
        (missing_keys S F = [] <->
         forall k, k ∈ dict_keys S -> k ∈ dict_keys F)
        /\ missing_keys S F
           = map (fun kv => fst kv +:+ ": " +:+ snd kv)
               (filter (fun kv => fst kv ∉ dict_keys F) S)
        /\ dict_get M' file = match missing_keys S F with
                              | [] => dict_get M file
                              | found => Some found
                              end
        /\ (dict_get M file = None ->
            (dict_get M' file = None <->
             forall k, k ∈ dict_keys S -> k ∈ dict_keys F)))
    /\ (forall file, dict_get bundle file = None ->
        dict_get M' file = dict_get M file).
Proof.
  intros Hs. unfold check_missing_keys_in_other_locales, item. rewrite Hs.
  simpl.
  destruct (check_missing_loop S bundle (dict_keys bundle) M)
    as (M' & Hrun & Hout & Hin); [done|].
  exists M'. split_and!; [done| |].
  - intros file F HF.
    assert (Hfile : file ∈ dict_keys bundle).
    { eapply dict_elem_keys, dict_get_Some_elem, HF. }
    pose proof (Hin file F Hfile HF) as Hget.
    split_and!; [apply missing_keys_nil| |done|].
    + unfold missing_keys. f_equal. apply list_filter_iff. intros [k v]. simpl.
      rewrite <- dict_has_true. by destruct (dict_has F k).
    + intros HM. rewrite Hget, <- missing_keys_nil.
      by destruct (missing_keys S F).
  - intros file Hnone. apply Hout. by apply dict_get_None.
Qed.

Lemma check_missing_by_key_witness :
  exists M',
    check_missing_keys_in_other_locales "m_en_US.json.snapshot"
      [("m_en_US.json.snapshot", [("a", "1"); ("b", "2")]);
       ("m_en_US.json", [("a", "1"); ("b", "2")]);
       ("m_fr.json", [("a", "un")])] [] = Ok M'
    /\ dict_get M' "m_fr.json" = Some ["b: 2"]
    /\ dict_get M' "m_en_US.json" = None.
Proof.
  destruct (check_missing_by_key "m_en_US.json.snapshot"
    [("m_en_US.json.snapshot", [("a", "1"); ("b", "2")]);
     ("m_en_US.json", [("a", "1"); ("b", "2")]);
     ("m_fr.json", [("a", "un")])] [("a", "1"); ("b", "2")] [] eq_refl)
    as (M' & Hrun & Hfiles & _).
  exists M'. split_and!; [done| |].
  - destruct (Hfiles "m_fr.json" [("a", "un")] eq_refl) as (_ & _ & H & _).
    exact H.
  - destruct (Hfiles "m_en_US.json" [("a", "1"); ("b", "2")] eq_refl)
      as (_ & _ & H & _).
    exact H.
Defined.

(** ** Reconciliator *)

Import Reconciliator.

Lemma insert_sorted_perm x l : Permutation (insert_sorted x l) (x :: l).
Proof.
  induction l as [|y l IH]; simpl; [done|].
  destruct (String.leb x y); [done|].
  rewrite IH. apply perm_swap.
Qed.

Lemma insert_sorted_Sorted x l :
  Sorted string_le l -> Sorted string_le (insert_sorted x l).
Proof.
  induction l as [|y l IH]; simpl; intros Hl.
  - by repeat constructor.
  - destruct (String.leb x y) eqn:Hxy.
    + constructor; [done|]. by constructor.
    + apply Sorted_inv in Hl as [Hl Hy]. constructor; [auto|].
      assert (Hyx : string_le y x).
      { destruct (String.leb_total x y) as [H|H]; [congruence|done]. }
      destruct l as [|z l]; simpl; [by constructor|].
      destruct (String.leb x z); constructor; [done|].
      by apply HdRel_inv in Hy.
Qed.

Lemma sorted_Sorted l : Sorted string_le (sorted l).
Proof.
  induction l as [|x l IH]; simpl; [constructor|].
  by apply insert_sorted_Sorted.
Qed.

Lemma sorted_perm l : Permutation (sorted l) l.
Proof.
  induction l as [|x l IH]; simpl; [done|].
  by rewrite insert_sorted_perm, IH.
Qed.

Lemma dict_set_set {V} (d : list (string * V)) k v v' :
  dict_set (dict_set d k v) k v' = dict_set d k v'.
Proof.
  induction d as [|[k0 v0] d IH]; simpl.
  - by rewrite String.eqb_refl.
  - destruct (String.eqb k0 k) eqn:Hk; simpl; rewrite Hk; [done|].
    by rewrite IH.
Qed.

Lemma get_or_empty_set data key l :
  get_or_empty (dict_set data key l) key = l.
Proof. unfold get_or_empty. by rewrite dict_get_set_eq. Qed.

Lemma collect_cons key x d data :
  collect key (x :: d) data =
  dict_set data key
    (get_or_empty data key
     ++ map single_key (x :: d))%list.
Proof.
  unfold collect. revert x data.
  induction d as [|y d IH]; intros x data; [done|].
  change (fold_left ?f (x :: y :: d) data)
    with (fold_left f (y :: d) (f data x)).
  rewrite IH, get_or_empty_set, dict_set_set. cbn [map].
  by rewrite <- app_assoc.
Qed.

Lemma collect_nil key data : collect key [] data = data.
Proof. done. Qed.

(** C8. From an empty [data], [print_manifest] builds under [added] and
    under [missing] the sequence, in the order of the accumulated mapping,
    of single-key mappings from file identifier to its strings sorted; a
    top-level key whose mapping is empty is left out; what is printed is
    that manifest, and nothing is printed when both mappings are empty. *)
Theorem print_manifest_layout (output_option : string)
  (missing added : diff) (w : World) :
  output_option = "json" \/ output_option = "yaml" ->
  print_manifest output_option missing added [] w
  = (spec_manifest missing added,
     match spec_manifest missing added with
     | [] => w
     | m => mkWorld (fs w)
              (stdout w ++ [if String.eqb output_option "json"
                            then JsonDump m else YamlDump m])%list
     end)
  /\ (spec_manifest missing added = [] <-> added = [] /\ missing = [])
  /\ (forall l, Sorted string_le (sorted l) /\ Permutation (sorted l) l).
Proof.
  intros Hout.
  assert (Hdata : collect "missing" missing (collect "added" added [])
                  = spec_manifest missing added).
  { unfold spec_manifest.
    destruct added as [|a added], missing as [|m missing];
      rewrite ?collect_nil, ?collect_cons; try done. }
  split_and!.
  - unfold print_manifest. rewrite Hdata.
    destruct (spec_manifest missing added) as [|e m] eqn:He.
    + by rewrite !andb_false_r.
    + rewrite !andb_true_r. by destruct Hout as [-> | ->].
  - unfold spec_manifest.
    destruct added, missing; split; (done || by intros [? ?]).
  - intros l. split; [apply sorted_Sorted | apply sorted_perm].
Qed.

Lemma print_manifest_layout_witness :
  print_manifest "json" [("m_fr.json", ["b: 2"; "a: 1"])]
    [("m_en_US.json", ["z"; "c"])] [] (mkWorld ∅ [])
  = ([("added", [[("m_en_US.json", ["c"; "z"])]]);
      ("missing", [[("m_fr.json", ["a: 1"; "b: 2"])]])],
     mkWorld ∅
       [JsonDump [("added", [[("m_en_US.json", ["c"; "z"])]]);
                  ("missing", [[("m_fr.json", ["a: 1"; "b: 2"])]])]]).
Proof.
  apply (print_manifest_layout "json" [("m_fr.json", ["b: 2"; "a: 1"])]
           [("m_en_US.json", ["z"; "c"])] (mkWorld ∅ [])).
  by left.
Defined.

(** ** The locale pattern *)

Import Re.

Lemma dotstar_true s : dotstar (fun _ => true) s = true.
Proof.
  induction s as [|c s IH]; simpl; [done|].
  destruct (Ascii.eqb c newline); [done|]. by rewrite IH.
Qed.

Lemma dotstar_ext k1 k2 s :
  (forall t, k1 t = k2 t) -> dotstar k1 s = dotstar k2 s.
Proof.
  intros Hk. induction s as [|c s IH]; simpl; [done|].
  by rewrite IH, Hk.
Qed.

Lemma re_match_locale_pattern locale s :
  re_match (Bundle.locale_pattern locale) s = dotstar (at_locale locale) s.
Proof.
  unfold re_match, Bundle.locale_pattern. cbn [accepts].
  apply dotstar_ext. intros t. unfold at_locale, ahead.
  destruct (drop_prefix _ t) as [rest|]; [|done].
  cbn [accepts]. rewrite dotstar_true. by destruct (dotstar _ rest).
Qed.

Lemma ahead_snapshot d :
  has_char newline d = false -> ahead (d +:+ ".snapshot") = true.
Proof.
  unfold ahead. cbn [accepts].
  induction d as [|c d IH]; [done|].
  change (String c d +:+ ".snapshot") with (String c (d +:+ ".snapshot")).
  cbn [has_char dotstar].
  intros [Hc Hd]%orb_false_elim. rewrite Hc, (IH Hd). done.
Qed.

Lemma drop_prefix_snapshot p d rest :
  has_char "."%char p = false -> has_char newline d = false ->
  drop_prefix p (d +:+ ".snapshot") = Some rest ->
  exists d', rest = d' +:+ ".snapshot" /\ has_char newline d' = false.
Proof.
  revert d. induction p as [|a p IH]; intros d Hp Hd; simpl.
  - intros [= <-]. by exists d.
  - apply orb_false_elim in Hp as [Ha Hp].
    destruct d as [|c d]; simpl.
    + by rewrite Ha.
    + apply orb_false_elim in Hd as [Hc Hd].
      destruct (Ascii.eqb a c); [|done]. by apply IH.
Qed.

Lemma at_locale_snapshot locale d :
  has_char "."%char locale = false -> has_char newline d = false ->
  at_locale locale (d +:+ ".snapshot") = false.
Proof.
  intros Hl Hd. unfold at_locale.
  destruct (drop_prefix _ _) as [rest|] eqn:Hdrop; [|done].
  apply drop_prefix_snapshot in Hdrop as (d' & -> & Hd'); [|done..].
  by rewrite ahead_snapshot.
Qed.

(** A snapshot identifier never matches the locale pattern. *)
Lemma snapshot_no_match locale d :
  has_char "."%char locale = false -> has_char newline d = false ->
  re_match (Bundle.locale_pattern locale) (d +:+ ".snapshot") = false.
Proof.
  intros Hl Hd. rewrite re_match_locale_pattern.
  induction d as [|c d IH].
  - unfold at_locale. done.
  - change (String c d +:+ ".snapshot") with (String c (d +:+ ".snapshot")).
    cbn [dotstar]. cbn [has_char] in Hd.
    apply orb_false_elim in Hd as [Hc Hd]. rewrite Hc, (IH Hd).
    change (String c (d +:+ ".snapshot")) with (String c d +:+ ".snapshot").
    rewrite at_locale_snapshot; [done..|]. simpl. by rewrite Hc.
Qed.

Lemma plain_no_dot s : plain s = true -> has_char "."%char s = false.
Proof.
  induction s as [|c s IH]; simpl; [done|].
  intros [Hc Hs]%andb_true_iff. rewrite (IH Hs), orb_false_r.
  apply Ascii.eqb_neq. intros ->. done.
Qed.

(** ** The match policy of the locale pattern, exactly *)

Lemma drop_prefix_Some p s rest :
  drop_prefix p s = Some rest <-> s = p +:+ rest.
Proof.
  revert s. induction p as [|a p IH]; intros s; simpl.
  - split; [by intros [= ->] | by intros ->].
  - destruct s as [|c s]; [done|]. rewrite append_cons.
    destruct (Ascii.eqb a c) eqn:Hac.
    + apply Ascii.eqb_eq in Hac as ->. rewrite IH.
      split; [by intros -> | by intros [= ->]].
    + apply Ascii.eqb_neq in Hac. split; [done | by intros [= -> _]].
Qed.

Lemma dotstar_true_iff k s :
  dotstar k s = true <->
  exists pre rest,
    s = pre +:+ rest /\ has_char newline pre = false /\ k rest = true.
Proof.
  induction s as [|c s IH]; simpl.
  - split.
    + intros Hk. by exists "", "".
    + intros (pre & rest & Hs & _ & Hk). destruct pre; [|done].
      rewrite append_nil_l in Hs. by subst rest.
  - destruct (Ascii.eqb c newline) eqn:Hc.
    + split.
      * intros Hk. by exists "", (String c s).
      * intros (pre & rest & Hs & Hpre & Hk). destruct pre as [|a pre].
        { rewrite append_nil_l in Hs. by subst rest. }
        rewrite append_cons in Hs. injection Hs as <- _.
        simpl in Hpre. by rewrite Hc in Hpre.
    + rewrite orb_true_iff, IH. split.
      * intros [(pre & rest & -> & Hpre & Hk)|Hk].
        -- exists (String c pre), rest. split_and!; [done| |done].
           simpl. by rewrite Hc.
        -- by exists "", (String c s).
      * intros (pre & rest & Hs & Hpre & Hk). destruct pre as [|a pre].
        { rewrite append_nil_l in Hs. subst rest. by right. }
        rewrite append_cons in Hs. injection Hs as <- ->.
        simpl in Hpre. apply orb_false_elim in Hpre as [_ Hpre].
        left. by exists pre, rest.
Qed.

Lemma ahead_true_iff s :
  ahead s = true <->
  exists mid rest,
    s = mid +:+ "snapshot" +:+ rest /\ has_char newline mid = false.
Proof.
  unfold ahead. cbn [accepts]. rewrite dotstar_true_iff. split.
  - intros (mid & t & -> & Hmid & Ht).
    destruct (drop_prefix "snapshot" t) as [rest|] eqn:Hdrop; [|done].
    apply drop_prefix_Some in Hdrop as ->. by exists mid, rest.
  - intros (mid & rest & -> & Hmid). exists mid, ("snapshot" +:+ rest).
    split_and!; [done..|].
    by rewrite (proj2 (drop_prefix_Some "snapshot" _ rest) eq_refl).
Qed.

(** A file matches exactly when, on its first line, some occurrence of
    [_<locale>] is not followed by [snapshot] on the same line. A [snapshot]
    before that occurrence does not count. *)
Lemma locale_pattern_match locale file :
  re_match (Bundle.locale_pattern locale) file = true <->
  exists pre post,
    file = pre +:+ ("_" +:+ locale) +:+ post
    /\ has_char newline pre = false
    /\ ~ (exists mid rest,
            post = mid +:+ "snapshot" +:+ rest
            /\ has_char newline mid = false).
Proof.
  rewrite re_match_locale_pattern, dotstar_true_iff.
  split.
  - intros (pre & t & -> & Hpre & Ht). unfold at_locale in Ht.
    destruct (drop_prefix _ t) as [post|] eqn:Hdrop; [|done].
    apply drop_prefix_Some in Hdrop as ->.
    exists pre, post. split_and!; [done..|].
    rewrite <- ahead_true_iff. by destruct (ahead post).
  - intros (pre & post & -> & Hpre & Hno).
    exists pre, (("_" +:+ locale) +:+ post). split_and!; [done..|].
    unfold at_locale.
    rewrite (proj2 (drop_prefix_Some _ _ post) eq_refl).
    rewrite <- ahead_true_iff in Hno. by destruct (ahead post).
Qed.

(** ** Bundle *)

(** The strict policy of [get_default_locale_file]: no match, one match,
    several matches. *)
Lemma get_default_locale_file_cases (b : Bundle) :
  Bundle.get_default_locale_file b =
  match Bundle.locale_regex_match b with
  | [] => Raise (SystemExit (NoMatch Bundle.whoami (default_locale b) (path b)))
  | [file] => Ok file
  | found => Raise (SystemExit (MultipleMatches Bundle.whoami
                                  (default_locale b) (path b) found))
  end.
Proof.
  unfold Bundle.get_default_locale_file.
  by destruct (Bundle.locale_regex_match b) as [|f [|g l]].
Qed.

Lemma get_default_locale_file_Ok (b : Bundle) (d : string) :
  Bundle.get_default_locale_file b = Ok d <->
  Bundle.locale_regex_match b = [d].
Proof.
  rewrite get_default_locale_file_cases.
  destruct (Bundle.locale_regex_match b) as [|f [|g l]]; split;
    intros H; by simplify_eq.
Qed.

Lemma locale_regex_match_elem (b : Bundle) (f : string) :
  f ∈ Bundle.locale_regex_match b <->
  f ∈ files b
  /\ re_match (Bundle.locale_pattern (default_locale b)) f = true.
Proof.
  unfold Bundle.locale_regex_match.
  rewrite list_elem_of_filter, elem_of_elements. tauto.
Qed.

Lemma readlines_concat s : fold_right String.append "" (readlines s) = s.
Proof.
  induction s as [|c s IH]; [done|]. simpl.
  destruct (Ascii.eqb c newline); simpl; [by rewrite IH|].
  destruct (readlines s) as [|h t]; simpl in *; [by rewrite <- IH|].
  by rewrite append_cons, IH.
Qed.

(** Appending the lines of a text to a file that holds [acc]. *)
Lemma write_fold (file : string) (ls : list string) (fs0 : gmap string string)
  (acc : string) :
  fs0 !! file = Some acc ->
  fold_left (Bundle.write file) ls fs0
  = <[file := acc +:+ fold_right String.append "" ls]> fs0.
Proof.
  revert fs0 acc. induction ls as [|l ls IH]; intros fs0 acc Hacc; simpl.
  - rewrite append_nil_r. symmetry. by apply insert_id.
  - unfold Bundle.write at 2. rewrite Hacc.
    rewrite (IH _ (acc +:+ l)) by apply lookup_insert_eq.
    by rewrite insert_insert_eq, append_assoc.
Qed.

(** Adding the snapshot identifier leaves the matches as they are. *)
Lemma locale_regex_match_add (b : Bundle) (sp d : string) :
  re_match (Bundle.locale_pattern (default_locale b)) sp = false ->
  Bundle.locale_regex_match b = [d] ->
  Bundle.locale_regex_match
    (mkBundle (path b) (extension b) ({[sp]} ∪ files b) (default_locale b))
  = [d].
Proof.
  intros Hsp Hd. apply Permutation_singleton_r. rewrite <- Hd.
  unfold Bundle.locale_regex_match. simpl.
  destruct (decide (sp ∈ files b)) as [Hin|Hin].
  - rewrite (subseteq_union_1_L {[sp]} (files b)); [done|].
    by apply singleton_subseteq_l.
  - rewrite elements_union_singleton by done.
    rewrite filter_cons. destruct (decide _); [congruence|done].
Qed.

(** One call of [generate_snapshot_file] on a bundle with its one default
    locale file [d] on disk. *)
Lemma generate_snapshot_file_run (b : Bundle) (w : World) (d content : string) :
  Bundle.get_default_locale_file b = Ok d ->
  fs w !! d = Some content ->
  Bundle.generate_snapshot_file b w
  = Ok (d +:+ ".snapshot",
        (if decide (d +:+ ".snapshot" ∈ files b) then b
         else mkBundle (path b) (extension b)
                ({[d +:+ ".snapshot"]} ∪ files b) (default_locale b)),
        match fs w !! (d +:+ ".snapshot") with
        | Some _ => w
        | None =>
            mkWorld (<[d +:+ ".snapshot" := content]> (fs w))
              (stdout w ++
               [Line ("generating snapshot file " +:+ (d +:+ ".snapshot")
                      +:+ " based on " +:+ d)])%list
        end).
Proof.
  intros Hd Hcontent. unfold Bundle.generate_snapshot_file.
  rewrite Hd, bind_Ok.
  destruct (fs w !! (d +:+ ".snapshot")) eqn:Hsp; [done|].
  unfold read_file. cbn [fs].
  rewrite lookup_insert_ne by by apply append_ne.
  rewrite Hcontent, !bind_Ok.
  rewrite (write_fold _ _ _ "") by apply lookup_insert_eq.
  by rewrite insert_insert_eq, readlines_concat.
Qed.

Lemma generate_snapshot_file_inv (b b' : Bundle) (w w' : World) (sp : string) :
  Bundle.generate_snapshot_file b w = Ok (sp, b', w') ->
  exists d,
    Bundle.get_default_locale_file b = Ok d
    /\ sp = d +:+ ".snapshot"
    /\ files b' = {[sp]} ∪ files b
    /\ default_locale b' = default_locale b.
Proof.
  unfold Bundle.generate_snapshot_file.
  intros (d & Hd & Hrest)%bind_Ok_inv. exists d. split; [done|].
  apply bind_Ok_inv in Hrest as (w1 & _ & [= <- <- <-]).
  split; [done|].
  destruct (decide (d +:+ ".snapshot" ∈ files b)); [|done].
  split; [|done]. symmetry.
  by apply subseteq_union_1_L, singleton_subseteq_l.
Qed.

(** The default locale file stays the same when files are added and the
    lookup still succeeds. *)
Lemma get_default_locale_file_mono (b b' : Bundle) (d d' : string) :
  files b ⊆ files b' -> default_locale b' = default_locale b ->
  Bundle.get_default_locale_file b = Ok d ->
  Bundle.get_default_locale_file b' = Ok d' ->
  d' = d.
Proof.
  intros Hsub Hloc Hd%get_default_locale_file_Ok Hd'%get_default_locale_file_Ok.
  assert (Hin : d ∈ Bundle.locale_regex_match b).
  { rewrite Hd. apply list_elem_of_here. }
  apply locale_regex_match_elem in Hin as [Hf Hm].
  assert (Hin' : d ∈ Bundle.locale_regex_match b').
  { apply locale_regex_match_elem. rewrite Hloc. split; [by apply Hsub|done]. }
  rewrite Hd' in Hin'. by apply list_elem_of_singleton in Hin'.
Qed.

(** One call and the next. On a bundle with its default locale file [d],
    [generate_snapshot_file] returns [d] with [.snapshot] appended; when no
    snapshot file exists the call creates it with the content of [d]; when
    it exists the call writes nothing. A call after that cannot return
    anything but the same identifier, with disk and bundle as they were; and
    it does return, for a locale free of pattern metacharacters and a [d]
    without line break. *)
Theorem generate_snapshot_file_idempotent (b : Bundle) (w : World)
  (d content : string) :
  Bundle.get_default_locale_file b = Ok d ->
  fs w !! d = Some content ->
  exists b1 w1,
    Bundle.generate_snapshot_file b w = Ok (d +:+ ".snapshot", b1, w1)
    /\ files b1 = {[d +:+ ".snapshot"]} ∪ files b
    /\ (fs w !! (d +:+ ".snapshot") = None ->
        fs w1 = <[d +:+ ".snapshot" := content]> (fs w))
    /\ (is_Some (fs w !! (d +:+ ".snapshot")) -> w1 = w)
    /\ (forall sp' b2 w2,
          Bundle.generate_snapshot_file b1 w1 = Ok (sp', b2, w2) ->
          sp' = d +:+ ".snapshot" /\ b2 = b1 /\ w2 = w1)
    /\ (plain (default_locale b) = true -> has_char newline d = false ->
        Bundle.generate_snapshot_file b1 w1 = Ok (d +:+ ".snapshot", b1, w1)).
Proof.
  intros Hd Hcontent.
  set (sp := d +:+ ".snapshot").
  pose proof (generate_snapshot_file_run b w d content Hd Hcontent) as Hrun.
  fold sp in Hrun.
  set (b1 := if decide (sp ∈ files b) then b
             else mkBundle (path b) (extension b) ({[sp]} ∪ files b)
                    (default_locale b)) in *.
  set (w1 := match fs w !! sp with
             | Some _ => w
             | None => mkWorld (<[sp := content]> (fs w)) _
             end) in *.
  assert (Hfiles : files b1 = {[sp]} ∪ files b).
  { unfold b1. destruct (decide (sp ∈ files b)); [|done].
    symmetry. by apply subseteq_union_1_L, singleton_subseteq_l. }
  assert (Hloc : default_locale b1 = default_locale b).
  { unfold b1. by destruct (decide (sp ∈ files b)). }
  assert (Hne : sp <> d) by by apply append_ne.
  assert (Hw1d : fs w1 !! d = Some content).
  { unfold w1. destruct (fs w !! sp); [done|]. simpl.
    by rewrite lookup_insert_ne. }
  assert (Hw1sp : is_Some (fs w1 !! sp)).
  { unfold w1. destruct (fs w !! sp) eqn:Hsp; [by rewrite Hsp|]. simpl.
    rewrite lookup_insert_eq. done. }
  assert (Hagain : Bundle.get_default_locale_file b1 = Ok d ->
                   Bundle.generate_snapshot_file b1 w1 = Ok (sp, b1, w1)).
  { intros Hd1.
    rewrite (generate_snapshot_file_run b1 w1 d content Hd1 Hw1d).
    fold sp. destruct Hw1sp as [c ->].
    rewrite decide_True; [done|]. rewrite Hfiles.
    by apply elem_of_union_l, elem_of_singleton_2. }
  exists b1, w1. split_and!; [done|done| | | |].
  - intros Hnone. unfold w1. by rewrite Hnone.
  - intros [c Hsome]. unfold w1. by rewrite Hsome.
  - intros sp' b2 w2 Hcall.
    destruct (generate_snapshot_file_inv _ _ _ _ _ Hcall)
      as (d' & Hd' & _ & _ & _).
    assert (d' = d) as ->.
    { eapply (get_default_locale_file_mono b b1); [|done..].
      rewrite Hfiles. apply union_subseteq_r. }
    rewrite (Hagain Hd') in Hcall. by injection Hcall as <- <- <-.
  - intros Hplain Hnl. apply Hagain.
    unfold b1. destruct (decide (sp ∈ files b)); [done|].
    apply get_default_locale_file_Ok, locale_regex_match_add.
    + apply snapshot_no_match; [by apply plain_no_dot|done].
    + by apply get_default_locale_file_Ok.
Qed.

Lemma generate_snapshot_file_idempotent_witness :
  exists b1 w1,
    Bundle.generate_snapshot_file l10n_bundle disk
    = Ok ("/l10n/m_en_US.properties.snapshot", b1, w1)
    /\ fs w1 !! "/l10n/m_en_US.properties.snapshot"
       = Some ("greeting=hello" +:+ nl)
    /\ Bundle.generate_snapshot_file b1 w1
       = Ok ("/l10n/m_en_US.properties.snapshot", b1, w1).
Proof.
  destruct (generate_snapshot_file_idempotent l10n_bundle disk
              "/l10n/m_en_US.properties" ("greeting=hello" +:+ nl))
    as (b1 & w1 & Hrun & _ & Hnew & _ & _ & Hagain);
    [by vm_compute..|].
  exists b1, w1. split_and!; [done| |by apply Hagain].
  rewrite Hnew by by vm_compute. apply lookup_insert_eq.
Defined.

(** C4. [generate_snapshot_file] is not idempotent on every bundle. The
    name of the default locale file of [line_break_bundle] has a line break
    after the locale. The first call returns the snapshot identifier and
    creates the snapshot with the content of the file; the [.*] of the
    lookahead stops at the line break, so the pattern matches the snapshot
    identifier as well, and the second call exits for an ambiguous default
    locale file instead of returning the same identifier. A run over this
    bundle ends with that exit: [gather] makes the first call and
    [process_bundle] the second. *)
Theorem generate_snapshot_file_line_break :
  plain (default_locale line_break_bundle) = true
  /\ exists b1 w1 found,
       Bundle.generate_snapshot_file line_break_bundle line_break_disk
       = Ok (line_break_file +:+ ".snapshot", b1, w1)
       /\ fs w1 !! (line_break_file +:+ ".snapshot")
          = Some ("greeting=hello" +:+ nl)
       /\ Bundle.generate_snapshot_file b1 w1
          = Raise (SystemExit (MultipleMatches "Bundle" "en_US" "/l10n" found))
       /\ found ≡ₚ [line_break_file; line_break_file +:+ ".snapshot"]
       /\ forall loads output_option,
            main loads output_option [line_break_bundle] line_break_disk
            = Raise (SystemExit
                       (MultipleMatches "Bundle" "en_US" "/l10n" found)).
Proof.
  split; [reflexivity|].
  eexists _, _, _. split.
  { apply (generate_snapshot_file_run line_break_bundle line_break_disk
             line_break_file ("greeting=hello" +:+ nl)); by vm_compute. }
  split; [by vm_compute|]. split; [by vm_compute|].
  split; [vm_compute; apply perm_swap|].
  intros loads output_option. by vm_compute.
Qed.

(** The 0/1/many policy of [get_default_locale_file] over the files that
    match the pattern. *)
Lemma get_default_locale_file_policy (b : Bundle) :
  (Bundle.locale_regex_match b = [] ->
   Bundle.get_default_locale_file b
   = Raise (SystemExit (NoMatch "Bundle" (default_locale b) (path b))))
  /\ (forall file, Bundle.locale_regex_match b = [file] ->
      Bundle.get_default_locale_file b = Ok file)
  /\ (forall f g rest, Bundle.locale_regex_match b = f :: g :: rest ->
      Bundle.get_default_locale_file b
      = Raise (SystemExit (MultipleMatches "Bundle" (default_locale b)
                             (path b) (f :: g :: rest)))).
Proof.
  rewrite get_default_locale_file_cases.
  split_and!; [by intros -> | by intros f -> | by intros f g rest ->].
Qed.

(** C3. [get_default_locale_file] does not follow its documented match
    policy: a file whose name holds [snapshot] before the locale is counted
    as a match. In [prefixed_bundle] no file is a match by the documented
    policy, and the call returns [/l10n/snapshot_en_US.json] instead of
    failing for want of a default locale file. *)
Theorem get_default_locale_file_snapshot_before_locale :
  (forall file, file ∈ files prefixed_bundle ->
                documented_match (default_locale prefixed_bundle) file = false)
  /\ Bundle.get_default_locale_file prefixed_bundle
     = Ok "/l10n/snapshot_en_US.json".
Proof.
  split; [|by vm_compute].
  intros file Hfile. unfold prefixed_bundle, Bundle.init in Hfile.
  cbn [files] in Hfile. rewrite elem_of_list_to_set in Hfile.
  by repeat (apply elem_of_cons in Hfile as [->|Hfile]; [by vm_compute|]);
    apply elem_of_nil in Hfile.
Qed.

(** ** Processing bundles *)


(** C7. A bundle whose extension is neither [json] nor [properties] makes
    [process_bundle] fail while it builds its message: the message names
    [whoami], which no scope of the method binds, so what the run reports is
    a [NameError] for that name and not the bundle's extension. *)
Theorem process_bundle_unsupported_extension
  (loads : string -> option entries) (b : Bundle) (st : state) :
  extension b <> "json" -> extension b <> "properties" ->
  process_bundle loads b st = Raise (NameError "whoami").
Proof.
  intros Hj Hp. unfold process_bundle.
  apply String.eqb_neq in Hj as ->. by apply String.eqb_neq in Hp as ->.
Qed.

Lemma process_bundle_unsupported_extension_witness :
  process_bundle (fun _ => None) xml_bundle (initial_state disk)
  = Raise (NameError "whoami").
Proof.
  by apply (process_bundle_unsupported_extension _ xml_bundle).
Defined.

(** What a parser leaves in its class-level dictionary: the files it was
    given, added to whatever the dictionary held before. *)
Lemma for_each_dict_set_keys {V} (w : World)
  (parse : string -> string -> result V) (todo : list string)
  (repr repr' : list (string * V)) :
  for_each (fun r file =>
              content ← read_file w file;
              v ← parse file content; Ok (dict_set r file v)) todo repr
  = Ok repr' ->
  forall f, f ∈ dict_keys repr' <-> f ∈ dict_keys repr \/ f ∈ todo.
Proof.
  revert repr. induction todo as [|f0 todo IH]; intros repr; simpl.
  - intros [= <-] f. rewrite elem_of_nil. tauto.
  - intros (r1 & Hbody & Hrest)%bind_Ok_inv f.
    apply bind_Ok_inv in Hbody as (content & _ & Hbody).
    apply bind_Ok_inv in Hbody as (v & _ & [= <-]).
    rewrite (IH _ Hrest), dict_keys_set_elem, elem_of_cons. tauto.
Qed.

Lemma properties_get_as_dictionary_keys (w : World) (fls : gset string)
  (repr repr' : representation) :
  PropertiesParser.get_as_dictionary w fls repr = Ok repr' ->
  forall f, f ∈ dict_keys repr' <-> f ∈ dict_keys repr \/ f ∈ fls.
Proof.
  unfold PropertiesParser.get_as_dictionary, PropertiesParser.parse_to_dict.
  intros H f. rewrite <- elem_of_elements.
  apply (for_each_dict_set_keys w
           (fun _ c => Ok (PropertiesParser.parse_file c))).
  done.
Qed.

Lemma json_get_as_dictionary_keys (loads : string -> option entries)
  (w : World) (fls : gset string) (repr repr' : representation) :
  JsonParser.get_as_dictionary loads w fls repr = Ok repr' ->
  forall f, f ∈ dict_keys repr' <-> f ∈ dict_keys repr \/ f ∈ fls.
Proof.
  unfold JsonParser.get_as_dictionary, JsonParser.parse_to_dict.
  intros H f. rewrite <- elem_of_elements.
  apply (for_each_dict_set_keys w
           (fun file c => match loads c with
                          | Some dictdump => Ok dictdump
                          | None => Raise (JSONDecodeError file)
                          end)).
  rewrite <- H. clear H. generalize (elements fls). intros l. revert repr.
  induction l as [|x l IH]; intros repr; simpl; [done|].
  destruct (read_file w x) as [c|e]; [|done]. rewrite !bind_Ok.
  destruct (loads c); [|done]. rewrite !bind_Ok. apply IH.
Qed.

(** C5. The parsed mapping is not confined to the bundle: the parsers keep
    their dictionary on the class, so the mapping handed to the diff
    computations of the second bundle of a run still holds the files of the
    first. With [l10n_bundle] and [help_bundle], both fully translated, the
    files of [/l10n] are reported as missing the key of [/help]. *)
Theorem parsed_mapping_keeps_earlier_bundles :
  exists b1 b2 w1 b1' st1 parsed b2' st2,
    gather [l10n_bundle; help_bundle] disk = Ok ([b1; b2], w1)
    /\ process_bundle (fun _ => None) b1 (initial_state w1) = Ok (b1', st1)
    /\ PropertiesParser.get_as_dictionary (world st1) (files b2)
         (properties_representation st1) = Ok parsed
    /\ process_bundle (fun _ => None) b2 st1 = Ok (b2', st2)
    /\ properties_representation st2 = parsed
    /\ "/l10n/m_fr.properties" ∈ dict_keys parsed
    /\ ("/l10n/m_fr.properties" ∉ files b2)
    /\ missing st1 = []
    /\ dict_get (missing st2) "/l10n/m_fr.properties" = Some ["title: Help"].
Proof.
  do 8 eexists.
  split; [by vm_compute|].
  split; [by vm_compute|].
  split; [by vm_compute|].
  split; [by vm_compute|].
  split; [by vm_compute|].
  split; [apply (bool_decide_unpack _); by vm_compute|].
  split; [apply (bool_decide_unpack _); by vm_compute|].
  split; by vm_compute.
Qed.

(** ** A run over one bundle *)



(** The snapshot never misses a key of its own. *)
Lemma check_missing_source (source : string) (bundle : representation)
  (M M' : diff) :
  check_missing_keys_in_other_locales source bundle M = Ok M' ->
  dict_get M' source = dict_get M source.
Proof.
  unfold check_missing_keys_in_other_locales.
  intros (S & HS & Hloop)%bind_Ok_inv.
  unfold item in HS. destruct (dict_get bundle source) as [S'|] eqn:Hget;
    [|done]. injection HS as ->.
  destruct (check_missing_loop S bundle (dict_keys bundle) M)
    as (M1 & Hrun & _ & Hin); [done|].
  rewrite Hrun in Hloop. injection Hloop as <-.
  rewrite (Hin source S).
  - by rewrite (proj2 (missing_keys_nil S S)).
  - eapply dict_elem_keys, dict_get_Some_elem, Hget.
  - done.
Qed.

Lemma process_bundle_inv (loads : string -> option entries) (b b' : Bundle)
  (st st' : state) :
  process_bundle loads b st = Ok (b', st') ->
  exists sp w w',
    Bundle.generate_snapshot_file b w = Ok (sp, b', w')
    /\ dict_get (missing st') sp = dict_get (missing st) sp.
Proof.
  unfold process_bundle.
  intros ([parsed st1] & Hparse & Hrest)%bind_Ok_inv.
  assert (Hmiss : missing st1 = missing st).
  { destruct (String.eqb (extension b) "json").
    - apply bind_Ok_inv in Hparse as (r & _ & [= _ <-]). done.
    - destruct (String.eqb (extension b) "properties"); [|done].
      apply bind_Ok_inv in Hparse as (r & _ & [= _ <-]). done. }
  apply bind_Ok_inv in Hrest as ([[sp b1] w1] & Hsnap & Hrest).
  apply bind_Ok_inv in Hrest as (dl & _ & Hrest).
  apply bind_Ok_inv in Hrest as (A' & _ & Hrest).
  apply bind_Ok_inv in Hrest as (M' & Hcheck & [= <- <-]).
  exists sp, (world st1), w1. split; [done|]. simpl.
  rewrite <- Hmiss. by apply check_missing_source in Hcheck.
Qed.

(** C10. In a run over one bundle that completes, the snapshot file
    identifier of the bundle is no key of the missing mapping. *)
Theorem snapshot_never_missing (loads : string -> option entries)
  (output_option : string) (b : Bundle) (w : World) (bs : list Bundle)
  (st : state) (d : string) :
  main loads output_option [b] w = Ok (bs, st) ->
  Bundle.get_default_locale_file b = Ok d ->
  dict_get (missing st) (d +:+ ".snapshot") = None.
Proof.
  unfold main. intros ([bs1 w1] & Hgather & Hgen)%bind_Ok_inv Hd.
  simpl in Hgather.
  apply bind_Ok_inv in Hgather as ([[sp0 b1] w0] & Hsnap0 & [= <- <-]).
  apply generate_snapshot_file_inv in Hsnap0 as (d0 & Hd0 & -> & Hfiles & Hloc).
  unfold generate_all in Hgen.
  apply bind_Ok_inv in Hgen as ([bs2 st1] & Hall & Hprint).
  destruct (Reconciliator.print_manifest _ _ _ _ _) as [data' w'] in Hprint.
  injection Hprint as <- <-. simpl.
  simpl in Hall.
  apply bind_Ok_inv in Hall as ([b2 st2] & Hproc & [= <- <-]).
  apply process_bundle_inv in Hproc as (sp & wa & wb & Hsnap & Hmiss).
  apply generate_snapshot_file_inv in Hsnap as (d1 & Hd1 & -> & _ & _).
  assert (d1 = d) as ->.
  { eapply (get_default_locale_file_mono b b1); [|done..].
    rewrite Hfiles. apply union_subseteq_r. }
  by rewrite Hmiss.
Qed.

Lemma snapshot_never_missing_witness :
  exists bs st,
    main (fun _ => None) "yaml" [l10n_bundle] disk = Ok (bs, st)
    /\ dict_get (missing st) "/l10n/m_en_US.properties.snapshot" = None.
Proof.
  destruct (main (fun _ => None) "yaml" [l10n_bundle] disk)
    as [[bs st]|e] eqn:Hmain; [|by vm_compute in Hmain].
  exists bs, st. split; [done|].
  apply (snapshot_never_missing (fun _ => None) "yaml" l10n_bundle disk
           bs st "/l10n/m_en_US.properties" Hmain).
  by vm_compute.
Defined.

(** * Further properties of the code *)

(** ** PropertiesParser: what a parsed mapping can hold *)

Lemma strip_by_idem p s : strip_by p (strip_by p s) = strip_by p s.
Proof.
  unfold strip_by. by rewrite (strip_by_comm p s), rstrip_by_idem,
    <- (strip_by_comm p s), lstrip_by_idem.
Qed.

Lemma has_char_lstrip_by p c s :
  has_char c s = false -> has_char c (lstrip_by p s) = false.
Proof.
  induction s as [|a s IH]; simpl; [done|].
  destruct (p a); [|done]. intros [_ Hs]%orb_false_elim. auto.
Qed.

Lemma has_char_rstrip_by p c s :
  has_char c s = false -> has_char c (rstrip_by p s) = false.
Proof.
  induction s as [|a s IH]; [done|]. rewrite rstrip_by_cons. simpl.
  intros [Ha Hs]%orb_false_elim. specialize (IH Hs).
  destruct (String.eqb _ ""); [destruct (p a)|]; simpl; by rewrite ?Ha.
Qed.

Lemma lstrip_by_startswith p c s :
  p c = true -> startswith (lstrip_by p s) c = false.
Proof.
  intros Hc. induction s as [|a s IH]; simpl; [done|].
  destruct (p a) eqn:Ha; [done|]. simpl.
  apply Ascii.eqb_neq. congruence.
Qed.

Lemma fold_store_elem (es : list (option (string * string))) (d : entries)
  (k v : string) :
  dict_get (fold_left store es d) k = Some v ->
  dict_get d k = Some v \/ Some (k, v) ∈ es.
Proof.
  revert d. induction es as [|e es IH]; intros d; simpl; [auto|].
  intros [Hd|Hin]%IH; [|right; by apply list_elem_of_further].
  destruct e as [[k' v']|]; simpl in Hd; [|by left].
  destruct (decide (k' = k)) as [->|Hne].
  - rewrite dict_get_set_eq in Hd. injection Hd as ->.
    right. apply list_elem_of_here.
  - rewrite dict_get_set_ne in Hd by done. by left.
Qed.

(** X1. Whatever the file holds, an entry of the parsed mapping has a value
    that is not empty and has no quote character at either end, and a key
    without surrounding whitespace and without separator. *)
Theorem parse_file_entries_clean (content k v : string) :
  dict_get (PropertiesParser.parse_file content) k = Some v ->
  v <> ""
  /\ strip_char quote v = v
  /\ startswith v quote = false
  /\ strip k = k
  /\ has_char PropertiesParser.separator k = false.
Proof.
  unfold PropertiesParser.parse_file. rewrite fold_parse_line.
  intros [Hd|Hin]%fold_store_elem; [done|].
  apply list_elem_of_fmap in Hin as (line & Hline & _).
  symmetry in Hline. unfold spec_line_entry in Hline.
  destruct (startswith _ _); [done|].
  destruct (cut_first _ line) as [[lhs r]|] eqn:Hcut; [|done].
  destruct (String.eqb _ "") eqn:Hv; [done|]. injection Hline as <- <-.
  apply cut_first_Some in Hcut as [_ Hlhs].
  split_and!.
  - by apply String.eqb_neq.
  - apply strip_by_idem.
  - apply lstrip_by_startswith, Ascii.eqb_refl.
  - apply strip_by_idem.
  - by apply has_char_lstrip_by, has_char_rstrip_by.
Qed.

Lemma parse_file_entries_clean_witness :
  "x=y" <> ""
  /\ strip_char quote "x=y" = "x=y"
  /\ startswith "x=y" quote = false
  /\ strip "b" = "b"
  /\ has_char PropertiesParser.separator "b" = false.
Proof.
  apply (parse_file_entries_clean
           ("a=1" +:+ nl +:+ " b = "
            +:+ String quote ("x=y" +:+ String quote nl)) "b" "x=y").
  by vm_compute.
Defined.

(** ** The parsers: outcome of a whole call *)

Lemma bind_Raise {A B} (e : exception) (f : A -> result B) :
  (Raise e ≫= f) = Raise e.
Proof. done. Qed.

(** The loop of both parsers, [parse] being what is done with the content
    of a file. *)
Lemma parse_loop_outcome {V} (w : World)
  (parse : string -> string -> result V) (todo : list string)
  (repr : list (string * V)) :
  (exists repr',
     for_each (fun r file =>
                 content ← read_file w file;
                 v ← parse file content; Ok (dict_set r file v)) todo repr
     = Ok repr'
     /\ (forall f, f ∈ todo ->
         exists c v, fs w !! f = Some c /\ parse f c = Ok v
                     /\ dict_get repr' f = Some v)
     /\ (forall f, f ∉ todo -> dict_get repr' f = dict_get repr f))
  \/ (exists f e,
        f ∈ todo
        /\ for_each (fun r file =>
                       content ← read_file w file;
                       v ← parse file content; Ok (dict_set r file v))
             todo repr = Raise e
        /\ ((fs w !! f = None /\ e = FileNotFoundError f)
            \/ (exists c, fs w !! f = Some c /\ parse f c = Raise e))).
Proof.
  revert repr. induction todo as [|f0 todo IH]; intros repr.
  - left. exists repr. split_and!; [done| |done].
    intros f Hf. by apply elem_of_nil in Hf.
  - cbn [for_each].
    destruct (read_file w f0) as [c0|e0] eqn:Hread; unfold read_file in Hread;
      destruct (fs w !! f0) as [c|] eqn:Hc0; simplify_eq.
    2:{ right. exists f0, (FileNotFoundError f0).
        split_and!; [apply list_elem_of_here|done|by left]. }
    rewrite !bind_Ok. destruct (parse f0 c0) as [v0|e0] eqn:Hp0.
    2:{ right. exists f0, e0.
        split_and!; [apply list_elem_of_here|done|]. right. by exists c0. }
    rewrite !bind_Ok.
    destruct (IH (dict_set repr f0 v0))
      as [(repr' & Hrun & Hin & Hout)|(f & e & Hf & Hrun & Hwhy)].
    + left. exists repr'. split_and!; [done| |].
      * intros f [->|Hf]%elem_of_cons; [|by apply Hin].
        destruct (decide (f0 ∈ todo)) as [Hd|Hd]; [by apply Hin|].
        exists c0, v0. split_and!; [done..|].
        rewrite (Hout f0 Hd). apply dict_get_set_eq.
      * intros f [Hne Hf]%not_elem_of_cons.
        rewrite (Hout f Hf). by apply dict_get_set_ne.
    + right. exists f, e. split_and!; [by apply list_elem_of_further|done..].
Qed.

Lemma properties_parse_Ok (w : World) (fls : gset string)
  (repr repr' : representation) :
  PropertiesParser.get_as_dictionary w fls repr = Ok repr' ->
  (forall f, f ∈ fls ->
   exists c, fs w !! f = Some c
             /\ dict_get repr' f = Some (PropertiesParser.parse_file c))
  /\ (forall f, f ∉ fls -> dict_get repr' f = dict_get repr f).
Proof.
  unfold PropertiesParser.get_as_dictionary, PropertiesParser.parse_to_dict.
  intros Hrun.
  destruct (parse_loop_outcome w
              (fun _ c => Ok (PropertiesParser.parse_file c))
              (elements fls) repr)
    as [(r & Hr & Hin & Hout)|(f & e & _ & He & _)].
  - pose proof (eq_trans (eq_sym Hr) Hrun) as [= ->]. split.
    + intros f Hf%elem_of_elements.
      destruct (Hin f Hf) as (c & v & Hc & [= <-] & Hv). by exists c.
    + intros f Hf. apply Hout. by rewrite elem_of_elements.
  - by pose proof (eq_trans (eq_sym He) Hrun).
Qed.


(** X3. When every file of the bundle is a text file on disk and holds a
    document that [json.loads] reads as an entry mapping,
    [JsonParser(files).get_as_dictionary()] returns, every file of the
    bundle is bound to the mapping of its document, and the bindings of all
    other files are those the class-level dictionary held before. *)
Theorem json_parser_returns (loads : string -> option entries) (w : World)
  (fls : gset string) (repr : representation) :
  (forall f, f ∈ fls -> exists c d, fs w !! f = Some c /\ loads c = Some d) ->
  exists repr',
    JsonParser.get_as_dictionary loads w fls repr = Ok repr'
    /\ (forall f c, f ∈ fls -> fs w !! f = Some c ->
        exists d, loads c = Some d /\ dict_get repr' f = Some d)
    /\ (forall f, f ∉ fls -> dict_get repr' f = dict_get repr f).
Proof.
  intros Hdisk.
  unfold JsonParser.get_as_dictionary, JsonParser.parse_to_dict.
  assert (Hbody : forall l r,
    for_each (fun repr file =>
                content ← read_file w file;
                match loads content with
                | Some dictdump => Ok (dict_set repr file dictdump)
                | None => Raise (JSONDecodeError file)
                end) l r
    = for_each (fun r file =>
                  content ← read_file w file;
                  v ← match loads content with
                      | Some dictdump => Ok dictdump
                      | None => Raise (JSONDecodeError file)
                      end; Ok (dict_set r file v)) l r).
  { induction l as [|x l IH]; intros r; simpl; [done|].
    destruct (read_file w x) as [c|e]; [|done]. rewrite !bind_Ok.
    destruct (loads c); [|done]. rewrite !bind_Ok. apply IH. }
  rewrite Hbody.
  destruct (parse_loop_outcome w
              (fun file c => match loads c with
                             | Some dictdump => Ok dictdump
                             | None => Raise (JSONDecodeError file)
                             end)
              (elements fls) repr)
    as [(repr' & Hrun & Hin & Hout)|(f & e & Hf & Hrun & Hwhy)].
  - exists repr'. split_and!; [done| |].
    + intros f c Hf%elem_of_elements Hc.
      destruct (Hin f Hf) as (c' & v & Hc' & Hl & Hv).
      assert (c' = c) as -> by congruence.
      exists v. split; [|done]. by destruct (loads c); simplify_eq.
    + intros f Hf. apply Hout. by rewrite elem_of_elements.
  - apply elem_of_elements, Hdisk in Hf as (c & d & Hc & Hd).
    destruct Hwhy as [[Hnone _]|(c' & Hc' & Hbad)]; [congruence|].
    assert (c' = c) as -> by congruence. by rewrite Hd in Hbad.
Qed.

Lemma json_parser_returns_witness :
  exists repr',
    JsonParser.get_as_dictionary
      (fun c => if String.eqb c "{}" then Some [] else None)
      (mkWorld {["/l10n/m_en_US.json" := "{}"]} [])
      {["/l10n/m_en_US.json"]} [("/help/h_en_US.json", [("title", "Help")])]
    = Ok repr'
    /\ dict_get repr' "/l10n/m_en_US.json" = Some []
    /\ dict_get repr' "/help/h_en_US.json" = Some [("title", "Help")].
Proof.
  destruct (json_parser_returns
              (fun c => if String.eqb c "{}" then Some [] else None)
              (mkWorld {["/l10n/m_en_US.json" := "{}"]} [])
              {["/l10n/m_en_US.json"]}
              [("/help/h_en_US.json", [("title", "Help")])])
    as (repr' & Hrun & Hin & Hout).
  { intros f ->%elem_of_singleton. exists "{}", []. split; reflexivity. }
  exists repr'. split; [exact Hrun|]. split.
  - destruct (Hin "/l10n/m_en_US.json" "{}") as (d & Hd & Hget);
      [by apply elem_of_singleton|reflexivity|].
    injection Hd as <-. exact Hget.
  - rewrite Hout; [reflexivity|].
    intros Heq%elem_of_singleton. discriminate Heq.
Defined.

(** ** Bundle: the outcome of the default locale lookup *)

Lemma locale_regex_match_NoDup (b : Bundle) :
  NoDup (Bundle.locale_regex_match b).
Proof. apply NoDup_filter, NoDup_elements. Qed.

Lemma NoDup_singleton_iff {A} (l : list A) (x : A) :
  NoDup l -> l = [x] <-> x ∈ l /\ forall y, y ∈ l -> y = x.
Proof.
  intros Hl. split.
  - intros ->. split; [apply list_elem_of_here|].
    by intros y ->%list_elem_of_singleton.
  - intros [Hx Hall]. destruct l as [|y [|z l]].
    + by apply elem_of_nil in Hx.
    + f_equal. apply Hall, list_elem_of_here.
    + apply NoDup_cons in Hl as [Hy _]. destruct Hy.
      rewrite (Hall y) by apply list_elem_of_here.
      rewrite <- (Hall z) at 1 by (apply list_elem_of_further, list_elem_of_here).
      apply list_elem_of_here.
Qed.

(** X4. For a locale free of pattern metacharacters,
    [get_default_locale_file] returns [d] exactly when [d] is the one file
    of the bundle that the locale pattern matches; it exits for want of a
    match exactly when the pattern matches no file of the bundle; and it
    exits for an ambiguous match exactly when the pattern matches two
    different files, the message then listing the matching files, each
    once. *)
Theorem get_default_locale_file_outcome (b : Bundle) :
  plain (default_locale b) = true ->
  (forall d,
     Bundle.get_default_locale_file b = Ok d <->
     d ∈ files b
     /\ re_match (Bundle.locale_pattern (default_locale b)) d = true
     /\ forall f, f ∈ files b ->
          re_match (Bundle.locale_pattern (default_locale b)) f = true ->
          f = d)
  /\ (Bundle.get_default_locale_file b
      = Raise (SystemExit (NoMatch "Bundle" (default_locale b) (path b))) <->
      forall f, f ∈ files b ->
        re_match (Bundle.locale_pattern (default_locale b)) f = false)
  /\ ((exists f g,
         f <> g /\ f ∈ files b /\ g ∈ files b
         /\ re_match (Bundle.locale_pattern (default_locale b)) f = true
         /\ re_match (Bundle.locale_pattern (default_locale b)) g = true) <->
      exists found,
        Bundle.get_default_locale_file b
        = Raise (SystemExit (MultipleMatches "Bundle" (default_locale b)
                               (path b) found))
        /\ NoDup found
        /\ forall f, f ∈ found <->
             f ∈ files b
             /\ re_match (Bundle.locale_pattern (default_locale b)) f = true).
Proof.
  intros _.
  pose proof (locale_regex_match_NoDup b) as Hnd.
  pose proof (locale_regex_match_elem b) as Helem.
  split_and!.
  - intros d. rewrite get_default_locale_file_Ok, NoDup_singleton_iff by done.
    rewrite Helem. split.
    + intros [[? ?] Hall]. split_and!; [done..|].
      intros f Hf Hm. apply Hall, Helem. done.
    + intros (? & ? & Hall). split; [done|].
      intros f [? ?]%Helem. by apply Hall.
  - rewrite get_default_locale_file_cases.
    destruct (Bundle.locale_regex_match b) as [|f [|g l]] eqn:Hl.
    + split; [|done]. intros _ f Hf.
      destruct (re_match _ f) eqn:Hm; [|done].
      assert (f ∈ []) as Hin by by apply Helem. by apply elem_of_nil in Hin.
    + split; [done|]. intros Hall.
      assert (Hf : f ∈ [f]) by apply list_elem_of_here.
      apply Helem in Hf as [Hf Hm]. by rewrite (Hall f Hf) in Hm.
    + split; [done|]. intros Hall.
      assert (Hf : f ∈ f :: g :: l) by apply list_elem_of_here.
      apply Helem in Hf as [Hf Hm]. by rewrite (Hall f Hf) in Hm.
  - rewrite get_default_locale_file_cases. split.
    + intros (f & g & Hne & Hf & Hg & Hmf & Hmg).
      assert (Hfin : f ∈ Bundle.locale_regex_match b) by by apply Helem.
      assert (Hgin : g ∈ Bundle.locale_regex_match b) by by apply Helem.
      destruct (Bundle.locale_regex_match b) as [|x [|y l]] eqn:Hl.
      * by apply elem_of_nil in Hfin.
      * apply list_elem_of_singleton in Hfin, Hgin. congruence.
      * exists (x :: y :: l). split_and!; [done|done|]. intros h. apply Helem.
    + intros (found & Hrun & _ & Hfound).
      destruct (Bundle.locale_regex_match b) as [|x [|y l]] eqn:Hl;
        [done..|]. injection Hrun as <-.
      exists x, y. apply NoDup_cons in Hnd as [Hx _].
      assert (Hxin : x ∈ x :: y :: l) by apply list_elem_of_here.
      assert (Hyin : y ∈ x :: y :: l)
        by apply list_elem_of_further, list_elem_of_here.
      apply Hfound in Hxin as [? ?]. apply Hfound in Hyin as [? ?].
      split_and!; [|done..]. intros ->. apply Hx, list_elem_of_here.
Qed.

Lemma get_default_locale_file_outcome_witness :
  plain (default_locale l10n_bundle) = true
  /\ "/l10n/m_en_US.properties" ∈ files l10n_bundle
  /\ (forall f, f ∈ files l10n_bundle ->
        re_match (Bundle.locale_pattern (default_locale l10n_bundle)) f = true ->
        f = "/l10n/m_en_US.properties").
Proof.
  split; [reflexivity|].
  destruct (get_default_locale_file_outcome l10n_bundle eq_refl) as [Hone _].
  destruct (proj1 (Hone "/l10n/m_en_US.properties")) as (Hin & _ & Huniq);
    [by vm_compute|].
  split; [exact Hin|exact Huniq].
Defined.

(** X5. For a locale free of pattern metacharacters, the pattern of
    [get_default_locale_file] matches a file name exactly when the name
    holds [_<locale>] at a place with no line break before it and without
    [snapshot] after it on the same line; [snapshot] before that place does
    not prevent the match, and the name of a snapshot file, a file name
    without line break followed by [.snapshot], is never matched. *)
Theorem locale_pattern_policy (locale file : string) :
  plain locale = true ->
  (re_match (Bundle.locale_pattern locale) file = true <->
   exists pre post,
     file = pre +:+ ("_" +:+ locale) +:+ post
     /\ has_char newline pre = false
     /\ ~ (exists mid rest,
             post = mid +:+ "snapshot" +:+ rest
             /\ has_char newline mid = false))
  /\ (has_char newline file = false ->
      re_match (Bundle.locale_pattern locale) (file +:+ ".snapshot") = false).
Proof.
  intros Hplain. split.
  - apply locale_pattern_match.
  - intros Hnl. apply snapshot_no_match; [by apply plain_no_dot|done].
Qed.

Lemma locale_pattern_policy_witness :
  re_match (Bundle.locale_pattern "en_US") "/l10n/snapshot_en_US.json" = true
  /\ re_match (Bundle.locale_pattern "en_US")
       ("/l10n/m_en_US.json" +:+ ".snapshot") = false.
Proof.
  destruct (locale_pattern_policy "en_US" "/l10n/snapshot_en_US.json" eq_refl)
    as [Hiff _].
  destruct (locale_pattern_policy "en_US" "/l10n/m_en_US.json" eq_refl)
    as [_ Hsnap].
  split; [|by apply Hsnap].
  apply Hiff. exists "/l10n/snapshot", ".json". split_and!; [done..|].
  intros Hahead%ahead_true_iff. by vm_compute in Hahead.
Defined.

(** ** Bundle: what [generate_snapshot_file] changes and when it fails *)

(** A call that returns, in full. *)
Lemma generate_snapshot_file_Ok (b b' : Bundle) (w w' : World) (sp : string) :
  Bundle.generate_snapshot_file b w = Ok (sp, b', w') ->
  exists d,
    Bundle.get_default_locale_file b = Ok d
    /\ sp = d +:+ ".snapshot"
    /\ b' = (if decide (sp ∈ files b) then b
             else mkBundle (path b) (extension b) ({[sp]} ∪ files b)
                    (default_locale b))
    /\ ((exists c, fs w !! sp = Some c /\ w' = w)
        \/ (fs w !! sp = None
            /\ exists content,
                 fs w !! d = Some content
                 /\ w' = mkWorld (<[sp := content]> (fs w))
                           (stdout w ++
                            [Line ("generating snapshot file " +:+ sp
                                   +:+ " based on " +:+ d)])%list)).
Proof.
  intros Hrun.
  destruct (generate_snapshot_file_inv _ _ _ _ _ Hrun) as (d & Hd & -> & _).
  exists d. split_and!; [done..| |].
  - unfold Bundle.generate_snapshot_file in Hrun. rewrite Hd, bind_Ok in Hrun.
    apply bind_Ok_inv in Hrun as (w1 & _ & Hrun). by injection Hrun as <- _.
  - destruct (fs w !! d) as [content|] eqn:Hcontent.
    + rewrite (generate_snapshot_file_run b w d content Hd Hcontent) in Hrun.
      injection Hrun as _ Hw.
      destruct (fs w !! (d +:+ ".snapshot")) as [c|] eqn:Hsp.
      * left. by exists c.
      * right. split; [done|]. by exists content.
    + unfold Bundle.generate_snapshot_file in Hrun. rewrite Hd, bind_Ok in Hrun.
      destruct (fs w !! (d +:+ ".snapshot")) as [c|] eqn:Hsp.
      * rewrite bind_Ok in Hrun. injection Hrun as _ <-. left. by exists c.
      * unfold read_file in Hrun. cbn [fs] in Hrun.
        rewrite lookup_insert_ne in Hrun by by apply append_ne.
        by rewrite Hcontent in Hrun.
Qed.

Lemma generate_snapshot_file_fields (b b' : Bundle) (w w' : World)
  (sp : string) :
  Bundle.generate_snapshot_file b w = Ok (sp, b', w') ->
  path b' = path b /\ extension b' = extension b
  /\ default_locale b' = default_locale b
  /\ files b' = {[sp]} ∪ files b.
Proof.
  intros (d & Hd & -> & -> & Hw)%generate_snapshot_file_Ok.
  destruct (decide (_ ∈ files b)); [|done].
  split_and!; [done..|].
  symmetry. by apply subseteq_union_1_L, singleton_subseteq_l.
Qed.

Lemma generate_snapshot_file_disk (b b' : Bundle) (w w' : World)
  (sp : string) :
  Bundle.generate_snapshot_file b w = Ok (sp, b', w') ->
  (forall f, f <> sp -> fs w' !! f = fs w !! f)
  /\ is_Some (fs w' !! sp).
Proof.
  intros (d & Hd & -> & -> & Hw)%generate_snapshot_file_Ok.
  destruct Hw as [(c & Hc & ->)|(_ & content & _ & ->)].
  - split; [done|]. by rewrite Hc.
  - simpl. split.
    + intros f Hf. by rewrite lookup_insert_ne.
    + rewrite lookup_insert_eq. done.
Qed.

(** X6. A call of [generate_snapshot_file] that returns leaves the path, the
    extension and the locale of the bundle as they are and adds the
    snapshot identifier to its files; on disk it changes no file other than
    the snapshot, never changes a snapshot that exists, and leaves a
    snapshot in place; and it prints at most one line. *)
Theorem generate_snapshot_file_frame (b b' : Bundle) (w w' : World)
  (sp : string) :
  Bundle.generate_snapshot_file b w = Ok (sp, b', w') ->
  path b' = path b /\ extension b' = extension b
  /\ default_locale b' = default_locale b
  /\ files b' = {[sp]} ∪ files b
  /\ (forall f, f <> sp -> fs w' !! f = fs w !! f)
  /\ (forall c, fs w !! sp = Some c -> fs w' !! sp = Some c)
  /\ is_Some (fs w' !! sp)
  /\ exists printed,
       stdout w' = (stdout w ++ printed)%list /\ (length printed <= 1)%nat.
Proof.
  intros Hrun.
  destruct (generate_snapshot_file_fields _ _ _ _ _ Hrun) as (? & ? & ? & ?).
  destruct (generate_snapshot_file_disk _ _ _ _ _ Hrun) as [? ?].
  apply generate_snapshot_file_Ok in Hrun as (d & _ & -> & _ & Hw).
  split_and!; [done..| |done|].
  - intros c Hc. destruct Hw as [(c' & _ & ->)|(Hnone & _)]; [done|].
    congruence.
  - destruct Hw as [(c & _ & ->)|(_ & content & _ & ->)].
    + exists []. split; [by rewrite app_nil_r | simpl; lia].
    + eexists [_]. split; [done | simpl; lia].
Qed.

Lemma generate_snapshot_file_frame_witness :
  exists b' w',
    Bundle.generate_snapshot_file l10n_bundle disk
    = Ok ("/l10n/m_en_US.properties" +:+ ".snapshot", b', w')
    /\ fs w' !! "/l10n/m_fr.properties" = fs disk !! "/l10n/m_fr.properties".
Proof.
  assert (Hd : Bundle.get_default_locale_file l10n_bundle
               = Ok "/l10n/m_en_US.properties") by (vm_compute; reflexivity).
  assert (Hc : fs disk !! "/l10n/m_en_US.properties"
               = Some ("greeting=hello" +:+ nl)) by (vm_compute; reflexivity).
  pose proof (generate_snapshot_file_run _ _ _ _ Hd Hc) as Hrun.
  eexists _, _. split; [exact Hrun|].
  destruct (generate_snapshot_file_frame _ _ _ _ _ Hrun)
    as (_ & _ & _ & _ & Hframe & _).
  apply Hframe. intros Heq. discriminate Heq.
Defined.

(** X7. When [generate_snapshot_file] returns and when it does not: the
    error of [get_default_locale_file] is the error of the call; with the
    default locale file [d] determined and the snapshot on disk, the call
    returns the snapshot identifier, adds it to the files of the bundle and
    leaves disk and output as they are; and a call returns only if [d] is
    determined and the snapshot or [d] is on disk. *)
Theorem generate_snapshot_file_returns (b : Bundle) (w : World) :
  (forall e, Bundle.get_default_locale_file b = Raise e ->
             Bundle.generate_snapshot_file b w = Raise e)
  /\ (forall d, Bundle.get_default_locale_file b = Ok d ->
        is_Some (fs w !! (d +:+ ".snapshot")) ->
        exists b',
          Bundle.generate_snapshot_file b w = Ok (d +:+ ".snapshot", b', w)
          /\ files b' = {[d +:+ ".snapshot"]} ∪ files b)
  /\ (forall sp b' w', Bundle.generate_snapshot_file b w = Ok (sp, b', w') ->
        exists d,
          Bundle.get_default_locale_file b = Ok d
          /\ sp = d +:+ ".snapshot"
          /\ (is_Some (fs w !! sp) \/ is_Some (fs w !! d))).
Proof.
  unfold Bundle.generate_snapshot_file. split_and!.
  - intros e ->. apply bind_Raise.
  - intros d -> [c Hsp]. rewrite bind_Ok, Hsp, bind_Ok.
    eexists. split; [done|].
    destruct (decide (_ ∈ files b)); [|done].
    symmetry. by apply subseteq_union_1_L, singleton_subseteq_l.
  - intros sp b' w'.
    destruct (Bundle.get_default_locale_file b) as [d|e]; [|done].
    rewrite bind_Ok.
    destruct (fs w !! (d +:+ ".snapshot")) as [c|] eqn:Hsp.
    + rewrite bind_Ok. intros [= <- _ _]. exists d. rewrite Hsp.
      split_and!; [done..|]. left. by exists c.
    + unfold read_file. cbn [fs].
      rewrite lookup_insert_ne by by apply append_ne.
      destruct (fs w !! d) as [content|] eqn:Hcontent; [|done].
      rewrite !bind_Ok. intros [= <- _ _]. exists d.
      split_and!; [done..|]. right. by exists content.
Qed.

(** ** TranslationGenerator: [process_bundle] step by step *)

Lemma properties_parse_run (w : World) (fls : gset string)
  (repr : representation) :
  (forall f, f ∈ fls -> is_Some (fs w !! f)) ->
  exists repr',
    PropertiesParser.get_as_dictionary w fls repr = Ok repr'
    /\ (forall f, f ∉ fls -> dict_get repr' f = dict_get repr f).
Proof.
  intros Hdisk.
  unfold PropertiesParser.get_as_dictionary, PropertiesParser.parse_to_dict.
  destruct (parse_loop_outcome w
              (fun _ c => Ok (PropertiesParser.parse_file c))
              (elements fls) repr)
    as [(r & Hr & _ & Hout)|(f & e & Hf & _ & Hwhy)].
  - exists r. split; [exact Hr|].
    intros f Hf. apply Hout. by rewrite elem_of_elements.
  - apply elem_of_elements, Hdisk in Hf as [c Hc].
    destruct Hwhy as [[Hnone _]|(c' & _ & Hbad)]; [congruence|done].
Qed.

Lemma get_default_locale_file_elem (b : Bundle) (d : string) :
  Bundle.get_default_locale_file b = Ok d -> d ∈ files b.
Proof.
  intros Hd%get_default_locale_file_Ok.
  assert (Hin : d ∈ Bundle.locale_regex_match b)
    by (rewrite Hd; apply list_elem_of_here).
  by apply locale_regex_match_elem in Hin as [? _].
Qed.

(** X8. [process_bundle] parses the files of the bundle before it asks for
    the snapshot, so on a properties bundle whose snapshot identifier is
    not yet among its files, and is no key left in the parser's dictionary,
    it fails with [KeyError] for the snapshot identifier, whether or not the
    snapshot file is on disk. *)
Theorem process_bundle_unregistered_snapshot
  (loads : string -> option entries) (b : Bundle) (st : state) (d : string) :
  extension b = "properties" ->
  (forall f, f ∈ files b -> is_Some (fs (world st) !! f)) ->
  Bundle.get_default_locale_file b = Ok d ->
  plain (default_locale b) = true ->
  has_char newline d = false ->
  d +:+ ".snapshot" ∉ files b ->
  dict_get (properties_representation st) (d +:+ ".snapshot") = None ->
  process_bundle loads b st = Raise (KeyError (d +:+ ".snapshot")).
Proof.
  intros Hext Hdisk Hd Hplain Hnl Hsp Hrepr.
  unfold process_bundle. rewrite Hext. cbn [String.eqb Ascii.eqb Bool.eqb].
  destruct (properties_parse_run (world st) (files b)
              (properties_representation st) Hdisk) as (parsed & -> & Hout).
  rewrite !bind_Ok. cbn [world additions missing].
  destruct (Hdisk d (get_default_locale_file_elem b d Hd)) as [content Hc].
  rewrite (generate_snapshot_file_run b (world st) d content Hd Hc), bind_Ok.
  rewrite decide_False by done.
  assert (Hd' : Bundle.get_default_locale_file
                  (mkBundle (path b) (extension b)
                     ({[d +:+ ".snapshot"]} ∪ files b) (default_locale b))
                = Ok d).
  { apply get_default_locale_file_Ok, locale_regex_match_add.
    - apply snapshot_no_match; [by apply plain_no_dot|done].
    - by apply get_default_locale_file_Ok. }
  rewrite Hd', bind_Ok.
  unfold new_entries, item. by rewrite (Hout _ Hsp), Hrepr.
Qed.

Lemma process_bundle_unregistered_snapshot_witness :
  process_bundle (fun _ => None) l10n_bundle (initial_state disk)
  = Raise (KeyError "/l10n/m_en_US.properties.snapshot").
Proof.
  apply (process_bundle_unregistered_snapshot (fun _ => None) l10n_bundle
           (initial_state disk) "/l10n/m_en_US.properties");
    try by vm_compute.
  intros f Hf. unfold l10n_bundle, Bundle.init in Hf. cbn [files] in Hf.
    rewrite elem_of_list_to_set in Hf.
    by repeat (apply elem_of_cons in Hf as [->|Hf]; [by eexists|]);
      apply elem_of_nil in Hf.
Defined.

Lemma json_parse_Ok (loads : string -> option entries) (w : World)
  (fls : gset string) (repr repr' : representation) :
  JsonParser.get_as_dictionary loads w fls repr = Ok repr' ->
  (forall f, f ∈ fls ->
   exists c d, fs w !! f = Some c /\ loads c = Some d
               /\ dict_get repr' f = Some d)
  /\ (forall f, f ∉ fls -> dict_get repr' f = dict_get repr f).
Proof.
  unfold JsonParser.get_as_dictionary, JsonParser.parse_to_dict.
  intros Hrun.
  assert (Hbody : forall l r,
    for_each (fun repr file =>
                content ← read_file w file;
                match loads content with
                | Some dictdump => Ok (dict_set repr file dictdump)
                | None => Raise (JSONDecodeError file)
                end) l r
    = for_each (fun r file =>
                  content ← read_file w file;
                  v ← match loads content with
                      | Some dictdump => Ok dictdump
                      | None => Raise (JSONDecodeError file)
                      end; Ok (dict_set r file v)) l r).
  { induction l as [|x l IH]; intros r; simpl; [done|].
    destruct (read_file w x) as [c|e]; [|done]. rewrite !bind_Ok.
    destruct (loads c); [|done]. rewrite !bind_Ok. apply IH. }
  rewrite Hbody in Hrun.
  destruct (parse_loop_outcome w
              (fun file c => match loads c with
                             | Some dictdump => Ok dictdump
                             | None => Raise (JSONDecodeError file)
                             end)
              (elements fls) repr)
    as [(r & Hr & Hin & Hout)|(f & e & _ & He & _)].
  - pose proof (eq_trans (eq_sym Hr) Hrun) as [= ->]. split.
    + intros f Hf%elem_of_elements.
      destruct (Hin f Hf) as (c & v & Hc & Hl & Hv).
      exists c, v. split_and!; [done| |done]. by destruct (loads c); simplify_eq.
    + intros f Hf. apply Hout. by rewrite elem_of_elements.
  - by pose proof (eq_trans (eq_sym He) Hrun).
Qed.

(** A call of [process_bundle] that returns, step by step. *)
Lemma process_bundle_Ok (loads : string -> option entries) (b b' : Bundle)
  (st st' : state) :
  process_bundle loads b st = Ok (b', st') ->
  exists parsed sp dl,
    (forall f, f ∈ files b ->
     exists c e, fs (world st) !! f = Some c
                 /\ parsed_form loads (extension b) c = Some e
                 /\ dict_get parsed f = Some e)
    /\ (forall f, f ∉ files b ->
        dict_get parsed f
        = dict_get (parser_representation (extension b) st) f)
    /\ json_representation st'
       = (if String.eqb (extension b) "json" then parsed
          else json_representation st)
    /\ properties_representation st'
       = (if String.eqb (extension b) "json" then properties_representation st
          else parsed)
    /\ Bundle.generate_snapshot_file b (world st) = Ok (sp, b', world st')
    /\ Bundle.get_default_locale_file b' = Ok dl
    /\ new_entries sp dl parsed (additions st) = Ok (additions st')
    /\ check_missing_keys_in_other_locales sp parsed (missing st)
       = Ok (missing st')
    /\ data st' = data st.
Proof.
  unfold process_bundle, parsed_form, parser_representation.
  intros ([parsed st1] & Hparse & Hrest)%bind_Ok_inv.
  apply bind_Ok_inv in Hrest as ([[sp b1] w1] & Hsnap & Hrest).
  apply bind_Ok_inv in Hrest as (dl & Hdl & Hrest).
  apply bind_Ok_inv in Hrest as (A' & Hnew & Hrest).
  apply bind_Ok_inv in Hrest as (M' & Hcheck & [= <- <-]).
  exists parsed, sp, dl. cbn [world additions missing data
    json_representation properties_representation].
  destruct (String.eqb (extension b) "json") eqn:Hj.
  - apply bind_Ok_inv in Hparse as (r & Hr & [= <- <-]).
    apply json_parse_Ok in Hr as [Hin Hout]. simpl in *.
    by split_and!.
  - destruct (String.eqb (extension b) "properties") eqn:Hp; [|done].
    apply bind_Ok_inv in Hparse as (r & Hr & [= <- <-]).
    apply properties_parse_Ok in Hr as [Hin Hout]. simpl in *.
    split_and!; try done.
    intros f Hf. destruct (Hin f Hf) as (c & ? & ?). by eexists c, _.
Qed.

Lemma new_entries_Ok (source candidate : string) (bundle : representation)
  (A A' : diff) :
  new_entries source candidate bundle A = Ok A' ->
  exists S C,
    dict_get bundle source = Some S /\ dict_get bundle candidate = Some C
    /\ A' = if dict_eqb S C then A
            else match new_values S C with
                 | [] => A
                 | found => dict_set A candidate found
                 end.
Proof.
  unfold new_entries, item.
  destruct (dict_get bundle source) as [S|]; [|done].
  destruct (dict_get bundle candidate) as [C|]; [|done].
  rewrite !bind_Ok. intros H. exists S, C. split_and!; [done..|].
  destruct (dict_eqb S C); simpl in H; [by injection H|].
  destruct (new_values S C); by injection H.
Qed.

Lemma check_missing_Ok (source : string) (bundle : representation)
  (M M' : diff) :
  check_missing_keys_in_other_locales source bundle M = Ok M' ->
  exists S,
    dict_get bundle source = Some S
    /\ (forall f, f ∉ dict_keys bundle -> dict_get M' f = dict_get M f)
    /\ (forall f F, dict_get bundle f = Some F ->
        dict_get M' f = match missing_keys S F with
                        | [] => dict_get M f
                        | found => Some found
                        end).
Proof.
  unfold check_missing_keys_in_other_locales.
  intros (S & HS & Hloop)%bind_Ok_inv.
  unfold item in HS. destruct (dict_get bundle source) as [S'|] eqn:Hget;
    [|done]. injection HS as ->. exists S. split; [done|].
  destruct (check_missing_loop S bundle (dict_keys bundle) M)
    as (M1 & Hrun & Hout & Hin); [done|].
  rewrite Hrun in Hloop. injection Hloop as <-. split; [done|].
  intros f F HF. apply Hin; [|done].
  eapply dict_elem_keys, dict_get_Some_elem, HF.
Qed.

Lemma process_bundle_sound (loads : string -> option entries)
  (known : string -> Prop) (b b' : Bundle) (st st' : state) :
  results_sound known st ->
  process_bundle loads b st = Ok (b', st') ->
  results_sound (fun f => known f \/ f ∈ files b') st'.
Proof.
  intros (HA & HM & HJ & HP) Hrun.
  destruct (process_bundle_Ok _ _ _ _ _ Hrun)
    as (parsed & sp & dl & Hin & Hout & Hjson & Hprop & Hsnap & Hdl & Hnew
        & Hcheck & _).
  destruct (generate_snapshot_file_inv _ _ _ _ _ Hsnap)
    as (d & _ & _ & Hfiles & _).
  assert (Hparsed : forall f, f ∈ dict_keys parsed ->
                              known f \/ f ∈ files b').
  { intros f Hf. destruct (decide (f ∈ files b)) as [Hd|Hn].
    { right. rewrite Hfiles. by apply elem_of_union_r. }
    left. apply dict_get_is_Some in Hf as [e He].
    rewrite (Hout f Hn) in He.
    assert (Hk : f ∈ dict_keys (parser_representation (extension b) st))
      by eapply dict_elem_keys, dict_get_Some_elem, He.
    unfold parser_representation in Hk.
    destruct (String.eqb (extension b) "json"); auto. }
  split_and!.
  - apply new_entries_Ok in Hnew as (S & C & _ & _ & ->).
    intros f l. destruct (dict_eqb S C).
    { intros Hl. destruct (HA f l Hl). auto. }
    destruct (new_values S C) as [|v found] eqn:Hnv.
    { intros Hl. destruct (HA f l Hl). auto. }
    destruct (decide (dl = f)) as [<-|Hne].
    + rewrite dict_get_set_eq. intros [= <-]. split; [done|].
      right. by eapply get_default_locale_file_elem.
    + rewrite dict_get_set_ne by done. intros Hl. destruct (HA f l Hl). auto.
  - apply check_missing_Ok in Hcheck as (S & _ & Hout' & Hin').
    intros f l Hl. destruct (dict_get parsed f) as [F|] eqn:HF.
    + rewrite (Hin' f F HF) in Hl.
      destruct (missing_keys S F) as [|s found] eqn:Hmk.
      * destruct (HM f l Hl). auto.
      * injection Hl as <-. split; [done|].
        eapply Hparsed, dict_elem_keys, dict_get_Some_elem, HF.
    + rewrite Hout' in Hl by by apply dict_get_None.
      destruct (HM f l Hl). auto.
  - rewrite Hjson. destruct (String.eqb (extension b) "json"); auto.
  - rewrite Hprop. destruct (String.eqb (extension b) "json"); auto.
Qed.

Lemma results_sound_weaken (known known' : string -> Prop) (st : state) :
  (forall f, known f -> known' f) ->
  results_sound known st -> results_sound known' st.
Proof.
  intros Hk (HA & HM & HJ & HP). split_and!.
  - intros f l Hl. destruct (HA f l Hl). auto.
  - intros f l Hl. destruct (HM f l Hl). auto.
  - auto.
  - auto.
Qed.

Lemma process_all_sound (loads : string -> option entries)
  (known : string -> Prop) (bundles bs' : list Bundle) (st st' : state) :
  results_sound known st ->
  process_all loads bundles st = Ok (bs', st') ->
  results_sound (fun f => known f \/ exists b, b ∈ bs' /\ f ∈ files b) st'.
Proof.
  revert known bs' st. induction bundles as [|b bundles IH];
    intros known bs' st Hst; simpl.
  - intros [= <- <-]. eapply results_sound_weaken; [|done]. auto.
  - intros ([b1 st1] & Hb & Hrest)%bind_Ok_inv.
    apply bind_Ok_inv in Hrest as ([rest' st2] & Hall & [= <- <-]).
    eapply results_sound_weaken;
      [|eapply IH; [eapply process_bundle_sound; [exact Hst|exact Hb]|exact Hall]].
    intros f [[?|?]|(b2 & ? & ?)]; [by left| |].
    + right. exists b1. split; [apply list_elem_of_here|done].
    + right. exists b2. split; [by apply list_elem_of_further|done].
Qed.

Lemma collect_from_empty (missing added : diff) :
  collect "missing" missing (collect "added" added [])
  = spec_manifest missing added.
Proof.
  unfold spec_manifest.
  destruct added as [|a added], missing as [|m missing];
    rewrite ?collect_nil, ?collect_cons; done.
Qed.

Lemma generate_all_Ok (loads : string -> option entries)
  (output_option : string) (all_bundles bs : list Bundle) (st st' : state) :
  generate_all loads output_option all_bundles st = Ok (bs, st') ->
  exists st1,
    process_all loads all_bundles st = Ok (bs, st1)
    /\ additions st' = additions st1 /\ missing st' = missing st1
    /\ json_representation st' = json_representation st1
    /\ properties_representation st' = properties_representation st1
    /\ (data st', world st')
       = print_manifest output_option (missing st1) (additions st1)
           (data st1) (world st1).
Proof.
  unfold generate_all. intros ([bs1 st1] & Hall & Hprint)%bind_Ok_inv.
  exists st1. destruct (print_manifest _ _ _ _ _) as [data' w'].
  by injection Hprint as <- <-.
Qed.

Lemma process_all_data (loads : string -> option entries)
  (bundles bs' : list Bundle) (st st' : state) :
  process_all loads bundles st = Ok (bs', st') -> data st' = data st.
Proof.
  revert bs' st. induction bundles as [|b bundles IH]; intros bs' st; simpl.
  - by intros [= <- <-].
  - intros ([b1 st1] & Hb & Hrest)%bind_Ok_inv.
    apply bind_Ok_inv in Hrest as ([rest' st2] & Hall & [= <- <-]).
    rewrite (IH _ _ Hall).
    by destruct (process_bundle_Ok _ _ _ _ _ Hb)
      as (? & ? & ? & _ & _ & _ & _ & _ & _ & _ & _ & ?).
Qed.

Lemma main_Ok (loads : string -> option entries) (output_option : string)
  (configured bs : list Bundle) (w : World) (st : state) :
  main loads output_option configured w = Ok (bs, st) ->
  exists gathered w1,
    gather configured w = Ok (gathered, w1)
    /\ generate_all loads output_option gathered (initial_state w1)
       = Ok (bs, st).
Proof.
  unfold main. intros ([gathered w1] & Hg & Hgen)%bind_Ok_inv.
  by exists gathered, w1.
Qed.

(** X9. In a run that completes, whatever the number of bundles, every
    entry of [additions] and of [missing] is a non-empty list recorded for
    a file of one of the bundles of the run, and the manifest handed to the
    printer is built from exactly these two mappings. *)
Theorem main_results_sound (loads : string -> option entries)
  (output_option : string) (configured bs : list Bundle) (w : World)
  (st : state) :
  main loads output_option configured w = Ok (bs, st) ->
  (forall f l, dict_get (additions st) f = Some l ->
               l <> [] /\ exists b, b ∈ bs /\ f ∈ files b)
  /\ (forall f l, dict_get (missing st) f = Some l ->
                  l <> [] /\ exists b, b ∈ bs /\ f ∈ files b)
  /\ data st = spec_manifest (missing st) (additions st).
Proof.
  intros (gathered & w1 & _ & Hgen)%main_Ok.
  apply generate_all_Ok in Hgen
    as (st1 & Hall & HA & HM & _ & _ & Hprint).
  assert (Hinit : results_sound (fun _ => False) (initial_state w1)).
  { split_and!; simpl; try done; intros f Hf; by apply elem_of_nil in Hf. }
  destruct (process_all_sound _ _ _ _ _ _ Hinit Hall) as (HA1 & HM1 & _).
  rewrite HA, HM. split_and!.
  - intros f l Hl. destruct (HA1 f l Hl) as [? [[]|?]]. done.
  - intros f l Hl. destruct (HM1 f l Hl) as [? [[]|?]]. done.
  - rewrite (process_all_data _ _ _ _ _ Hall) in Hprint.
    unfold print_manifest in Hprint. simpl in Hprint.
    rewrite collect_from_empty in Hprint.
    by repeat destruct (_ && _) in Hprint; injection Hprint as -> _.
Qed.

Lemma main_results_sound_witness :
  exists bs st,
    main (fun _ => None) "yaml" [l10n_bundle; help_bundle] disk = Ok (bs, st)
    /\ data st = spec_manifest (missing st) (additions st).
Proof.
  destruct (main (fun _ => None) "yaml" [l10n_bundle; help_bundle] disk)
    as [[bs st]|e] eqn:Hmain; [|by vm_compute in Hmain].
  exists bs, st. split; [done|].
  by destruct (main_results_sound _ _ _ _ _ _ Hmain) as (_ & _ & ?).
Defined.

(** ** A run over one bundle, end to end *)

Lemma print_manifest_fs (output_option : string) (missing added : diff)
  (data : manifest) (w : World) :
  fs (snd (print_manifest output_option missing added data w)) = fs w.
Proof.
  unfold print_manifest. by repeat destruct (_ && _).
Qed.

Lemma new_values_self (S : entries) : new_values S S = [].
Proof.
  unfold new_values.
  assert (Hgen : forall keys,
    flat_map (fun x => match dict_get S x with
                       | Some v => if decide (v ∈ dict_values S) then []
                                   else [v]
                       | None => []
                       end) keys = []).
  { induction keys as [|k keys IH]; simpl; [done|]. rewrite IH.
    destruct (dict_get S k) as [v|] eqn:Hk; [|done].
    rewrite decide_True; [done|].
    eapply dict_elem_values, dict_get_Some_elem, Hk. }
  apply Hgen.
Qed.

(** A completed run over one bundle, in terms of the disk after [gather]. *)
Lemma single_bundle_run (loads : string -> option entries)
  (output_option : string) (b : Bundle) (w : World) (bs : list Bundle)
  (st : state) (d : string) :
  main loads output_option [b] w = Ok (bs, st) ->
  Bundle.get_default_locale_file b = Ok d ->
  exists b1 w1 S C,
    Bundle.generate_snapshot_file b w = Ok (d +:+ ".snapshot", b1, w1)
    /\ bs = [b1]
    /\ fs (world st) = fs w1
    /\ (forall f, f ∈ files b1 ->
        exists c F, fs w1 !! f = Some c
                    /\ parsed_form loads (extension b) c = Some F
                    /\ dict_get (missing st) f
                       = match missing_keys S F with
                         | [] => None
                         | found => Some found
                         end)
    /\ (forall f, f ∉ files b1 -> dict_get (missing st) f = None)
    /\ (exists csp, fs w1 !! (d +:+ ".snapshot") = Some csp
                    /\ parsed_form loads (extension b) csp = Some S)
    /\ (exists cd, fs w1 !! d = Some cd
                   /\ parsed_form loads (extension b) cd = Some C)
    /\ additions st = if dict_eqb S C then []
                      else match new_values S C with
                           | [] => []
                           | found => [(d, found)]
                           end.
Proof.
  intros (gathered & wg & Hgather & Hgen)%main_Ok Hd.
  simpl in Hgather.
  apply bind_Ok_inv in Hgather as ([[sp0 b1] w1] & Hsnap0 & [= <- <-]).
  pose proof (generate_snapshot_file_inv _ _ _ _ _ Hsnap0)
    as (d0 & Hd0 & Hsp0 & Hfiles & Hloc).
  assert (d0 = d) as -> by congruence. subst sp0.
  set (sp := d +:+ ".snapshot") in *.
  pose proof (generate_snapshot_file_fields _ _ _ _ _ Hsnap0)
    as (_ & Hext & _ & _).
  pose proof (generate_snapshot_file_disk _ _ _ _ _ Hsnap0)
    as [_ [csp Hcsp]].
  apply generate_all_Ok in Hgen
    as (st1 & Hall & HA & HM & _ & _ & Hprint).
  simpl in Hall.
  apply bind_Ok_inv in Hall as ([b2 st2] & Hproc & [= <- <-]).
  destruct (process_bundle_Ok _ _ _ _ _ Hproc)
    as (parsed & sp' & dl & Hin & Hout & _ & _ & Hsnap & Hdl & Hnew
        & Hcheck & _).
  rewrite Hext in Hin, Hout.
  assert (Hnone : forall f, f ∉ files b1 -> dict_get parsed f = None).
  { intros f Hf. rewrite (Hout f Hf). unfold parser_representation.
    by destruct (String.eqb (extension b) "json"). }
  pose proof (generate_snapshot_file_Ok _ _ _ _ _ Hsnap)
    as (d1 & Hd1 & -> & Hb2 & Hw2).
  assert (d1 = d) as ->.
  { eapply (get_default_locale_file_mono b b1); [|done..].
    rewrite Hfiles. apply union_subseteq_r. }
  fold sp in Hb2, Hw2, Hsnap, Hnew, Hcheck.
  assert (Hspin : sp ∈ files b1).
  { rewrite Hfiles. by apply elem_of_union_l, elem_of_singleton_2. }
  rewrite decide_True in Hb2 by done. subst b2.
  assert (dl = d) as -> by congruence.
  simpl in Hw2. destruct Hw2 as [(c & _ & Hw2)|[Hw2 _]]; [|congruence].
  apply new_entries_Ok in Hnew as (S & C & HS & HC & Hadd).
  apply check_missing_Ok in Hcheck as (S' & HS' & Hmout & Hmin).
  assert (S' = S) as -> by congruence.
  exists b1, w1, S, C. split_and!; [done|done| | | | | |].
  - pose proof (print_manifest_fs output_option (missing st2)
                  (additions st2) (data st2) (world st2)) as Hfs.
    rewrite <- Hprint in Hfs. simpl in Hfs. by rewrite Hfs, Hw2.
  - intros f Hf. destruct (Hin f Hf) as (cf & F & Hcf & HF & Hget).
    exists cf, F. split_and!; [done..|].
    rewrite HM, (Hmin f F Hget). by destruct (missing_keys S F).
  - intros f Hf. rewrite HM, Hmout; [done|].
    apply dict_get_None. by apply Hnone.
  - destruct (Hin sp Hspin) as (c' & F & Hc' & HF & Hget).
    exists c'. split; [done|]. congruence.
  - assert (Hdin : d ∈ files b1).
    { rewrite Hfiles. apply elem_of_union_r.
      by eapply get_default_locale_file_elem. }
    destruct (Hin d Hdin) as (c' & F & Hc' & HF & Hget).
    exists c'. split; [done|]. congruence.
  - rewrite HA, Hadd. simpl. destruct (dict_eqb S C); [done|].
    by destruct (new_values S C).
Qed.

(** X10. A completed run over one properties bundle reports exactly what
    the disk holds: with [S] the parsed snapshot and [C] the parsed default
    locale file, [additions] has one entry, for the default locale file,
    listing the values of [C] that are no value of [S], or no entry when
    there is none; and [missing] has for each file of the bundle, and for
    the snapshot, the [key: value] strings of the entries of [S] whose key
    the parsed file lacks, an entry being absent when there is none; no
    other file has an entry. *)
Theorem properties_run_reports (loads : string -> option entries)
  (output_option : string) (b : Bundle) (w : World) (bs : list Bundle)
  (st : state) (d : string) :
  main loads output_option [b] w = Ok (bs, st) ->
  extension b = "properties" ->
  Bundle.get_default_locale_file b = Ok d ->
  exists csp cd,
    fs (world st) !! (d +:+ ".snapshot") = Some csp
    /\ fs (world st) !! d = Some cd
    /\ additions st
       = match filter (fun v => v ∉ dict_values
                                      (PropertiesParser.parse_file csp))
                 (dict_values (PropertiesParser.parse_file cd)) with
         | [] => []
         | found => [(d, found)]
         end
    /\ (forall f, f ∈ files b \/ f = d +:+ ".snapshot" ->
        exists c,
          fs (world st) !! f = Some c
          /\ dict_get (missing st) f
             = match missing_keys (PropertiesParser.parse_file csp)
                       (PropertiesParser.parse_file c) with
               | [] => None
               | found => Some found
               end)
    /\ (forall f, f ∉ files b -> f <> d +:+ ".snapshot" ->
        dict_get (missing st) f = None).
Proof.
  intros Hmain Hext Hd.
  destruct (single_bundle_run _ _ _ _ _ _ _ Hmain Hd)
    as (b1 & w1 & S & C & Hsnap & _ & Hfs & Hin & Hout
        & (csp & Hcsp & HS) & (cd & Hcd & HC) & Hadd).
  pose proof (generate_snapshot_file_inv _ _ _ _ _ Hsnap)
    as (_ & _ & _ & Hfiles & _).
  unfold parsed_form in *. rewrite Hext in *.
  cbn [String.eqb Ascii.eqb Bool.eqb] in *.
  injection HS as <-. injection HC as <-.
  exists csp, cd. rewrite Hfs. split_and!; [done|done| | |].
  - rewrite Hadd.
    destruct (dict_eqb _ _) eqn:Heq.
    + rewrite (proj2 (filter_nil_iff _ _)); [done|].
      intros v Hv Hn. apply Hn.
      eapply dict_eqb_values; [apply parse_file_wf..|done|done].
    + by rewrite new_values_filter by apply parse_file_wf.
  - intros f Hf.
    assert (Hf1 : f ∈ files b1).
    { rewrite Hfiles. destruct Hf as [?| ->];
        [by apply elem_of_union_r
        |by apply elem_of_union_l, elem_of_singleton_2]. }
    destruct (Hin f Hf1) as (c & F & Hc & HF & Hget).
    injection HF as <-. by exists c.
  - intros f Hf Hne. apply Hout. rewrite Hfiles.
    intros [->%elem_of_singleton|?]%elem_of_union; done.
Qed.

Lemma properties_run_reports_witness :
  exists bs st csp cd,
    main (fun _ => None) "json" [l10n_bundle] disk = Ok (bs, st)
    /\ fs (world st) !! ("/l10n/m_en_US.properties" +:+ ".snapshot")
       = Some csp
    /\ fs (world st) !! "/l10n/m_en_US.properties" = Some cd
    /\ additions st
       = match filter (fun v => v ∉ dict_values
                                      (PropertiesParser.parse_file csp))
                 (dict_values (PropertiesParser.parse_file cd)) with
         | [] => []
         | found => [("/l10n/m_en_US.properties", found)]
         end.
Proof.
  destruct (main (fun _ => None) "json" [l10n_bundle] disk)
    as [[bs st]|e] eqn:Hmain; [|by vm_compute in Hmain].
  destruct (properties_run_reports _ _ _ _ _ _ "/l10n/m_en_US.properties"
              Hmain eq_refl) as (csp & cd & Hcsp & Hcd & Hadd & _);
    [by vm_compute|].
  exists bs, st, csp, cd. by split_and!.
Defined.

(** X11. On a first run over one bundle, when no snapshot is on disk, the
    snapshot is created with the content of the default locale file, and a
    completed run reports no additions and no missing key for the default
    locale file and for the snapshot. *)
Theorem first_run_reports_nothing_new (loads : string -> option entries)
  (output_option : string) (b : Bundle) (w : World) (bs : list Bundle)
  (st : state) (d : string) :
  main loads output_option [b] w = Ok (bs, st) ->
  Bundle.get_default_locale_file b = Ok d ->
  fs w !! (d +:+ ".snapshot") = None ->
  additions st = []
  /\ dict_get (missing st) d = None
  /\ dict_get (missing st) (d +:+ ".snapshot") = None
  /\ is_Some (fs w !! d)
  /\ fs (world st) !! (d +:+ ".snapshot") = fs w !! d.
Proof.
  intros Hmain Hd Hnew.
  destruct (single_bundle_run _ _ _ _ _ _ _ Hmain Hd)
    as (b1 & w1 & S & C & Hsnap & _ & Hfs & Hin & _
        & (csp & Hcsp & HS) & (cd & Hcd & HC) & Hadd).
  pose proof (generate_snapshot_file_inv _ _ _ _ _ Hsnap)
    as (_ & _ & _ & Hfiles & _).
  pose proof (generate_snapshot_file_Ok _ _ _ _ _ Hsnap)
    as (d' & Hd' & _ & _ & [(c & Hc & _)|(_ & content & Hcontent & ->)]);
    [congruence|].
  assert (d' = d) as -> by congruence.
  assert (Hne : d +:+ ".snapshot" <> d) by by apply append_ne.
  simpl in Hcsp, Hcd.
  rewrite lookup_insert_eq in Hcsp. rewrite lookup_insert_ne in Hcd by done.
  assert (csp = cd) as -> by congruence.
  assert (S = C) as -> by congruence.
  assert (Hself : missing_keys C C = []) by by apply missing_keys_nil.
  split_and!.
  - rewrite Hadd, new_values_self. by destruct (dict_eqb C C).
  - destruct (Hin d) as (c & F & Hc & HF & Hget).
    { rewrite Hfiles. apply elem_of_union_r.
      by eapply get_default_locale_file_elem. }
    simpl in Hc. rewrite lookup_insert_ne in Hc by done.
    assert (F = C) as -> by congruence. by rewrite Hget, Hself.
  - destruct (Hin (d +:+ ".snapshot")) as (c & F & Hc & HF & Hget).
    { rewrite Hfiles. by apply elem_of_union_l, elem_of_singleton_2. }
    simpl in Hc. rewrite lookup_insert_eq in Hc.
    assert (F = C) as -> by congruence. by rewrite Hget, Hself.
  - by rewrite Hcontent.
  - rewrite Hfs. simpl. rewrite lookup_insert_eq. congruence.
Qed.

Lemma first_run_reports_nothing_new_witness :
  exists bs st,
    main (fun _ => None) "yaml" [l10n_bundle] disk = Ok (bs, st)
    /\ additions st = []
    /\ dict_get (missing st) "/l10n/m_en_US.properties" = None.
Proof.
  destruct (main (fun _ => None) "yaml" [l10n_bundle] disk)
    as [[bs st]|e] eqn:Hmain; [|by vm_compute in Hmain].
  exists bs, st. split; [reflexivity|].
  assert (Hd : Bundle.get_default_locale_file l10n_bundle
               = Ok "/l10n/m_en_US.properties") by (vm_compute; reflexivity).
  assert (Hnew : fs disk !! ("/l10n/m_en_US.properties" +:+ ".snapshot")
                 = None) by (vm_compute; reflexivity).
  destruct (first_run_reports_nothing_new _ _ _ _ _ _ _ Hmain Hd Hnew)
    as (Hadd & Hmiss & _).
  split; assumption.
Defined.

(** ** After [gather], processing leaves the disk alone *)

Lemma snapshot_ready_call (b b' : Bundle) (w w' : World) (sp : string) :
  snapshot_ready b w ->
  Bundle.generate_snapshot_file b w = Ok (sp, b', w') ->
  b' = b /\ w' = w.
Proof.
  intros Hready (d & Hd & -> & -> & Hw)%generate_snapshot_file_Ok.
  destruct (Hready d Hd) as [Hin [c Hc]].
  rewrite decide_True by done. split; [done|].
  destruct Hw as [(c' & _ & ->)|[Hnone _]]; [done|congruence].
Qed.

Lemma snapshot_ready_after (b b' : Bundle) (w w' : World) (sp : string) :
  Bundle.generate_snapshot_file b w = Ok (sp, b', w') ->
  snapshot_ready b' w'.
Proof.
  intros Hrun d1 Hd1.
  destruct (generate_snapshot_file_fields _ _ _ _ _ Hrun)
    as (_ & _ & Hloc & Hfiles).
  destruct (generate_snapshot_file_disk _ _ _ _ _ Hrun) as [_ Hsp].
  destruct (generate_snapshot_file_inv _ _ _ _ _ Hrun) as (d & Hd & -> & _).
  assert (d1 = d) as ->.
  { eapply (get_default_locale_file_mono b b'); [|done..].
    rewrite Hfiles. apply union_subseteq_r. }
  split; [|done]. rewrite Hfiles.
  by apply elem_of_union_l, elem_of_singleton_2.
Qed.

Lemma snapshot_ready_later (b : Bundle) (w w' : World) :
  (forall f, is_Some (fs w !! f) -> is_Some (fs w' !! f)) ->
  snapshot_ready b w -> snapshot_ready b w'.
Proof.
  intros Hmono Hready d Hd. destruct (Hready d Hd). auto.
Qed.

Lemma generate_snapshot_file_keeps (b b' : Bundle) (w w' : World)
  (sp : string) :
  Bundle.generate_snapshot_file b w = Ok (sp, b', w') ->
  forall f, is_Some (fs w !! f) -> is_Some (fs w' !! f).
Proof.
  intros Hrun f Hf.
  destruct (generate_snapshot_file_disk _ _ _ _ _ Hrun) as [Hother Hsp].
  destruct (decide (f = sp)) as [->|Hne]; [done|]. by rewrite Hother.
Qed.

Lemma gather_ready (bundles gathered : list Bundle) (w w' : World) :
  gather bundles w = Ok (gathered, w') ->
  Forall (fun b => snapshot_ready b w') gathered
  /\ (forall f, is_Some (fs w !! f) -> is_Some (fs w' !! f)).
Proof.
  revert gathered w. induction bundles as [|b bundles IH];
    intros gathered w; simpl.
  - intros [= <- <-]. split; [constructor|done].
  - intros ([[sp b1] w1] & Hsnap & Hrest)%bind_Ok_inv.
    apply bind_Ok_inv in Hrest as ([rest' w2] & Hgather & [= <- <-]).
    destruct (IH _ _ Hgather) as [Hall Hmono].
    pose proof (generate_snapshot_file_keeps _ _ _ _ _ Hsnap) as Hkeep.
    split; [|auto]. constructor; [|done].
    eapply snapshot_ready_later; [exact Hmono|].
    by eapply snapshot_ready_after.
Qed.

Lemma process_all_ready (loads : string -> option entries)
  (bundles bs : list Bundle) (st st' : state) :
  Forall (fun b => snapshot_ready b (world st)) bundles ->
  process_all loads bundles st = Ok (bs, st') ->
  bs = bundles /\ world st' = world st.
Proof.
  revert bs st. induction bundles as [|b bundles IH]; intros bs st; simpl.
  - by intros _ [= <- <-].
  - intros [Hb Hrest]%Forall_cons ([b1 st1] & Hproc & Hall)%bind_Ok_inv.
    apply bind_Ok_inv in Hall as ([rest' st2] & Hall & [= <- <-]).
    destruct (process_bundle_Ok _ _ _ _ _ Hproc)
      as (_ & sp & _ & _ & _ & _ & _ & Hsnap & _).
    destruct (snapshot_ready_call _ _ _ _ _ Hb Hsnap) as [-> Hw].
    rewrite <- Hw in Hrest. destruct (IH _ _ Hrest Hall) as [-> ->].
    done.
Qed.

(** X12. In a run that completes, all snapshots are created by [gather]:
    [generate_all] leaves the bundles and the disk as [gather] left them,
    and prints nothing but, at the end, at most one manifest. *)
Theorem processing_leaves_disk (loads : string -> option entries)
  (output_option : string) (configured bs : list Bundle) (w : World)
  (st : state) :
  main loads output_option configured w = Ok (bs, st) ->
  exists w1,
    gather configured w = Ok (bs, w1)
    /\ fs (world st) = fs w1
    /\ (stdout (world st) = stdout w1
        \/ stdout (world st) = (stdout w1 ++ [JsonDump (data st)])%list
        \/ stdout (world st) = (stdout w1 ++ [YamlDump (data st)])%list).
Proof.
  intros (gathered & w1 & Hgather & Hgen)%main_Ok.
  apply generate_all_Ok in Hgen as (st1 & Hall & _ & _ & _ & _ & Hprint).
  destruct (gather_ready _ _ _ _ Hgather) as [Hready _].
  destruct (process_all_ready loads gathered bs (initial_state w1) st1
              Hready Hall) as [-> Hw].
  simpl in Hw. exists w1. split; [done|].
  unfold print_manifest in Hprint. rewrite Hw in Hprint.
  repeat destruct (_ && _) in Hprint; injection Hprint as -> ->; simpl; auto.
Qed.

Lemma processing_leaves_disk_witness :
  exists bs st w1,
    main (fun _ => None) "yaml" [l10n_bundle; help_bundle] disk = Ok (bs, st)
    /\ gather [l10n_bundle; help_bundle] disk = Ok (bs, w1)
    /\ fs (world st) = fs w1.
Proof.
  destruct (main (fun _ => None) "yaml" [l10n_bundle; help_bundle] disk)
    as [[bs st]|e] eqn:Hmain; [|by vm_compute in Hmain].
  destruct (processing_leaves_disk _ _ _ _ _ _ Hmain) as (w1 & Hg & Hfs & _).
  exists bs, st, w1. split; [reflexivity|]. split; assumption.
Defined.

(** ** Reconciliator: order and accumulation *)

Lemma string_le_trans a b c : string_le a b -> string_le b c -> string_le a c.
Proof.
  unfold string_le. intros Hab%Is_true_true Hbc%Is_true_true.
  apply Is_true_true.
  exact (@transitivity _ String.le _ a b c Hab Hbc).
Qed.

Lemma string_le_antisym a b : string_le a b -> string_le b a -> a = b.
Proof. apply String.leb_antisym. Qed.

Lemma sorted_unique l1 l2 :
  Sorted string_le l1 -> Sorted string_le l2 -> Permutation l1 l2 -> l1 = l2.
Proof.
  intros H1 H2 Hp.
  apply (@Sorted_unique _ string_le); try done.
  - intros a b c. apply string_le_trans.
  - intros a b. apply string_le_antisym.
Qed.

(** X13. [sorted] depends only on which strings it is given, not on their
    order, and sorting a sorted list changes nothing; so the manifest does
    not depend on the order in which the strings of a file were found:
    [print_manifest] gives the same result for two pairs of mappings that
    list the same files in the same order with the same strings in any
    order. *)
Theorem print_manifest_order_independent (output_option : string)
  (missing missing' added added' : diff) (data : manifest) (w : World) :
  Forall2 (fun x y => fst x = fst y /\ Permutation (snd x) (snd y))
    missing missing' ->
  Forall2 (fun x y => fst x = fst y /\ Permutation (snd x) (snd y))
    added added' ->
  print_manifest output_option missing added data w
  = print_manifest output_option missing' added' data w
  /\ (forall l l', Permutation l l' -> sorted l = sorted l')
  /\ (forall l, sorted (sorted l) = sorted l).
Proof.
  assert (Hperm : forall l l', Permutation l l' -> sorted l = sorted l').
  { intros l l' Hp. apply sorted_unique; [apply sorted_Sorted..|].
    by rewrite !sorted_perm. }
  assert (Hcollect : forall key d d' data0,
    Forall2 (fun x y => fst x = fst y /\ Permutation (snd x) (snd y)) d d' ->
    collect key d data0 = collect key d' data0).
  { intros key d d' data0 Hd. revert data0. unfold collect.
    induction Hd as [|[f l] [f' l'] d d' [Hf Hl] Hd IH]; intros data0;
      simpl in *; [done|].
    subst f'. by rewrite (Hperm l l' Hl), IH. }
  intros Hm Ha. split_and!; [|done|].
  - unfold print_manifest.
    by rewrite (Hcollect "added" added added' data Ha),
      (Hcollect "missing" missing missing' _ Hm).
  - intros l. apply sorted_unique; [apply sorted_Sorted..|apply sorted_perm].
Qed.

Lemma print_manifest_order_independent_witness :
  print_manifest "json" [("m_fr.json", ["b: 2"; "a: 1"])] [] [] (mkWorld ∅ [])
  = print_manifest "json" [("m_fr.json", ["a: 1"; "b: 2"])] [] []
      (mkWorld ∅ []).
Proof.
  apply (print_manifest_order_independent "json"
           [("m_fr.json", ["b: 2"; "a: 1"])]
           [("m_fr.json", ["a: 1"; "b: 2"])] [] []).
  - constructor; [|constructor]. split; [done|]. apply perm_swap.
  - constructor.
Defined.

(** X14. [print_manifest] adds to the class-level [data]: after a call, the
    sequence under [added] is the one [data] held before followed by one
    single-key mapping for each file of the additions, likewise under
    [missing], and every other key of [data] is as before. A second call in
    the same process therefore reports the entries of the first again. *)
Theorem print_manifest_accumulates (output_option : string)
  (missing added : diff) (data : manifest) (w : World) :
  let data' := fst (print_manifest output_option missing added data w) in
  get_or_empty data' "added"
  = (get_or_empty data "added" ++ map single_key added)%list
  /\ get_or_empty data' "missing"
     = (get_or_empty data "missing" ++ map single_key missing)%list
  /\ (forall key, key <> "added" -> key <> "missing" ->
      dict_get data' key = dict_get data key).
Proof.
  assert (Hfst : fst (print_manifest output_option missing added data w)
                 = collect "missing" missing (collect "added" added data)).
  { unfold print_manifest. by repeat destruct (_ && _). }
  simpl. rewrite Hfst. clear Hfst.
  assert (Hsame : forall key d data0,
    get_or_empty (collect key d data0) key
    = (get_or_empty data0 key ++ map single_key d)%list).
  { intros key [|x d] data0.
    - by rewrite collect_nil, app_nil_r.
    - by rewrite collect_cons, get_or_empty_set. }
  assert (Hother : forall key key' d data0, key <> key' ->
    dict_get (collect key d data0) key' = dict_get data0 key').
  { intros key key' [|x d] data0 Hne.
    - by rewrite collect_nil.
    - rewrite collect_cons. by apply dict_get_set_ne. }
  split_and!.
  - unfold get_or_empty at 1. rewrite Hother by done.
    apply (Hsame "added").
  - rewrite Hsame. f_equal. unfold get_or_empty.
    by rewrite Hother.
  - intros key Ha Hm. rewrite !Hother; done.
Qed.

(** ** Validator and Bundler *)

Lemma outcome_bind_Done {A B} (a : A) (f : A -> outcome B) :
  (Done a ≫= f) = f a.
Proof. done. Qed.

Lemma outcome_bind_inv {A B} (m : outcome A) (f : A -> outcome B) (y : B) :
  (m ≫= f) = Done y -> exists a, m = Done a /\ f a = Done y.
Proof. destruct m as [a|e]; [|done]. intros H. by exists a. Qed.

Lemma validate_keys_Done (bundle : declaration) :
  Validator.validate_keys_in_bundle bundle = Done tt <->
  is_Some (dict_get bundle "path") /\ is_Some (dict_get bundle "extension").
Proof.
  unfold Validator.validate_keys_in_bundle, Validator.REQUIRED_KEYS.
  rewrite !filter_cons, filter_nil. unfold dict_has.
  destruct (dict_get bundle "path"), (dict_get bundle "extension");
    simpl; split; try done; intros [[? ?] [? ?]]; done.
Qed.

Lemma validate_bundle_Done (env : Env) (bundle : declaration) :
  Validator.validate_bundle env bundle = Done tt <->
  valid_declaration env bundle.
Proof.
  unfold Validator.validate_bundle, valid_declaration, get_string,
    list_directory. split.
  - intros ([] & [[p Hp] [ext Hext]]%validate_keys_Done & Hrest)%outcome_bind_inv.
    rewrite Hp, outcome_bind_Done, Hext in Hrest.
    destruct (path_exists env (realpath env p)) eqn:Hex; [|done].
    simpl in Hrest.
    destruct (bool_decide (ext ∈ Validator.ACCEPTED_FILE_TYPES)) eqn:Hacc;
      [|done]. simpl in Hrest. apply bool_decide_eq_true in Hacc.
    destruct (listdir env (realpath env p)) as [names|] eqn:Hls; [|done].
    rewrite outcome_bind_Done in Hrest.
    destruct (existsb _ names) eqn:Hsome; [|done].
    apply existsb_exists in Hsome as (fname & Hin%list_elem_of_In & Hends).
    exists p, ext, names. split_and!; try done. by exists fname.
  - intros (p & ext & names & Hp & Hext & Hex & Hacc & Hls
            & fname & Hin & Hends).
    rewrite (proj2 (validate_keys_Done bundle)), outcome_bind_Done
      by (rewrite Hp, Hext; split; eauto).
    rewrite Hp, outcome_bind_Done, Hex, Hext. simpl.
    rewrite bool_decide_eq_true_2 by done. simpl.
    rewrite Hls, outcome_bind_Done.
    assert (existsb (fun f => PyPath.endswith f ext) names = true) as ->; [|done].
    apply existsb_exists. exists fname. split; [|done].
    by apply list_elem_of_In.
Qed.

Lemma for_all_validate (env : Env) (bundles : list declaration) :
  for_all (fun _ bundle => Validator.validate_bundle env bundle) bundles tt
  = Done tt <->
  Forall (valid_declaration env) bundles.
Proof.
  induction bundles as [|b bundles IH]; simpl.
  - split; [constructor|done].
  - rewrite Forall_cons, <- IH, <- validate_bundle_Done. split.
    + intros ([] & ? & ?)%outcome_bind_inv. done.
    + intros [-> ?]. by rewrite outcome_bind_Done.
Qed.

(** X15. [Validator.validate] lets a configuration pass exactly when its
    [bundles] key holds a non-empty sequence and every declaration of it
    has a path and an extension, a resolved path that exists, an extension
    among [properties] and [json], and a directory that lists at least one
    file ending with the extension. *)
Theorem validate_accepts (env : Env) (data : configuration) :
  Validator.validate env data = Done tt <->
  exists bundles,
    dict_get data "bundles" = Some bundles
    /\ bundles <> []
    /\ Forall (valid_declaration env) bundles.
Proof.
  unfold Validator.validate.
  destruct (dict_get data "bundles") as [[|b bundles]|].
  - split; [done|]. by intros (? & [= <-] & ? & _).
  - rewrite for_all_validate. split.
    + intros ?. by exists (b :: bundles).
    + by intros (? & [= <-] & _ & ?).
  - split; [done|]. by intros (? & ? & _).
Qed.

Lemma endswith_app (a b suffix : string) :
  PyPath.endswith b suffix = true -> PyPath.endswith (a +:+ b) suffix = true.
Proof.
  intros Hb. induction a as [|c a IH]; [done|].
  rewrite append_cons. cbn [PyPath.endswith]. by rewrite IH, orb_true_r.
Qed.

Lemma endswith_join (dir fname suffix : string) :
  PyPath.endswith fname suffix = true ->
  PyPath.endswith (PyPath.join dir fname) suffix = true.
Proof.
  intros H. unfold PyPath.join.
  destruct (startswith fname "/"); [done|].
  destruct (_ || _); [by apply endswith_app|].
  by apply endswith_app, (endswith_app "/").
Qed.

(** A name that ends with an accepted extension does not end with
    [.snapshot]. *)
Lemma endswith_not_snapshot (s extension : string) :
  extension ∈ Validator.ACCEPTED_FILE_TYPES ->
  PyPath.endswith s extension = true ->
  PyPath.endswith s ".snapshot" = false.
Proof.
  unfold Validator.ACCEPTED_FILE_TYPES.
  intros Hext. induction s as [|c s IH]; cbn [PyPath.endswith].
  - repeat (apply elem_of_cons in Hext as [->|Hext]; [done|]).
    by apply elem_of_nil in Hext.
  - intros [Heq|Hrest]%orb_true_iff.
    + apply String.eqb_eq in Heq.
      repeat (apply elem_of_cons in Hext as [->|Hext];
              [injection Heq as -> ->; by vm_compute|]).
      by apply elem_of_nil in Hext.
    + rewrite (IH Hrest), orb_false_r. apply String.eqb_neq. intros Heq.
      injection Heq as -> ->.
      repeat (apply elem_of_cons in Hext as [->|Hext];
              [by vm_compute in Hrest|]).
      by apply elem_of_nil in Hext.
Qed.

Lemma get_string_Some (d : declaration) (key v : string) :
  dict_get d key = Some v -> get_string d key = Done v.
Proof. unfold get_string. by intros ->. Qed.

Lemma list_directory_Some (env : Env) (dir : string) (names : list string) :
  listdir env dir = Some names -> list_directory env dir = Done names.
Proof. unfold list_directory. by intros ->. Qed.

Lemma parse_bundle_loop (decl : declaration) (dir extension : string)
  (names found : list string) :
  dict_get decl "extension" = Some extension ->
  for_all (fun found file =>
             ext ← get_string decl "extension";
             if PyPath.endswith file ext
             then Done (found ++ [PyPath.join dir file])%list
             else Done found) names found
  = Done (found ++ map (PyPath.join dir)
                     (filter (fun fname =>
                                PyPath.endswith fname extension = true)
                        names))%list.
Proof.
  intros Hext. rewrite (get_string_Some _ _ _ Hext). revert found.
  induction names as [|n names IH]; intros found; cbn [for_all].
  - by rewrite filter_nil, app_nil_r.
  - rewrite outcome_bind_Done, filter_cons. cbv beta.
    destruct (PyPath.endswith n extension) eqn:Hn.
    + rewrite outcome_bind_Done, IH, decide_True by done.
      cbn [map]. by rewrite <- app_assoc.
    + rewrite outcome_bind_Done, IH, decide_False; [done|]. by intros ?.
Qed.

Lemma parse_bundle_run (env : Env) (decl : declaration)
  (all_bundles : list Bundle) (path extension : string)
  (names : list string) :
  dict_get decl "path" = Some path ->
  dict_get decl "extension" = Some extension ->
  listdir env (realpath env path) = Some names ->
  Bundler.parse_bundle env decl all_bundles
  = Done (all_bundles ++
          [Bundle.init (realpath env path) extension
             (map (PyPath.join (realpath env path))
                (filter (fun fname => PyPath.endswith fname extension = true)
                   names))
             (dict_get decl "default_locale")])%list.
Proof.
  intros Hp Hext Hls. unfold Bundler.parse_bundle.
  rewrite (get_string_Some _ _ _ Hp), outcome_bind_Done.
  rewrite (list_directory_Some _ _ _ Hls), outcome_bind_Done.
  rewrite (parse_bundle_loop decl _ extension names [] Hext).
  by rewrite outcome_bind_Done, Hext.
Qed.

Lemma parse_all_valid (env : Env) (bundles : list declaration)
  (all_bundles : list Bundle) :
  Forall (valid_declaration env) bundles ->
  exists parsed,
    Bundler.parse_all env bundles all_bundles = Done (all_bundles ++ parsed)%list
    /\ Forall2 (bundle_of env) bundles parsed.
Proof.
  unfold Bundler.parse_all. intros Hvalid. revert all_bundles.
  induction Hvalid as [|decl bundles Hdecl _ IH]; intros all_bundles; simpl.
  - exists []. by rewrite app_nil_r.
  - destruct Hdecl as (p & ext & names & Hp & Hext & _ & _ & Hls & _).
    rewrite (parse_bundle_run env decl all_bundles p ext names Hp Hext Hls),
      outcome_bind_Done.
    destruct (IH (all_bundles ++ [Bundle.init (realpath env p) ext
                (map (PyPath.join (realpath env p))
                   (filter (fun fname => PyPath.endswith fname ext = true)
                      names)) (dict_get decl "default_locale")])%list)
      as (parsed & -> & Hparsed).
    eexists (_ :: parsed). rewrite <- app_assoc. split; [done|].
    constructor; [|done]. by exists p, ext, names.
Qed.

Lemma validate_Done (env : Env) (data : configuration) :
  Validator.validate env data = Done tt ->
  exists bundles,
    dict_get data "bundles" = Some bundles
    /\ Forall (valid_declaration env) bundles.
Proof.
  unfold Validator.validate.
  destruct (dict_get data "bundles") as [[|b bundles]|]; [done| |done].
  intros ?%for_all_validate. by exists (b :: bundles).
Qed.

Lemma valid_bundle_of (env : Env) (decl : declaration) (b : Bundle) :
  valid_declaration env decl -> bundle_of env decl b ->
  extension b ∈ Validator.ACCEPTED_FILE_TYPES
  /\ (exists f, f ∈ files b)
  /\ (forall f, f ∈ files b ->
      PyPath.endswith f (extension b) = true
      /\ PyPath.endswith f ".snapshot" = false).
Proof.
  intros (p & ext & names & Hp & Hext & _ & Hacc & Hls & fname & Hin & Hends)
         (p' & ext' & names' & Hp' & Hext' & Hls' & ->).
  assert (p' = p) as -> by congruence.
  assert (ext' = ext) as -> by congruence.
  assert (names' = names) as -> by congruence.
  unfold Bundle.init. cbn [extension files]. split_and!; [done| |].
  - exists (PyPath.join (realpath env p) fname).
    apply elem_of_list_to_set, list_elem_of_fmap. exists fname.
    split; [done|]. by apply list_elem_of_filter.
  - intros f Hf. apply elem_of_list_to_set, list_elem_of_fmap in Hf
      as (n & -> & [Hn _]%list_elem_of_filter).
    assert (He : PyPath.endswith (PyPath.join (realpath env p) n) ext = true)
      by by apply endswith_join.
    split; [done|]. by eapply endswith_not_snapshot.
Qed.

(** X16. For a configuration that [Validator.validate] lets pass, the first
    loop of [Bundler.gather] returns: it appends to the class-level
    [all_bundles], in the order of the declarations, one bundle for each
    declaration, whose path is the resolved path, whose files are the
    listed names that end with the extension, joined to the path, and whose
    locale is the declared one or [en_US]; each of these bundles has an
    accepted extension and at least one file, and none of its files is a
    snapshot file. *)
Theorem validated_bundles (env : Env) (data : configuration)
  (all_bundles : list Bundle) :
  Validator.validate env data = Done tt ->
  exists bundles parsed,
    dict_get data "bundles" = Some bundles
    /\ Bundler.parse_all env bundles all_bundles
       = Done (all_bundles ++ parsed)%list
    /\ Forall2 (bundle_of env) bundles parsed
    /\ Forall (fun b =>
                 (extension b = "properties" \/ extension b = "json")
                 /\ (exists f, f ∈ files b)
                 /\ forall f, f ∈ files b ->
                      PyPath.endswith f (extension b) = true
                      /\ PyPath.endswith f ".snapshot" = false) parsed.
Proof.
  intros (bundles & Hdata & Hvalid)%validate_Done.
  destruct (parse_all_valid env bundles all_bundles Hvalid)
    as (parsed & Hrun & Hof).
  exists bundles, parsed. split_and!; [done..|].
  clear Hrun Hdata. revert Hvalid.
  induction Hof as [|decl b bundles parsed Hdb _ IH]; intros Hvalid;
    [constructor|].
  apply Forall_cons in Hvalid as [Hdecl Hvalid].
  constructor; [|by apply IH].
  destruct (valid_bundle_of env decl b Hdecl Hdb) as (Hacc & ? & ?).
  split_and!; [|done..].
  unfold Validator.ACCEPTED_FILE_TYPES in Hacc.
  apply elem_of_cons in Hacc as [?|Hacc]; [by left|].
  apply elem_of_cons in Hacc as [?|Hacc]; [by right|].
  by apply elem_of_nil in Hacc.
Qed.

Lemma validated_bundles_witness :
  exists parsed,
    Bundler.parse_all l10n_env
      [[("path", "/l10n"); ("extension", "properties")]] [] = Done parsed
    /\ Forall (fun b => exists f, f ∈ files b) parsed.
Proof.
  destruct (validated_bundles l10n_env l10n_config [])
    as (bundles & parsed & Hdata & Hrun & _ & Hall); [by vm_compute|].
  injection Hdata as <-. exists parsed. split; [exact Hrun|].
  eapply Forall_impl; [exact Hall|]. by intros b (_ & ? & _).
Defined.

(** ** Driver: what a run from the configuration cannot end with *)

Lemma get_default_locale_file_Raise (b : Bundle) (e : exception) :
  Bundle.get_default_locale_file b = Raise e -> exists m, e = SystemExit m.
Proof.
  rewrite get_default_locale_file_cases.
  destruct (Bundle.locale_regex_match b) as [|f [|g l]]; [|done|];
    intros [= <-]; eauto.
Qed.

Lemma generate_snapshot_file_Raise (b : Bundle) (w : World) (e : exception) :
  Bundle.generate_snapshot_file b w = Raise e ->
  (exists m, e = SystemExit m) \/ (exists f, e = FileNotFoundError f).
Proof.
  unfold Bundle.generate_snapshot_file.
  destruct (Bundle.get_default_locale_file b) as [d|e'] eqn:Hd.
  - rewrite bind_Ok. destruct (fs w !! (d +:+ ".snapshot")); [done|].
    unfold read_file. destruct (_ !! d); [done|].
    intros [= <-]. right. eauto.
  - intros [= <-]. left. by eapply get_default_locale_file_Raise.
Qed.

Lemma parse_loop_Raise {V} (w : World)
  (parse : string -> string -> result V) (todo : list string)
  (repr : list (string * V)) (e : exception) :
  for_each (fun r file =>
              content ← read_file w file;
              v ← parse file content; Ok (dict_set r file v)) todo repr
  = Raise e ->
  (exists f, e = FileNotFoundError f) \/ (exists f c, parse f c = Raise e).
Proof.
  intros Hrun.
  destruct (parse_loop_outcome w parse todo repr)
    as [(r & Hr & _)|(f & e' & _ & He & Hwhy)].
  - by rewrite Hrun in Hr.
  - rewrite Hrun in He. injection He as <-.
    destruct Hwhy as [[_ ->]|(c & _ & Hbad)]; [left|right]; eauto.
Qed.

Lemma properties_parse_Raise (w : World) (fls : gset string)
  (repr : representation) (e : exception) :
  PropertiesParser.get_as_dictionary w fls repr = Raise e ->
  expected_exception e.
Proof.
  unfold PropertiesParser.get_as_dictionary, PropertiesParser.parse_to_dict.
  intros Hrun.
  destruct (parse_loop_Raise w
              (fun _ c => Ok (PropertiesParser.parse_file c))
              (elements fls) repr e Hrun) as [[f ->]|(f & c & Hbad)]; done.
Qed.

Lemma json_parse_Raise (loads : string -> option entries) (w : World)
  (fls : gset string) (repr : representation) (e : exception) :
  JsonParser.get_as_dictionary loads w fls repr = Raise e ->
  expected_exception e.
Proof.
  unfold JsonParser.get_as_dictionary, JsonParser.parse_to_dict.
  generalize (elements fls). intros l. revert repr.
  induction l as [|x l IH]; intros repr; cbn [for_each]; [done|].
  destruct (read_file w x) as [c|e0] eqn:Hread.
  - rewrite bind_Ok. destruct (loads c).
    + rewrite bind_Ok. apply IH.
    + by intros [= <-].
  - unfold read_file in Hread. destruct (fs w !! x); [done|].
    injection Hread as <-. by intros [= <-].
Qed.

Lemma new_entries_Raise (source candidate : string) (bundle : representation)
  (A : diff) (e : exception) :
  new_entries source candidate bundle A = Raise e ->
  dict_get bundle source = None \/ dict_get bundle candidate = None.
Proof.
  unfold new_entries, item.
  destruct (dict_get bundle source) as [S|]; [|by left].
  destruct (dict_get bundle candidate) as [C|]; [|by right].
  rewrite !bind_Ok. destruct (negb _); [|done].
  by destruct (new_values S C).
Qed.

Lemma check_missing_Raise (source : string) (bundle : representation)
  (M : diff) (e : exception) :
  check_missing_keys_in_other_locales source bundle M = Raise e ->
  dict_get bundle source = None.
Proof.
  unfold check_missing_keys_in_other_locales, item.
  destruct (dict_get bundle source) as [S|]; [|done].
  rewrite bind_Ok.
  destruct (check_missing_loop S bundle (dict_keys bundle) M)
    as (M' & Hrun & _); [done|].
  unfold item in Hrun. by rewrite Hrun.
Qed.

(** On a bundle whose snapshot is in place and whose extension has a
    parser, [process_bundle] fails only while reading the files or for want
    of a single default locale file. *)
Lemma process_bundle_ready_Raise (loads : string -> option entries)
  (b : Bundle) (st : state) (e : exception) :
  snapshot_ready b (world st) ->
  extension b = "properties" \/ extension b = "json" ->
  process_bundle loads b st = Raise e ->
  expected_exception e.
Proof.
  intros Hready Hext Hrun. unfold process_bundle in Hrun.
  set (parse := if String.eqb (extension b) "json" then _ else _) in Hrun.
  assert (Hparse : forall e', parse = Raise e' -> expected_exception e').
  { unfold parse. intros e'. destruct Hext as [-> | ->]; simpl.
    - destruct (PropertiesParser.get_as_dictionary _ _ _) eqn:Hp; [done|].
      intros [= <-]. by eapply properties_parse_Raise.
    - destruct (JsonParser.get_as_dictionary _ _ _ _) eqn:Hp; [done|].
      intros [= <-]. by eapply json_parse_Raise. }
  assert (Hparsed : forall parsed st1, parse = Ok (parsed, st1) ->
            world st1 = world st /\
            forall f, f ∈ files b -> is_Some (dict_get parsed f)).
  { unfold parse. intros parsed st1. destruct Hext as [-> | ->]; simpl.
    - destruct (PropertiesParser.get_as_dictionary _ _ _) eqn:Hp; [|done].
      intros [= <- <-]. split; [done|].
      apply properties_parse_Ok in Hp as [Hin _].
      intros f Hf. destruct (Hin f Hf) as (c & _ & ->). done.
    - destruct (JsonParser.get_as_dictionary _ _ _ _) eqn:Hp; [|done].
      intros [= <- <-]. split; [done|].
      apply json_parse_Ok in Hp as [Hin _].
      intros f Hf. destruct (Hin f Hf) as (c & d & _ & _ & ->). done. }
  destruct parse as [[parsed st1]|e1]; [|injection Hrun as <-; auto].
  destruct (Hparsed parsed st1 eq_refl) as [Hw Hfiles].
  rewrite bind_Ok, Hw in Hrun.
  destruct (Bundle.generate_snapshot_file b (world st))
    as [[[sp b1] w1]|e1] eqn:Hsnap.
  2:{ injection Hrun as <-.
      unfold Bundle.generate_snapshot_file in Hsnap.
      destruct (Bundle.get_default_locale_file b) as [d|e2] eqn:Hd.
      - rewrite bind_Ok in Hsnap. destruct (Hready d Hd) as [_ [c Hc]].
        by rewrite Hc in Hsnap.
      - injection Hsnap as <-.
        by destruct (get_default_locale_file_Raise b e2 Hd) as [m ->]. }
  rewrite bind_Ok in Hrun.
  destruct (snapshot_ready_call _ _ _ _ _ Hready Hsnap) as [-> ->].
  destruct (generate_snapshot_file_inv _ _ _ _ _ Hsnap)
    as (d & Hd & -> & _).
  rewrite Hd, bind_Ok in Hrun.
  destruct (Hready d Hd) as [Hsp _].
  destruct (new_entries _ _ parsed _) as [A|e1] eqn:Hnew.
  2:{ exfalso. apply new_entries_Raise in Hnew as [Hn|Hn].
      - destruct (Hfiles _ Hsp) as [? ?]. congruence.
      - destruct (Hfiles d (get_default_locale_file_elem b d Hd)) as [? ?].
        congruence. }
  rewrite bind_Ok in Hrun.
  destruct (check_missing_keys_in_other_locales _ parsed _)
    as [M|e1] eqn:Hcheck; [done|].
  exfalso. apply check_missing_Raise in Hcheck.
  destruct (Hfiles _ Hsp) as [? ?]. congruence.
Qed.

Lemma gather_Raise (bundles : list Bundle) (w : World) (e : exception) :
  gather bundles w = Raise e -> expected_exception e.
Proof.
  revert w. induction bundles as [|b bundles IH]; intros w; simpl; [done|].
  destruct (Bundle.generate_snapshot_file b w) as [[[sp b1] w1]|e1] eqn:Hsnap.
  - rewrite bind_Ok. destruct (gather bundles w1) as [[rest w2]|e2] eqn:Hrest.
    + by rewrite bind_Ok.
    + intros [= <-]. by eapply IH.
  - intros [= <-].
    by destruct (generate_snapshot_file_Raise _ _ _ Hsnap) as [[m ->]|[f ->]].
Qed.

Lemma gather_extension (bundles gathered : list Bundle) (w w' : World) :
  gather bundles w = Ok (gathered, w') ->
  Forall2 (fun b b' => extension b' = extension b) bundles gathered.
Proof.
  revert gathered w. induction bundles as [|b bundles IH];
    intros gathered w; simpl.
  - intros [= <- _]. constructor.
  - intros ([[sp b1] w1] & Hsnap & Hrest)%bind_Ok_inv.
    apply bind_Ok_inv in Hrest as ([rest' w2] & Hgather & [= <- <-]).
    constructor; [|by eapply IH].
    by destruct (generate_snapshot_file_fields _ _ _ _ _ Hsnap)
      as (_ & ? & _).
Qed.

Lemma process_all_ready_Raise (loads : string -> option entries)
  (bundles : list Bundle) (st : state) (e : exception) :
  Forall (fun b => snapshot_ready b (world st)) bundles ->
  Forall (fun b => extension b = "properties" \/ extension b = "json")
    bundles ->
  process_all loads bundles st = Raise e ->
  expected_exception e.
Proof.
  revert st. induction bundles as [|b bundles IH]; intros st; simpl; [done|].
  intros [Hb Hrest]%Forall_cons [Hext Hexts]%Forall_cons.
  destruct (process_bundle loads b st) as [[b1 st1]|e1] eqn:Hproc.
  - rewrite bind_Ok.
    destruct (process_all loads bundles st1) as [[rest st2]|e2] eqn:Hall.
    + by rewrite bind_Ok.
    + intros [= <-]. eapply (IH st1); [|done..].
      destruct (process_bundle_Ok _ _ _ _ _ Hproc)
        as (_ & sp & _ & _ & _ & _ & _ & Hsnap & _).
      destruct (snapshot_ready_call _ _ _ _ _ Hb Hsnap) as [_ Hw].
      by rewrite Hw.
  - intros [= <-]. by eapply process_bundle_ready_Raise.
Qed.

Lemma validate_bundle_Failed (env : Env) (bundle : declaration)
  (f : failure) :
  Validator.validate_bundle env bundle = Failed f ->
  (exists m, f = Exit m) \/ (exists dir, f = OSError dir).
Proof.
  unfold Validator.validate_bundle.
  destruct (Validator.validate_keys_in_bundle bundle) as [[]|f0] eqn:Hkeys.
  - apply validate_keys_Done in Hkeys as [[p Hp] [ext Hext]].
    rewrite outcome_bind_Done, (get_string_Some _ _ _ Hp), outcome_bind_Done,
      Hext.
    destruct (negb (path_exists _ _)); [intros [= <-]; eauto|].
    destruct (negb (bool_decide _)); [intros [= <-]; eauto|].
    unfold list_directory. destruct (listdir _ _) as [names|].
    + rewrite outcome_bind_Done. destruct (existsb _ _); [done|].
      intros [= <-]; eauto.
    + intros [= <-]; eauto.
  - intros [= <-]. unfold Validator.validate_keys_in_bundle in Hkeys.
    destruct (filter _ _); [done|]. injection Hkeys as <-. eauto.
Qed.

Lemma validate_Failed (env : Env) (data : configuration) (f : failure) :
  Validator.validate env data = Failed f ->
  (exists m, f = Exit m) \/ (exists dir, f = OSError dir).
Proof.
  unfold Validator.validate.
  destruct (dict_get data "bundles") as [[|b bundles]|];
    [intros [= <-]; eauto| |intros [= <-]; eauto].
  generalize (b :: bundles). intros l.
  induction l as [|x l IH]; simpl; [done|].
  destruct (Validator.validate_bundle env x) as [[]|f0] eqn:Hx.
  - by rewrite outcome_bind_Done.
  - intros [= <-]. by eapply validate_bundle_Failed.
Qed.

Lemma validated_bundles_run (env : Env) (data : configuration) :
  Validator.validate env data = Done tt ->
  exists bundles parsed,
    dict_get data "bundles" = Some bundles
    /\ Bundler.parse_all env bundles [] = Done parsed
    /\ Forall (fun b => extension b = "properties" \/ extension b = "json")
         parsed.
Proof.
  intros (bundles & Hdata & Hvalid)%validate_Done.
  destruct (parse_all_valid env bundles [] Hvalid) as (parsed & Hrun & Hof).
  exists bundles, parsed. split_and!; [done..|].
  clear Hrun Hdata. revert Hvalid.
  induction Hof as [|decl b bundles parsed Hdb _ IH]; intros Hvalid;
    [constructor|].
  apply Forall_cons in Hvalid as [Hdecl Hvalid].
  constructor; [|by apply IH].
  destruct (valid_bundle_of env decl b Hdecl Hdb) as (Hacc & _).
  unfold Validator.ACCEPTED_FILE_TYPES in Hacc.
  apply elem_of_cons in Hacc as [?|Hacc]; [by left|].
  apply elem_of_cons in Hacc as [?|Hacc]; [by right|].
  by apply elem_of_nil in Hacc.
Qed.

Lemma expected_exception_other (e : exception) :
  expected_exception e ->
  e <> NameError "whoami" /\ forall key, e <> KeyError key.
Proof. by destruct e. Qed.

(** X17. A run of [Driver.main] never reaches the unsupported-extension
    branch of [process_bundle], and no lookup in a parsed mapping fails:
    whatever the configuration and the disk, a run that does not complete
    ends neither with the [NameError] for [whoami] nor with a [KeyError].
    The validator has let only the two supported extensions through, and
    [gather] has put every snapshot among the files of its bundle before
    the parsers run. *)
Theorem driver_unreachable_failures (loads : string -> option entries)
  (env : Env) (file : option configuration) (output_option : string)
  (w : World) (f : failure) :
  Driver.main loads env file output_option w = Failed f ->
  f <> Raised (NameError "whoami") /\ forall key, f <> Raised (KeyError key).
Proof.
  unfold Driver.main, Driver.load_config.
  destruct file as [data|]; [|by intros [= <-]].
  rewrite outcome_bind_Done.
  destruct (Validator.validate env data) as [[]|f0] eqn:Hvalid.
  2:{ intros [= <-].
      by destruct (validate_Failed _ _ _ Hvalid) as [[m ->]|[dir ->]]. }
  rewrite outcome_bind_Done.
  destruct (validated_bundles_run env data Hvalid)
    as (bundles & parsed & Hdata & Hparse & Hexts).
  unfold Bundler.gather_all. rewrite Hdata, Hparse, outcome_bind_Done.
  intros Hrun.
  assert (Hkind : exists e, f = Raised e /\ expected_exception e).
  { destruct (gather parsed w) as [[gathered w1]|e] eqn:Hgather.
    2:{ injection Hrun as <-. exists e. split; [done|].
        by eapply gather_Raise. }
    simpl in Hrun. unfold generate_all in Hrun.
    destruct (process_all loads gathered (initial_state w1))
      as [[bs st1]|e] eqn:Hall.
    { rewrite bind_Ok in Hrun. by destruct (print_manifest _ _ _ _ _). }
    injection Hrun as <-. exists e. split; [done|].
    destruct (gather_ready _ _ _ _ Hgather) as [Hready _].
    eapply (process_all_ready_Raise loads gathered (initial_state w1));
      [done| |done].
    apply gather_extension in Hgather. clear -Hgather Hexts.
    induction Hgather as [|b b' l l' Hb _ IH]; [constructor|].
    apply Forall_cons in Hexts as [? ?]. constructor; [by rewrite Hb|auto]. }
  destruct Hkind as (e & -> & [Hname Hkey]%expected_exception_other).
  split; [congruence|]. intros key. specialize (Hkey key). congruence.
Qed.

Lemma driver_unreachable_failures_witness :
  exists file,
    Driver.main (fun _ => None)
      (mkEnv (fun p => p) (fun p => String.eqb p "/l10n")
         (fun p => if String.eqb p "/l10n" then Some ["m_en_US.json"]
                   else None))
      (Some [("bundles", [[("path", "/l10n"); ("extension", "json")]])])
      "yaml" (mkWorld {["/l10n/m_en_US.json" := "{"]} [])
    = Failed (Raised (JSONDecodeError file))
    /\ Raised (JSONDecodeError file) <> Raised (NameError "whoami").
Proof.
  eexists. split; [by vm_compute|].
  apply (driver_unreachable_failures (fun _ => None)
           (mkEnv (fun p => p) (fun p => String.eqb p "/l10n")
              (fun p => if String.eqb p "/l10n" then Some ["m_en_US.json"]
                        else None))
           (Some [("bundles", [[("path", "/l10n"); ("extension", "json")]])])
           "yaml" (mkWorld {["/l10n/m_en_US.json" := "{"]} [])).
  by vm_compute.
Defined.

(** X18. A run of [Driver.main] that completes is a run of [main] over the
    bundles built from the declarations: there is a configuration file, its
    declarations all pass the validator's checks, each gives the bundle that
    [Bundler.parse_bundle] builds for it, and the result is the one of
    [gather] followed by [generate_all] on these bundles, started with
    empty class-level attributes. *)
Theorem driver_completes (loads : string -> option entries) (env : Env)
  (file : option configuration) (output_option : string) (w : World)
  (bs : list Bundle) (st : state) :
  Driver.main loads env file output_option w = Done (bs, st) ->
  exists data bundles parsed,
    file = Some data
    /\ dict_get data "bundles" = Some bundles
    /\ bundles <> []
    /\ Forall (valid_declaration env) bundles
    /\ Forall2 (bundle_of env) bundles parsed
    /\ main loads output_option parsed w = Ok (bs, st).
Proof.
  unfold Driver.main, Driver.load_config.
  destruct file as [data|]; [|done]. rewrite outcome_bind_Done.
  intros ([] & Hvalid & Hrest)%outcome_bind_inv.
  pose proof Hvalid as (bundles & Hdata & Hall)%validate_Done.
  assert (Hne : bundles <> []).
  { unfold Validator.validate in Hvalid. rewrite Hdata in Hvalid.
    by destruct bundles. }
  destruct (parse_all_valid env bundles [] Hall) as (parsed & Hparse & Hof).
  unfold Bundler.gather_all in Hrest.
  rewrite Hdata, Hparse, outcome_bind_Done in Hrest.
  exists data, bundles, parsed. split_and!; [done..|].
  unfold main. simpl in Hrest.
  destruct (gather parsed w) as [[gathered w1]|e]; [|done].
  simpl in Hrest. rewrite bind_Ok.
  destruct (generate_all _ _ _ _) as [r|e]; [|done].
  by injection Hrest as ->.
Qed.

Lemma driver_completes_witness :
  exists bs st parsed,
    Driver.main (fun _ => None) l10n_env (Some l10n_config) "yaml" disk
    = Done (bs, st)
    /\ main (fun _ => None) "yaml" parsed disk = Ok (bs, st).
Proof.
  destruct (Driver.main (fun _ => None) l10n_env (Some l10n_config) "yaml"
              disk) as [[bs st]|f] eqn:Hmain; [|by vm_compute in Hmain].
  destruct (driver_completes _ _ _ _ _ _ _ Hmain)
    as (data & bundles & parsed & _ & _ & _ & _ & _ & Hrun).
  exists bs, st, parsed. split; [reflexivity|exact Hrun].
Defined.

(** ** What one bundle does to the results of the others *)

(** X19. A call of [process_bundle] that returns recomputes [missing]
    against the snapshot of its bundle for every file held by the
    dictionary of the parser that serves the bundle's extension, the files
    parsed for earlier bundles included: for such a file the entry is
    replaced when a key of this snapshot is missing from it and kept
    otherwise. Files the parser does not hold keep their entry, [additions]
    changes at most at the default locale file of the bundle, and the
    parser's dictionary keeps its bindings for files outside the bundle. *)
Theorem process_bundle_across_bundles (loads : string -> option entries)
  (b b' : Bundle) (st st' : state) :
  process_bundle loads b st = Ok (b', st') ->
  exists sp dl S,
    Bundle.generate_snapshot_file b (world st) = Ok (sp, b', world st')
    /\ Bundle.get_default_locale_file b' = Ok dl
    /\ dict_get (parser_representation (extension b) st') sp = Some S
    /\ (forall f F,
          dict_get (parser_representation (extension b) st') f = Some F ->
          dict_get (missing st') f = match missing_keys S F with
                                     | [] => dict_get (missing st) f
                                     | found => Some found
                                     end)
    /\ (forall f,
          dict_get (parser_representation (extension b) st') f = None ->
          dict_get (missing st') f = dict_get (missing st) f)
    /\ (forall f, f <> dl ->
          dict_get (additions st') f = dict_get (additions st) f)
    /\ (forall f, f ∉ files b ->
          dict_get (parser_representation (extension b) st') f
          = dict_get (parser_representation (extension b) st) f).
Proof.
  intros Hrun.
  destruct (process_bundle_Ok _ _ _ _ _ Hrun)
    as (parsed & sp & dl & _ & Hout & Hjson & Hprop & Hsnap & Hdl & Hnew
        & Hcheck & _).
  assert (Hrepr : parser_representation (extension b) st' = parsed).
  { unfold parser_representation. rewrite Hjson, Hprop.
    by destruct (String.eqb (extension b) "json"). }
  rewrite Hrepr.
  apply check_missing_Ok in Hcheck as (S & HS & Hmout & Hmin).
  apply new_entries_Ok in Hnew as (S' & C & _ & _ & Hadd).
  exists sp, dl, S. split_and!; [done..| | |done].
  - intros f Hf. apply Hmout. by apply dict_get_None.
  - intros f Hne. rewrite Hadd. destruct (dict_eqb S' C); [done|].
    destruct (new_values S' C); [done|]. by apply dict_get_set_ne.
Qed.

Lemma process_bundle_across_bundles_witness :
  exists b' st' dl,
    process_bundle (fun _ => None) l10n_gathered
      (initial_state disk_with_snapshot) = Ok (b', st')
    /\ Bundle.get_default_locale_file b' = Ok dl
    /\ forall f, f <> dl -> dict_get (additions st') f = None.
Proof.
  destruct (process_bundle (fun _ => None) l10n_gathered
              (initial_state disk_with_snapshot))
    as [[b' st']|e] eqn:Hrun; [|by vm_compute in Hrun].
  destruct (process_bundle_across_bundles _ _ _ _ _ Hrun)
    as (sp & dl & S & _ & Hdl & _ & _ & _ & Hadd & _).
  exists b', st', dl. split; [reflexivity|]. split; [exact Hdl|exact Hadd].
Defined.

(** ** An edit of the default locale file, seen by the two diffs *)

Lemma dict_values_cons {V} (kv : string * V) (d : list (string * V)) :
  dict_values (kv :: d) = snd kv :: dict_values d.
Proof. done. Qed.

Lemma dict_values_set_filter (L : list string) (T : entries) (k v : string) :
  (forall x, x ∈ dict_values T -> x ∈ L) ->
  filter (fun x => x ∉ L) (dict_values (dict_set T k v))
  = if decide (v ∈ L) then [] else [v].
Proof.
  induction T as [|[k0 v0] T IH]; cbn [dict_set]; intros Hsub.
  - rewrite dict_values_cons, filter_cons. cbn [snd dict_values map].
    rewrite filter_nil.
    by destruct (decide (v ∉ L)), (decide (v ∈ L)).
  - rewrite dict_values_cons in Hsub. cbn [snd] in Hsub.
    assert (Hv0 : v0 ∈ L) by apply Hsub, list_elem_of_here.
    assert (HT : forall x, x ∈ dict_values T -> x ∈ L).
    { intros x Hx. by apply Hsub, list_elem_of_further. }
    destruct (String.eqb k0 k); rewrite dict_values_cons, filter_cons;
      cbn [snd].
    + assert (Hrest : filter (fun x => x ∉ L) (dict_values T) = []).
      { apply filter_nil_iff. intros x Hx Hn. by apply Hn, HT. }
      rewrite Hrest.
      by destruct (decide (v ∉ L)), (decide (v ∈ L)).
    + rewrite decide_False by (intros Hn; by apply Hn). by apply IH.
Qed.

(** X20. Setting one key of the default locale file, new or not, to a
    value [v], starting from the snapshot's mapping: the additions are [v]
    alone when [v] is no value of the snapshot and nothing when it is one,
    and no key is missing from the default locale file. An edited value is
    thus reported like a new entry, the value it replaces is not reported,
    and a new key whose value the snapshot already has is not reported at
    all. *)
Theorem edit_seen_as_addition (S : entries) (k v : string) :
  dict_wf S ->
  new_values S (dict_set S k v)
  = (if decide (v ∈ dict_values S) then [] else [v])
  /\ missing_keys S (dict_set S k v) = [].
Proof.
  intros HS. split.
  - rewrite new_values_filter by by apply dict_wf_set.
    by apply dict_values_set_filter.
  - apply missing_keys_nil. intros x Hx. apply dict_keys_set_elem. by right.
Qed.

Lemma edit_seen_as_addition_witness :
  new_values [("a", "1"); ("b", "2")] (dict_set [("a", "1"); ("b", "2")] "a" "3")
  = ["3"]
  /\ missing_keys [("a", "1"); ("b", "2")]
       (dict_set [("a", "1"); ("b", "2")] "a" "3") = [].
Proof.
  apply (edit_seen_as_addition [("a", "1"); ("b", "2")] "a" "3").
  apply (bool_decide_unpack _). by vm_compute.
Defined.
